(** * Local-Fiesta: multi-model dispatch, retry policy and conversation store

    A shallow embedding of the dispatch hook [useAIModels], of the transport
    client [LMStudioRepository], of the [ConversationService] and of the
    [StorageService] of the Local-Fiesta dashboard, with the properties of
    its specification stated and settled against that embedding, followed by
    further properties of the same code.

    Conventions of the embedding:
    - a JavaScript string is a [string]; its characters stand for UTF-16 code
      units below 256, which is all the literals of the program use;
    - timestamps and delays (milliseconds) are integers [Z]; retry counters
      are [nat] (the settings dialog offers 0, 1, 2, 3 and 5);
    - an optional field of a TypeScript interface is an [option];
    - [Date.now()] and [Math.random()] are inputs of the operations that read
      them (arguments [now] and [rnd]);
    - [localStorage] is a record holding the two keys of the conversation
      service; whether a write fits the browser quota, and the size the
      service estimates, are given by a [Browser] (the program cannot compute
      them from its own data);
    - the keys of the storage service are a second record, [ConfigStorage],
      with a quota oracle of its own; what is stored under a key is JSON the
      services wrote, so reading it back does not fail;
    - a JavaScript object used as a map from ids to values is a [gmap] of its
      own properties; where the program reads or writes such an object under
      an id that [Object.prototype] already knows ([__proto__],
      [constructor], [toString], ...), the definitions say what that does
      ([inheritedName], [StorageService.preferencesOf],
      [HookActions.initializeConversations], [Effects.loadedColumns]);
    - the program runs in a browser, so [isAvailable()] of the services holds;
    - a React state setter called with an updater function is the application
      of that function to the current state; the values a callback closes
      over are the ones of the state it is called in. *)

From Stdlib Require Import ZArith Ascii String.
From stdpp Require Import gmap strings list pretty sorting.

Open Scope string_scope.
Open Scope nat_scope.
Open Scope list_scope.

(** ** JavaScript string primitives used by the program *)

Module Js.

(** [c.toLowerCase()] on one code unit: A-Z and the Latin-1 capitals. *)
Definition lowerChar (c : ascii) : ascii :=
  let n := nat_of_ascii c in
  if ((65 <=? n) && (n <=? 90))
     || ((192 <=? n) && (n <=? 222) && negb (n =? 215))
  then ascii_of_nat (n + 32) else c.

Fixpoint toLowerCase (s : string) : string :=
  match s with
  | EmptyString => EmptyString
  | String c r => String (lowerChar c) (toLowerCase r)
  end.

(** [s.startsWith(p)] *)
Definition startsWith (s p : string) : bool := String.prefix p s.

(** [s.includes(sub)] *)
Fixpoint includes (s sub : string) : bool :=
  if startsWith s sub then true
  else match s with
       | EmptyString => false
       | String _ r => includes r sub
       end.

(** White space and line terminators removed by [trim], below 256:
    TAB, LF, VT, FF, CR, SPACE and NBSP. *)
Definition isWhiteSpace (c : ascii) : bool :=
  let n := nat_of_ascii c in
  ((9 <=? n) && (n <=? 13)) || (n =? 32) || (n =? 160).

Fixpoint trimStart (s : string) : string :=
  match s with
  | EmptyString => EmptyString
  | String c r => if isWhiteSpace c then trimStart r else s
  end.

Fixpoint trimEnd (s : string) : string :=
  match s with
  | EmptyString => EmptyString
  | String c r =>
      match trimEnd r with
      | EmptyString => if isWhiteSpace c then EmptyString else String c EmptyString
      | r' => String c r'
      end
  end.

Definition trim (s : string) : string := trimEnd (trimStart s).

(** [s.substring(0, n)] *)
Definition substring0 (n : nat) (s : string) : string := String.substring 0 n s.

(** Truthiness of a string: the empty string is falsy. *)
Definition truthy (s : string) : bool :=
  match s with EmptyString => false | _ => true end.

(** [a || b] on strings. *)
Definition orElse (a : option string) (b : string) : string :=
  match a with
  | Some s => if truthy s then s else b
  | None => b
  end.

End Js.

(** ** The types of [@/types/ai-models] *)

Inductive Role := user | assistant | system.

#[global] Instance Role_eq_dec : EqDecision Role.
Proof. solve_decision. Defined.

(** The string a role is sent as. *)
Definition roleName (r : Role) : string :=
  match r with user => "user" | assistant => "assistant" | system => "system" end.

Record ChatMessage := {
  msg_role : Role;
  msg_content : string;
  msg_timestamp : Z;
  msg_modelId : option string
}.

Record Conversation := {
  conv_id : string;
  conv_title : string;
  conv_createdAt : Z;
  conv_updatedAt : Z;
  conv_messages : list ChatMessage;
  conv_modelIds : list string
}.

Record AttachmentFile := {
  att_id : string;
  att_name : string;
  att_type : string;
  att_size : Z;
  att_content : string
}.

Record PromptData := {
  text : string;
  attachments : list AttachmentFile
}.

(** [ModelConversation]; [mc_modelId] and [mc_isLoading] are mandatory in the
    interface but absent from an object built by spreading [undefined]. *)
Record ModelConversation := {
  mc_modelId : option string;
  mc_messages : list ChatMessage;
  mc_isLoading : option bool;
  mc_error : option string;
  mc_retryCount : option nat;
  mc_canRetry : option bool;
  mc_lastFailedPrompt : option PromptData
}.

Inductive RetryStrategy := immediate | exponential | fixed.

Record RetrySettings := {
  enabled : bool;
  maxRetries : nat;
  retryDelay : Z;
  retryStrategy : RetryStrategy;
  retryOnlyModelErrors : bool
}.

Record AIModel := {
  model_id : string;
  model_name : string;
  model_isEnabled : bool;
  model_isOnline : bool;
  model_useHistory : option bool
}.

(** Thrown values: the error classes of the program, the [DOMException]
    named AbortError, any other [Error], and a thrown value that is no
    [Error] at all. *)
Inductive ErrorClass :=
  ConfigurationError | NetworkError | ValidationError | AbortError
| OtherError | NotAnError.

Record JsError := {
  err_class : ErrorClass;
  err_message : string
}.

#[global] Instance ErrorClass_eq_dec : EqDecision ErrorClass.
Proof. solve_decision. Defined.

(** [e instanceof C] for a class [C] of the program. *)
Definition instanceof (e : JsError) (c : ErrorClass) : bool :=
  bool_decide (err_class e = c).

(** [e instanceof Error] *)
Definition instanceofError (e : JsError) : bool :=
  negb (instanceof e NotAnError).

(** A computation that returns or throws. *)
Inductive Outcome (A : Type) :=
| Returns (a : A)
| Throws (e : JsError).
Arguments Returns {A} a.
Arguments Throws {A} e.

(** [try { body } catch (error) { handler(error) }] *)
Definition tryCatch {A} (body : Outcome A) (handler : JsError -> Outcome A) : Outcome A :=
  match body with
  | Returns a => Returns a
  | Throws e => handler e
  end.

#[global] Instance Outcome_bind : MBind Outcome :=
  fun A B (k : A -> Outcome B) (m : Outcome A) =>
    match m with
    | Returns a => k a
    | Throws e => Throws e
    end.

Definition mkError (c : ErrorClass) (m : string) : JsError :=
  {| err_class := c; err_message := m |}.

(** ** The transport client, [lib/repos/lm-studio-repo.ts] *)

Module LMStudioRepository.

(** What [JSON.parse(await response.text())] gives for the body of a
    response that is not ok, as far as [sendMessage] looks at it:
    - [BodyUnreadable]: reading, parsing or a property access throws
      (no JSON, [null], a message that is no string);
    - [BodyNoMessage]: [errorData.error?.message] is undefined;
    - [BodyMessage m]: it is the string [m]. *)
Inductive ErrorBody :=
| BodyUnreadable
| BodyNoMessage
| BodyMessage (m : string).

(** What [fetch] does for one request. *)
Inductive FetchResult :=
| FetchRejects (e : JsError)
| FetchOk
| FetchNotOk (status : nat) (body : ErrorBody).

Definition dquote : string := String (ascii_of_nat 34) EmptyString.

(** The test of lines 117-120: the server says the model is unloaded. *)
Definition sendReportsModelUnloaded (m : string) : bool :=
  Js.includes (Js.toLowerCase m) "model"
  && (Js.includes (Js.toLowerCase m) "unloaded"
      || Js.includes (Js.toLowerCase m) "not loaded"
      || Js.includes (Js.toLowerCase m) "not found").

(** [sendMessage(modelId, messages)], given what [fetch] does. The request
    body does not influence the result, so [messages] is no argument. *)
Definition sendMessage (modelId : string) (r : FetchResult) : Outcome unit :=
  tryCatch
    (match r with
     | FetchRejects e => Throws e
     | FetchOk => Returns tt
     | FetchNotOk status body =>
         let errorMessage := "Failed to send message: HTTP " +:+ pretty status in
         errorMessage' ←
           tryCatch
             (match body with
              | BodyUnreadable => Throws (mkError OtherError "Unexpected token")
              | BodyNoMessage => Returns (Js.orElse None errorMessage)
              | BodyMessage m =>
                  if sendReportsModelUnloaded m
                  then Throws (mkError ConfigurationError
                                 ("Model " +:+ dquote +:+ modelId +:+ dquote
                                  +:+ " is not loaded. Please load the model in LM Studio first."))
                  else Returns (Js.orElse (Some m) errorMessage)
              end)
             (fun parseError => Returns errorMessage);
         Throws (mkError NetworkError errorMessage')
     end)
    (fun error =>
       if instanceof error NetworkError then Throws error
       else if instanceof error AbortError
       then Throws (mkError NetworkError "Request was cancelled")
       else Throws (mkError NetworkError
                      ("Failed to send message: "
                       +:+ (if instanceofError error then err_message error
                            else "Unknown error")))).

(** [parsed.error.message || parsed.error]: a string, or another value
    together with the text a template literal renders it as. *)
Inductive ErrorField :=
| ErrText (s : string)
| ErrOther (rendered : string).

Definition renderErrorField (f : ErrorField) : string :=
  match f with ErrText s => s | ErrOther r => r end.

(** The parsed JSON of one [data:] line: [parsed.error] (when truthy) and
    [parsed.choices?.[0]?.delta?.content]. *)
Record Parsed := {
  p_error : option ErrorField;
  p_content : option string
}.

(** One line of the event stream: its text, and what [JSON.parse] gives
    for its payload ([None]: it throws). *)
Record Line := {
  line_text : string;
  line_json : option Parsed
}.

(** The test of lines 198-201. *)
Definition streamReportsModelUnloaded (errorMsg : ErrorField) : bool :=
  match errorMsg with
  | ErrText s =>
      Js.includes (Js.toLowerCase s) "unloaded"
      || Js.includes (Js.toLowerCase s) "not loaded"
      || Js.includes (Js.toLowerCase s) "model not found"
  | ErrOther _ => false
  end.

(** [data.slice(6)] *)
Definition slice6 (s : string) : string :=
  String.substring 6 (String.length s - 6) s.

(** The body of the [try] of lines 192-210 for one payload: the fragment
    to yield, if any. *)
Definition parseData (l : Line) : Outcome (option string) :=
  tryCatch
    (match line_json l with
     | None => Throws (mkError OtherError "Unexpected token")
     | Some parsed =>
         match p_error parsed with
         | Some errorMsg =>
             if streamReportsModelUnloaded errorMsg
             then Throws (mkError ConfigurationError
                            "Model unloaded during response. Please reload the model in LM Studio.")
             else Throws (mkError NetworkError
                            ("Streaming error: " +:+ renderErrorField errorMsg))
         | None =>
             Returns (match p_content parsed with
                      | Some content => if Js.truthy content then Some content else None
                      | None => None
                      end)
         end
     end)
    (fun error =>
       if instanceof error ConfigurationError
          || instanceof error NetworkError
       then Throws error
       else Returns None).

(** [parseStreamingResponse(response)] as the fragments it yields and how
    it ends ([None]: it returns; [Some e]: it throws [e]). [lines] are the
    complete lines received; [readerEnd] is what [reader.read()] does
    after them ([None]: done; [Some e]: it rejects with [e]). *)
Fixpoint parseLines (lines : list Line) (readerEnd : option JsError)
  : list string * option JsError :=
  match lines with
  | [] => ([], readerEnd)
  | l :: rest =>
      let trimmed := Js.trim (line_text l) in
      if Js.startsWith trimmed "data: " then
        let data := slice6 trimmed in
        if String.eqb data "[DONE]" then ([], None)
        else match parseData l with
             | Returns (Some content) =>
                 let '(frags, e) := parseLines rest readerEnd in
                 (content :: frags, e)
             | Returns None => parseLines rest readerEnd
             | Throws e => ([], Some e)
             end
      else parseLines rest readerEnd
  end.

Definition parseStreamingResponse (hasBody : bool) (lines : list Line)
    (readerEnd : option JsError) : list string * option JsError :=
  if hasBody then parseLines lines readerEnd
  else ([], Some (mkError NetworkError "No response body available")).

End LMStudioRepository.

(** ** The conversation store, [lib/services/conversation-service.ts] *)

(** The two keys of [localStorage] the service owns. A key that was never
    set, or was removed, is [None]. *)
Record LocalStorage := {
  ls_conversations : option (list Conversation);
  ls_active : option string
}.

(** The browser around the store: [fits ls] tells whether [localStorage] can
    hold the contents [ls] (a [setItem] leading to contents that do not fit
    throws), and [storageSize ls] is the number of characters the private
    method [estimateStorageSize] counts over all keys. *)
Record Browser := {
  fits : LocalStorage -> bool;
  storageSize : LocalStorage -> Z
}.

Module ConversationService.

Definition MAX_STORAGE_SIZE : Z := 5 * 1024 * 1024.
Definition MAX_CONVERSATIONS : nat := 50.

(** [conversations.findIndex(conv => conv.id === id)] *)
Fixpoint findIndex (id : string) (l : list Conversation) : option nat :=
  match l with
  | [] => None
  | c :: r => if String.eqb (conv_id c) id then Some 0
              else S <$> findIndex id r
  end.

(** The conversation is written over the one with its id, or pushed
    (lines 118-124). *)
Definition upsert (conversations : list Conversation) (conversation : Conversation)
  : list Conversation :=
  match findIndex (conv_id conversation) conversations with
  | Some existingIndex => <[existingIndex := conversation]> conversations
  | None => conversations ++ [conversation]
  end.

(** [conversations.sort((a, b) => a.updatedAt - b.updatedAt)]: the sort of
    arrays is stable, so the result is the one of a stable insertion. *)
Fixpoint insertByUpdatedAt (c : Conversation) (l : list Conversation)
  : list Conversation :=
  match l with
  | [] => [c]
  | x :: r => if (conv_updatedAt c <=? conv_updatedAt x)%Z then c :: x :: r
              else x :: insertByUpdatedAt c r
  end.

Fixpoint sortByUpdatedAt (l : list Conversation) : list Conversation :=
  match l with
  | [] => []
  | c :: r => insertByUpdatedAt c (sortByUpdatedAt r)
  end.

Definition generateTitle (message : string) : string :=
  let title := Js.substring0 50 (Js.trim message) in
  if String.length title =? 50 then title +:+ "..." else title.

Definition getAllConversations (ls : LocalStorage) : list Conversation :=
  match ls_conversations ls with
  | Some conversations => conversations
  | None => []
  end.

Definition getConversation (ls : LocalStorage) (id : string) : option Conversation :=
  find (fun conv => String.eqb (conv_id conv) id) (getAllConversations ls).

Definition getActiveConversationId (ls : LocalStorage) : option string :=
  ls_active ls.

Definition clearActiveConversation (ls : LocalStorage) : LocalStorage :=
  {| ls_conversations := ls_conversations ls; ls_active := None |}.

Definition getConversationHistory (ls : LocalStorage) (conversationId modelId : string)
  : list ChatMessage :=
  match getConversation ls conversationId with
  | None => []
  | Some conversation => conv_messages conversation
  end.

Definition clearAllConversations (ls : LocalStorage) : LocalStorage :=
  {| ls_conversations := None; ls_active := None |}.

Section WithBrowser.
Variable B : Browser.

(** [localStorage.setItem(STORAGE_KEYS.CONVERSATIONS, JSON.stringify(l))];
    [None] when it throws. *)
Definition setConversations (ls : LocalStorage) (l : list Conversation)
  : option LocalStorage :=
  let ls' := {| ls_conversations := Some l; ls_active := ls_active ls |} in
  if fits B ls' then Some ls' else None.

Definition estimateStorageSize (ls : LocalStorage) : Z := storageSize B ls.

Definition setActiveConversation (ls : LocalStorage) (id : string) : LocalStorage :=
  let ls' := {| ls_conversations := ls_conversations ls; ls_active := Some id |} in
  if fits B ls' then ls' else ls.

Definition deleteConversation (ls : LocalStorage) (id : string) : LocalStorage :=
  let conversations := getAllConversations ls in
  let filtered := filter (fun conv => conv_id conv ≠ id) conversations in
  match setConversations ls filtered with
  | None => ls
  | Some ls1 =>
      if bool_decide (getActiveConversationId ls1 = Some id) then
        match getAllConversations ls1 with
        | first :: _ => setActiveConversation ls1 (conv_id first)
        | [] => clearActiveConversation ls1
        end
      else ls1
  end.

(** The first loop of [cleanupOldConversations] (lines 56-61). *)
Fixpoint evictOverCount (sortedConversations : list Conversation) (ls : LocalStorage)
  : list Conversation * LocalStorage :=
  match sortedConversations with
  | oldest :: rest =>
      if MAX_CONVERSATIONS <? length sortedConversations
      then evictOverCount rest (deleteConversation ls (conv_id oldest))
      else (sortedConversations, ls)
  | [] => (sortedConversations, ls)
  end.

(** The second loop (lines 64-69). *)
Fixpoint evictOverSize (sortedConversations : list Conversation) (ls : LocalStorage)
  : list Conversation * LocalStorage :=
  match sortedConversations with
  | oldest :: rest =>
      if (MAX_STORAGE_SIZE <? estimateStorageSize ls)%Z
         && (1 <? length sortedConversations)
      then evictOverSize rest (deleteConversation ls (conv_id oldest))
      else (sortedConversations, ls)
  | [] => (sortedConversations, ls)
  end.

Definition cleanupOldConversations (ls : LocalStorage) : LocalStorage :=
  let conversations := getAllConversations ls in
  let sortedConversations := sortByUpdatedAt conversations in
  let '(sortedConversations, ls1) := evictOverCount sortedConversations ls in
  snd (evictOverSize sortedConversations ls1).

Definition saveConversation (ls : LocalStorage) (conversation : Conversation)
  : LocalStorage :=
  match setConversations ls (upsert (getAllConversations ls) conversation) with
  | Some ls1 => cleanupOldConversations ls1
  | None =>
      let ls1 := cleanupOldConversations ls in
      match setConversations ls1 (upsert (getAllConversations ls1) conversation) with
      | Some ls2 => ls2
      | None => ls1
      end
  end.

(** [createConversation(initialMessage?)]; [now] is [Date.now()] and
    [rnd] is [Math.random().toString(36).substr(2, 9)]. *)
Definition createConversation (now : Z) (rnd : string) (ls : LocalStorage)
    (initialMessage : option string) : Conversation * LocalStorage :=
  let conversation :=
    {| conv_id := "conv_" +:+ pretty now +:+ "_" +:+ rnd;
       conv_title := match initialMessage with
                     | Some m => if Js.truthy m then generateTitle m
                                 else "New Conversation"
                     | None => "New Conversation"
                     end;
       conv_createdAt := now;
       conv_updatedAt := now;
       conv_messages := [];
       conv_modelIds := [] |} in
  let ls1 := saveConversation ls conversation in
  (conversation, setActiveConversation ls1 (conv_id conversation)).

Definition addMessageToConversation (now : Z) (ls : LocalStorage)
    (conversationId : string) (message : ChatMessage) : LocalStorage :=
  match getConversation ls conversationId with
  | None => ls
  | Some conversation =>
      let messages := conv_messages conversation ++ [message] in
      let title :=
        if bool_decide (msg_role message = user)
           && (length (filter (fun m => msg_role m = user) messages) =? 1)
        then generateTitle (msg_content message)
        else conv_title conversation in
      let modelIds :=
        match msg_modelId message with
        | Some m =>
            if Js.truthy m && negb (bool_decide (m ∈ conv_modelIds conversation))
            then conv_modelIds conversation ++ [m]
            else conv_modelIds conversation
        | None => conv_modelIds conversation
        end in
      saveConversation ls
        {| conv_id := conv_id conversation;
           conv_title := title;
           conv_createdAt := conv_createdAt conversation;
           conv_updatedAt := now;
           conv_messages := messages;
           conv_modelIds := modelIds |}
  end.

End WithBrowser.

End ConversationService.

(** ** The dispatch hook [useAIModels] *)

(** A message as it is sent to the inference server. *)
Record ApiMessage := {
  api_role : string;
  api_content : string
}.

(** The React state of the hook, as far as the dispatch engine uses it. *)
Record HookState := {
  models : list AIModel;
  conversations : gmap string ModelConversation;
  allConversations : list Conversation;
  activeConversationId : option string;
  configRetrySettings : option RetrySettings;
  error : option string
}.

(** The hook state, the store, and the requests handed to
    [lmStudioRepo.sendMessage] so far (oldest first). *)
Record World := {
  hook : HookState;
  storage : LocalStorage;
  requests : list (string * list ApiMessage)
}.

(** What a per-model task is suspended on. *)
Inductive Phase :=
| AwaitingResponse                       (* [await lmStudioRepo.sendMessage] *)
| Streaming (assistantMessage : string)  (* [for await], with the text so far *)
| Waiting (delay : Z)                    (* [await] of [setTimeout(resolve, delay)] *)
| Settled.                               (* left the [while] loop *)

#[global] Instance Phase_eq_dec : EqDecision Phase.
Proof. solve_decision. Defined.

(** What the awaited promise of a task settles with. *)
Inductive Signal :=
| SendResolved
| SendRejected (e : JsError)
| Fragment (chunk : string)
| StreamEnds
| StreamThrows (e : JsError)
| TimerFires.

(** One element of [targetModels.map(async (model) => ...)]: the values the
    closure holds and its local variable [retryCount]. *)
Record Task := {
  task_model : AIModel;
  task_prompt : PromptData;
  task_activeId : string;
  task_settings : RetrySettings;
  task_retryCount : nat;
  task_phase : Phase
}.

(** A call of [sendPromptToModels] in progress: the world and the tasks of
    [sendPromises], in the order of [targetModels]. *)
Record Engine := {
  world : World;
  tasks : list Task
}.

Module UseAIModels.

Definition setHook (w : World) (h : HookState) : World :=
  {| hook := h; storage := storage w; requests := requests w |}.

Definition setStorage (w : World) (ls : LocalStorage) : World :=
  {| hook := hook w; storage := ls; requests := requests w |}.

Definition setConversations (w : World)
    (f : gmap string ModelConversation -> gmap string ModelConversation) : World :=
  setHook w {| models := models (hook w);
               conversations := f (conversations (hook w));
               allConversations := allConversations (hook w);
               activeConversationId := activeConversationId (hook w);
               configRetrySettings := configRetrySettings (hook w);
               error := error (hook w) |}.

Definition setAllConversations (w : World) (l : list Conversation) : World :=
  setHook w {| models := models (hook w);
               conversations := conversations (hook w);
               allConversations := l;
               activeConversationId := activeConversationId (hook w);
               configRetrySettings := configRetrySettings (hook w);
               error := error (hook w) |}.

Definition setActiveConversationId (w : World) (id : option string) : World :=
  setHook w {| models := models (hook w);
               conversations := conversations (hook w);
               allConversations := allConversations (hook w);
               activeConversationId := id;
               configRetrySettings := configRetrySettings (hook w);
               error := error (hook w) |}.

Definition setError (w : World) (e : option string) : World :=
  setHook w {| models := models (hook w);
               conversations := conversations (hook w);
               allConversations := allConversations (hook w);
               activeConversationId := activeConversationId (hook w);
               configRetrySettings := configRetrySettings (hook w);
               error := e |}.

(** [if (updated[k]) { updated[k] = f(updated[k]) }] *)
Definition updateIfPresent (k : string) (f : ModelConversation -> ModelConversation)
    (m : gmap string ModelConversation) : gmap string ModelConversation :=
  match m !! k with
  | Some mc => <[k := f mc]> m
  | None => m
  end.

(** The object [{}] that spreading [undefined] gives. *)
Definition emptyObject : ModelConversation :=
  {| mc_modelId := None; mc_messages := []; mc_isLoading := None; mc_error := None;
     mc_retryCount := None; mc_canRetry := None; mc_lastFailedPrompt := None |}.

(** The settings used when [config.retrySettings] is missing (lines 287-293). *)
Definition defaultRetrySettings : RetrySettings :=
  {| enabled := true; maxRetries := 2; retryDelay := 2000;
     retryStrategy := fixed; retryOnlyModelErrors := true |}.

Definition getRetryDelay (retrySettings : RetrySettings) (retryCount : nat) : Z :=
  match retryStrategy retrySettings with
  | exponential => (retryDelay retrySettings * 2 ^ Z.of_nat retryCount)%Z
  | immediate => 0%Z
  | fixed => retryDelay retrySettings
  end.

Definition shouldRetryError (retrySettings : RetrySettings) (error : JsError) : bool :=
  if negb (enabled retrySettings) then false
  else if retryOnlyModelErrors retrySettings
       then instanceof error ConfigurationError
            && Js.includes (Js.toLowerCase (err_message error)) "not loaded"
       else true.

(** The filter of lines 152-154 and 570-572: the user messages and the
    messages of the model. *)
Definition modelMessages (modelId : string) (messages : list ChatMessage)
  : list ChatMessage :=
  filter (fun msg => msg_role msg = user ∨ msg_modelId msg = Some modelId) messages.

(** The state update of lines 350-382 on the entry of the model. *)
Definition streamUpdate (modelId : string) (assistantMessage : string) (now : Z)
    (mc : ModelConversation) : ModelConversation :=
  let messages := mc_messages mc in
  let pushed :=
    messages ++ [ {| msg_role := assistant; msg_content := assistantMessage;
                     msg_timestamp := now; msg_modelId := Some modelId |} ] in
  let messages' :=
    match last messages with
    | Some lastMessage =>
        if bool_decide (msg_role lastMessage = assistant)
           && bool_decide (msg_modelId lastMessage = Some modelId)
        then <[length messages - 1 :=
                 {| msg_role := msg_role lastMessage;
                    msg_content := assistantMessage;
                    msg_timestamp := msg_timestamp lastMessage;
                    msg_modelId := msg_modelId lastMessage |}]> messages
        else pushed
    | None => pushed
    end in
  {| mc_modelId := mc_modelId mc;
     mc_messages := messages';
     mc_isLoading := Some false;
     mc_error := None;
     mc_retryCount := Some 0;
     mc_canRetry := Some false;
     mc_lastFailedPrompt := mc_lastFailedPrompt mc |}.

(** The state update of lines 408-420. *)
Definition retryingUpdate (retryCount maxRetries : nat) (mc : ModelConversation)
  : ModelConversation :=
  {| mc_modelId := mc_modelId mc;
     mc_messages := mc_messages mc;
     mc_isLoading := Some true;
     mc_error := Some ("Retrying... (" +:+ pretty retryCount +:+ "/"
                       +:+ pretty maxRetries +:+ ")");
     mc_retryCount := Some retryCount;
     mc_canRetry := Some false;
     mc_lastFailedPrompt := mc_lastFailedPrompt mc |}.

(** The state update of lines 431-444. *)
Definition failedUpdate (errorMessage : string) (retryCount : nat) (prompt : PromptData)
    (mc : ModelConversation) : ModelConversation :=
  {| mc_modelId := mc_modelId mc;
     mc_messages := mc_messages mc;
     mc_isLoading := Some false;
     mc_error := Some errorMessage;
     mc_retryCount := Some retryCount;
     mc_canRetry := Some true;
     mc_lastFailedPrompt := Some prompt |}.

Definition setPhase (t : Task) (p : Phase) : Task :=
  {| task_model := task_model t; task_prompt := task_prompt t;
     task_activeId := task_activeId t; task_settings := task_settings t;
     task_retryCount := task_retryCount t; task_phase := p |}.

Definition setRetryCount (t : Task) (n : nat) : Task :=
  {| task_model := task_model t; task_prompt := task_prompt t;
     task_activeId := task_activeId t; task_settings := task_settings t;
     task_retryCount := n; task_phase := task_phase t |}.

(** [msg => ({ role: msg.role, content: msg.content })] *)
Definition toApiMessage (msg : ChatMessage) : ApiMessage :=
  {| api_role := roleName (msg_role msg); api_content := msg_content msg |}.

(** The outbound list of lines 327-338. *)
Definition apiMessages (ls : LocalStorage) (model : AIModel) (currentActiveId : string)
    (prompt : PromptData) : list ApiMessage :=
  if bool_decide (model_useHistory model = Some true) && Js.truthy currentActiveId
  then toApiMessage
         <$> ConversationService.getConversationHistory ls currentActiveId (model_id model)
  else [ {| api_role := "user"; api_content := text prompt |} ].

(** One turn of the [while] loop up to its first [await]: the loop test,
    the outbound list, and the call of [lmStudioRepo.sendMessage]. *)
Definition beginAttempt (w : World) (t : Task) : World * Task :=
  if task_retryCount t <=? maxRetries (task_settings t) then
    let msgs := apiMessages (storage w) (task_model t) (task_activeId t) (task_prompt t) in
    ({| hook := hook w; storage := storage w;
        requests := requests w ++ [(model_id (task_model t), msgs)] |},
     setPhase t AwaitingResponse)
  else (w, setPhase t Settled).

(** The [catch] block of lines 399-446. *)
Definition onError (w : World) (t : Task) (err : JsError) : World * Task :=
  let retrySettings := task_settings t in
  let maxRetries := maxRetries retrySettings in
  let modelId := model_id (task_model t) in
  let errorMessage :=
    if instanceofError err then err_message err else "Failed to get response" in
  let shouldRetry := shouldRetryError retrySettings err in
  if shouldRetry && (task_retryCount t <? maxRetries) then
    let retryCount := S (task_retryCount t) in
    let w1 := setConversations w
                (updateIfPresent modelId (retryingUpdate retryCount maxRetries)) in
    let delay := getRetryDelay retrySettings (retryCount - 1) in
    if (0 <? delay)%Z then (w1, setPhase (setRetryCount t retryCount) (Waiting delay))
    else beginAttempt w1 (setRetryCount t retryCount)
  else
    (setConversations w
       (updateIfPresent modelId
          (failedUpdate errorMessage (task_retryCount t) (task_prompt t))),
     setPhase t Settled).

Section WithBrowser.
Variable B : Browser.

(** The task resumes with what it was waiting for; [now] is the value of
    [Date.now()] at that moment. A signal the task is not waiting for
    leaves everything as it is. *)
Definition step (now : Z) (w : World) (t : Task) (sig : Signal) : World * Task :=
  let modelId := model_id (task_model t) in
  match task_phase t, sig with
  | AwaitingResponse, SendResolved => (w, setPhase t (Streaming ""))
  | AwaitingResponse, SendRejected e => onError w t e
  | Streaming assistantMessage, Fragment chunk =>
      let assistantMessage := assistantMessage +:+ chunk in
      (setConversations w
         (updateIfPresent modelId (streamUpdate modelId assistantMessage now)),
       setPhase t (Streaming assistantMessage))
  | Streaming assistantMessage, StreamEnds =>
      let w1 :=
        if Js.truthy assistantMessage && Js.truthy (task_activeId t) then
          setStorage w
            (ConversationService.addMessageToConversation B now (storage w)
               (task_activeId t)
               {| msg_role := assistant; msg_content := assistantMessage;
                  msg_timestamp := now; msg_modelId := Some modelId |})
        else w in
      (w1, setPhase t Settled)
  | Streaming _, StreamThrows e => onError w t e
  | Waiting _, TimerFires => beginAttempt w t
  | _, _ => (w, t)
  end.

(** [await Promise.allSettled(sendPromises)] and the refresh of the
    list of conversations that follows it (lines 450-453). *)
Definition allSettled (ts : list Task) : bool :=
  forallb (fun t => bool_decide (task_phase t = Settled)) ts.

Definition refreshAllConversations (w : World) : World :=
  setAllConversations w (ConversationService.getAllConversations (storage w)).

(** The signal [sig] reaches the task at position [i]. *)
Definition deliver (eng : Engine) (i : nat) (now : Z) (sig : Signal) : Engine :=
  match tasks eng !! i with
  | None => eng
  | Some t =>
      let '(w1, t1) := step now (world eng) t sig in
      let ts := <[i := t1]> (tasks eng) in
      let w2 :=
        if negb (bool_decide (task_phase t = Settled)) && allSettled ts
        then refreshAllConversations w1 else w1 in
      {| world := w2; tasks := ts |}
  end.

(** A schedule: which task resumes, when, and with what. *)
Definition run (eng : Engine) (schedule : list (nat * Z * Signal)) : Engine :=
  foldl (fun eng '(i, now, sig) => deliver eng i now sig) eng schedule.

(** The synchronous start of the tasks, in the order of [targetModels]. *)
Fixpoint startTasks (w : World) (currentActiveId : string)
    (retrySettings : RetrySettings) (prompt : PromptData)
    (targetModels : list AIModel) : World * list Task :=
  match targetModels with
  | [] => (w, [])
  | model :: rest =>
      let '(w1, t) :=
        beginAttempt w
          {| task_model := model; task_prompt := prompt;
             task_activeId := currentActiveId; task_settings := retrySettings;
             task_retryCount := 0; task_phase := AwaitingResponse |} in
      let '(w2, ts) := startTasks w1 currentActiveId retrySettings prompt rest in
      (w2, t :: ts)
  end.

(** [sendPromptToModels(targetModels, prompt)]. The callback reads
    [activeConversationId] and [config.retrySettings] of the render it
    was created in: they are the arguments [closureActiveId] and
    [closureSettings]. *)
Definition sendPromptToModels (closureActiveId : option string)
    (closureSettings : option RetrySettings) (w : World)
    (targetModels : list AIModel) (prompt : PromptData) : Engine :=
  match closureActiveId with
  | Some currentActiveId =>
      if Js.truthy currentActiveId then
        let retrySettings := default defaultRetrySettings closureSettings in
        let '(w1, ts) := startTasks w currentActiveId retrySettings prompt targetModels in
        {| world := if allSettled ts then refreshAllConversations w1 else w1;
           tasks := ts |}
      else {| world := setError w (Some "No active conversation"); tasks := [] |}
  | None => {| world := setError w (Some "No active conversation"); tasks := [] |}
  end.

(** [retryFailedModel(modelId)]. The callback is memoised on [conversations]
    and [models] alone (line 277), so the [sendPromptToModels] it calls is
    the one of the render in which one of those two last changed:
    [closureActiveId] and [closureSettings] are [activeConversationId] and
    [config.retrySettings] of that render, which a later change of the
    settings does not reach. *)
Definition retryFailedModel (closureActiveId : option string)
    (closureSettings : option RetrySettings) (w : World) (modelId : string) : Engine :=
  match conversations (hook w) !! modelId with
  | Some conversation =>
      match mc_lastFailedPrompt conversation with
      | Some lastFailedPrompt =>
          match find (fun m => String.eqb (model_id m) modelId) (models (hook w)) with
          | Some model =>
              if model_isEnabled model then
                let w1 :=
                  setConversations w (fun prev =>
                    let old := default emptyObject (prev !! modelId) in
                    <[modelId :=
                        {| mc_modelId := mc_modelId old;
                           mc_messages := mc_messages old;
                           mc_isLoading := Some true;
                           mc_error := None;
                           mc_retryCount := Some 0;
                           mc_canRetry := Some false;
                           mc_lastFailedPrompt := mc_lastFailedPrompt old |}]> prev) in
                sendPromptToModels closureActiveId closureSettings w1 [model]
                  lastFailedPrompt
              else {| world := w; tasks := [] |}
          | None => {| world := w; tasks := [] |}
          end
      | None => {| world := w; tasks := [] |}
      end
  | None => {| world := w; tasks := [] |}
  end.

(** The state update of lines 482-497 for one enabled model. *)
Definition promptedUpdate (userMessage : ChatMessage) (mc : ModelConversation)
  : ModelConversation :=
  {| mc_modelId := mc_modelId mc;
     mc_messages := mc_messages mc ++ [userMessage];
     mc_isLoading := Some true;
     mc_error := None;
     mc_retryCount := Some 0;
     mc_canRetry := Some false;
     mc_lastFailedPrompt := mc_lastFailedPrompt mc |}.

(** [sendPromptToEnabledModels(prompt)]. The call of [sendPromptToModels]
    at its end is the callback of the same render, so it is given the
    [activeConversationId] of the state the submission started in. *)
Definition sendPromptToEnabledModels (now : Z) (rnd : string) (w : World)
    (prompt : PromptData) : Engine :=
  let activeModels := filter (fun model => model_isEnabled model = true) (models (hook w)) in
  if length activeModels =? 0 then
    {| world := setError w (Some "No models are enabled"); tasks := [] |}
  else
    let created :=
      let '(newConversation, ls) :=
        ConversationService.createConversation B now rnd (storage w)
          (Some (text prompt)) in
      (setAllConversations
         (setActiveConversationId (setStorage w ls) (Some (conv_id newConversation)))
         (ConversationService.getAllConversations ls),
       conv_id newConversation) in
    let '(w1, currentActiveId) :=
      match activeConversationId (hook w) with
      | Some id => if Js.truthy id then (w, id) else created
      | None => created
      end in
    let userMessage :=
      {| msg_role := user; msg_content := text prompt;
         msg_timestamp := now; msg_modelId := None |} in
    let w2 :=
      setStorage w1
        (ConversationService.addMessageToConversation B now (storage w1)
           currentActiveId userMessage) in
    let w3 :=
      setConversations w2 (fun prev =>
        foldl (fun updated model =>
                 updateIfPresent (model_id model) (promptedUpdate userMessage) updated)
              prev activeModels) in
    sendPromptToModels (activeConversationId (hook w)) (configRetrySettings (hook w))
      w3 activeModels prompt.

(** [clearConversation(modelId)] *)
Definition clearConversation (w : World) (modelId : string) : World :=
  setConversations w (fun prev =>
    let old := default emptyObject (prev !! modelId) in
    <[modelId :=
        {| mc_modelId := mc_modelId old;
           mc_messages := [];
           mc_isLoading := mc_isLoading old;
           mc_error := None;
           mc_retryCount := mc_retryCount old;
           mc_canRetry := mc_canRetry old;
           mc_lastFailedPrompt := mc_lastFailedPrompt old |}]> prev).

(** The state update shared by [clearAllConversations] and
    [createNewConversation]: every entry loses its messages. *)
Definition emptied (mc : ModelConversation) : ModelConversation :=
  {| mc_modelId := mc_modelId mc;
     mc_messages := [];
     mc_isLoading := Some false;
     mc_error := None;
     mc_retryCount := mc_retryCount mc;
     mc_canRetry := mc_canRetry mc;
     mc_lastFailedPrompt := mc_lastFailedPrompt mc |}.

(** [clearAllConversations()]: the state and the store when the callback
    returns. It changes [activeConversationId], so the effect of lines
    144-169 ([Effects.loadActiveConversation]) runs after it. *)
Definition clearAllConversations (now : Z) (rnd : string) (w : World) : World :=
  let w1 := setStorage w (ConversationService.clearAllConversations (storage w)) in
  let w2 := setConversations w1 (fun prev => emptied <$> prev) in
  let '(newConversation, ls) :=
    ConversationService.createConversation B now rnd (storage w2) None in
  setAllConversations
    (setActiveConversationId (setStorage w2 ls) (Some (conv_id newConversation)))
    [newConversation].

(** [createNewConversation()]: the state and the store when the callback
    returns. It changes [activeConversationId], so the effect of lines
    144-169 ([Effects.loadActiveConversation]) runs after it. *)
Definition createNewConversation (now : Z) (rnd : string) (w : World) : World :=
  let '(newConversation, ls) :=
    ConversationService.createConversation B now rnd (storage w) None in
  let w1 := setActiveConversationId (setStorage w ls) (Some (conv_id newConversation)) in
  let w2 := setAllConversations w1 (ConversationService.getAllConversations ls) in
  setConversations w2 (fun prev => emptied <$> prev).

(** The projection built for one model by [selectConversation]. *)
Definition projection (conversation : Conversation) (model : AIModel)
  : ModelConversation :=
  {| mc_modelId := Some (model_id model);
     mc_messages := modelMessages (model_id model) (conv_messages conversation);
     mc_isLoading := Some false;
     mc_error := None;
     mc_retryCount := Some 0;
     mc_canRetry := Some false;
     mc_lastFailedPrompt := None |}.


(** [deleteConversation(conversationId)] of the hook. *)
Definition deleteConversation (now : Z) (rnd : string) (w : World)
    (conversationId : string) : World :=
  let w1 := setStorage w
              (ConversationService.deleteConversation B (storage w) conversationId) in
  let w2 := setAllConversations w1
              (ConversationService.getAllConversations (storage w1)) in
  if bool_decide (activeConversationId (hook w) = Some conversationId)
  then createNewConversation now rnd w2
  else w2.

End WithBrowser.

End UseAIModels.

(** ** The inference server as the tasks see it *)

(** What the server and the network do for one request of a task: the
    result of [fetch] and, for a response that is ok, the lines of the event
    stream and how reading ends. *)
Record Exchange := {
  ex_fetch : LMStudioRepository.FetchResult;
  ex_hasBody : bool;
  ex_lines : list LMStudioRepository.Line;
  ex_readerEnd : option JsError
}.

(** The signals one exchange gives rise to, through the transport client. *)
Definition signalsOf (modelId : string) (ex : Exchange) : list Signal :=
  match LMStudioRepository.sendMessage modelId (ex_fetch ex) with
  | Throws e => [SendRejected e]
  | Returns _ =>
      let '(frags, e) :=
        LMStudioRepository.parseStreamingResponse
          (ex_hasBody ex) (ex_lines ex) (ex_readerEnd ex) in
      SendResolved :: (Fragment <$> frags)
        ++ [match e with None => StreamEnds | Some e => StreamThrows e end]
  end.

(** One task fed a list of signals, all at time [now]. *)
Definition feed (B : Browser) (now : Z) (wt : World * Task) (sigs : list Signal)
  : World * Task :=
  foldl (fun wt sig => UseAIModels.step B now wt.1 wt.2 sig) wt sigs.

(** One task run against the successive exchanges of the server: each
    request of the task is answered by the next exchange, and a retry delay
    the task waits for elapses. *)
Fixpoint serve (B : Browser) (now : Z) (wt : World * Task) (exchanges : list Exchange)
  : World * Task :=
  match exchanges with
  | [] => wt
  | ex :: rest =>
      let wt1 := feed B now wt (signalsOf (model_id (task_model wt.2)) ex) in
      let wt2 :=
        match task_phase wt1.2 with
        | Waiting _ => UseAIModels.step B now wt1.1 wt1.2 TimerFires
        | _ => wt1
        end in
      serve B now wt2 rest
  end.

(** The requests sent on behalf of one model. *)
Definition requestsOf (modelId : string) (w : World) : list (string * list ApiMessage) :=
  filter (fun r => r.1 = modelId) (requests w).

(** A task as [sendPromptToModels] starts it. *)
Definition newTask (model : AIModel) (prompt : PromptData) (currentActiveId : string)
    (retrySettings : RetrySettings) : Task :=
  {| task_model := model; task_prompt := prompt; task_activeId := currentActiveId;
     task_settings := retrySettings; task_retryCount := 0;
     task_phase := AwaitingResponse |}.

(** The test of line 356 on the trailing message. *)
Definition isOwnedAssistant (modelId : string) (m : ChatMessage) : bool :=
  bool_decide (msg_role m = assistant) && bool_decide (msg_modelId m = Some modelId).

(** ** Concrete browsers, stores and states used in the examples *)

(** A browser whose storage never runs full and is estimated empty. *)
Definition ampleBrowser : Browser :=
  {| fits := fun _ => true; storageSize := fun _ => 0%Z |}.

Definition emptyStorage : LocalStorage :=
  {| ls_conversations := None; ls_active := None |}.

(** Ten spaces followed by forty-five letters: fifty-five characters. *)
Definition paddedPrompt : string :=
  "          abcdefghijklmnopqrstuvwxyzabcdefghijklmnopqrs".

(** A conversation holding the prompt "hi", stored and active, and a roster
    of one model, alpha, whose projection shows it. *)
Definition hiMessage : ChatMessage :=
  {| msg_role := user; msg_content := "hi"; msg_timestamp := 1; msg_modelId := None |}.

Definition chat1 : Conversation :=
  {| conv_id := "c1"; conv_title := "hi"; conv_createdAt := 1; conv_updatedAt := 1;
     conv_messages := [hiMessage]; conv_modelIds := [] |}.

Definition storage1 : LocalStorage :=
  {| ls_conversations := Some [chat1]; ls_active := Some "c1" |}.

Definition modelAlpha : AIModel :=
  {| model_id := "alpha"; model_name := "alpha"; model_isEnabled := true;
     model_isOnline := true; model_useHistory := Some true |}.

Definition world1 : World :=
  {| hook := {| models := [modelAlpha];
                conversations := {[ "alpha" := UseAIModels.projection chat1 modelAlpha ]};
                allConversations := [chat1];
                activeConversationId := Some "c1";
                configRetrySettings := None;
                error := None |};
     storage := storage1;
     requests := [] |}.

(** The fragments a schedule delivers to the task at position [i], in order. *)
Definition fragmentsFor (i : nat) (schedule : list (nat * Z * Signal)) : list string :=
  omap (fun '(j, _, sig) =>
          match sig with
          | Fragment chunk => if bool_decide (j = i) then Some chunk else None
          | _ => None
          end) schedule.

(** [f1 + f2 + ... + fn] *)
Definition concatFragments (frags : list string) : string :=
  foldr String.append "" frags.

(** A conversation in which alpha is answered by another model, beta. *)
Definition answerBeta : ChatMessage :=
  {| msg_role := assistant; msg_content := "A1"; msg_timestamp := 2;
     msg_modelId := Some "beta" |}.

Definition chat2 : Conversation :=
  {| conv_id := "c2"; conv_title := "hi"; conv_createdAt := 1; conv_updatedAt := 2;
     conv_messages := [hiMessage; answerBeta]; conv_modelIds := ["beta"] |}.

Definition world2 : World :=
  {| hook := {| models := [modelAlpha];
                conversations := {[ "alpha" := UseAIModels.projection chat2 modelAlpha ]};
                allConversations := [chat2];
                activeConversationId := Some "c2";
                configRetrySettings := None;
                error := None |};
     storage := {| ls_conversations := Some [chat2]; ls_active := Some "c2" |};
     requests := [] |}.

Definition promptAgain : PromptData := {| text := "again"; attachments := [] |}.

(** The task of alpha in [world1], streaming, and two fragments for it. *)
Definition streamingAlpha : Engine :=
  {| world := world1;
     tasks := [ UseAIModels.setPhase
                  (newTask modelAlpha promptAgain "c1" UseAIModels.defaultRetrySettings)
                  (Streaming "") ] |}.

Definition helloSchedule : list (nat * Z * Signal) :=
  [ (0, 5%Z, Fragment "Hel"); (0, 6%Z, Fragment "lo") ].

(** The server reports the model as not loaded, in the body of a 404
    response to the request. *)
Definition unloadedAtSend : Exchange :=
  {| ex_fetch := LMStudioRepository.FetchNotOk 404
                   (LMStudioRepository.BodyMessage "Model not loaded");
     ex_hasBody := true; ex_lines := []; ex_readerEnd := None |}.

Definition quoted (s : string) : string :=
  LMStudioRepository.dquote +:+ s +:+ LMStudioRepository.dquote.

(** The server streams the fragment "Hi" and then reports, in the stream,
    that the model was unloaded. *)
Definition unloadedMidStream : Exchange :=
  {| ex_fetch := LMStudioRepository.FetchOk;
     ex_hasBody := true;
     ex_lines :=
       [ {| LMStudioRepository.line_text :=
              "data: {" +:+ quoted "choices" +:+ ":[{" +:+ quoted "delta" +:+ ":{"
              +:+ quoted "content" +:+ ":" +:+ quoted "Hi" +:+ "}}]}";
            LMStudioRepository.line_json :=
              Some {| LMStudioRepository.p_error := None;
                      LMStudioRepository.p_content := Some "Hi" |} |};
         {| LMStudioRepository.line_text :=
              "data: {" +:+ quoted "error" +:+ ":{" +:+ quoted "message" +:+ ":"
              +:+ quoted "Model unloaded" +:+ "}}";
            LMStudioRepository.line_json :=
              Some {| LMStudioRepository.p_error :=
                        Some (LMStudioRepository.ErrText "Model unloaded");
                      LMStudioRepository.p_content := None |} |} ];
     ex_readerEnd := None |}.

(** The task [sendPromptToModels] starts for alpha in [world1], with the
    default settings: retries enabled, at most 2, for model errors only. *)
Definition alphaStarted : World * Task :=
  UseAIModels.beginAttempt world1
    (newTask modelAlpha promptAgain "c1" UseAIModels.defaultRetrySettings).

(** A retry whose request is still to be sent: the task waits for its delay. *)
Definition pending (t : Task) : nat :=
  match task_phase t with Waiting _ => 1 | _ => 0 end.

(** The server answers a request with an internal error. *)
Definition serverError : Exchange :=
  {| ex_fetch := LMStudioRepository.FetchNotOk 500
                   (LMStudioRepository.BodyMessage "Internal error");
     ex_hasBody := true; ex_lines := []; ex_readerEnd := None |}.

(** Settings that retry every error, at most twice, two seconds apart. *)
Definition retryAllSettings : RetrySettings :=
  {| enabled := true; maxRetries := 2; retryDelay := 2000;
     retryStrategy := fixed; retryOnlyModelErrors := false |}.

(** [world1] after the prompt of alpha failed, under [retryAllSettings]. *)
Definition failedWorld : World :=
  {| hook := {| models := [modelAlpha];
                conversations :=
                  {[ "alpha" := UseAIModels.failedUpdate "Internal error" 2 promptAgain
                                  (UseAIModels.projection chat1 modelAlpha) ]};
                allConversations := [chat1];
                activeConversationId := Some "c1";
                configRetrySettings := Some retryAllSettings;
                error := None |};
     storage := storage1;
     requests := [] |}.

(** The server fails three requests in a row, and the two delays in between
    elapse. *)
Definition failingSchedule : list (nat * Z * Signal) :=
  (fun sig => (0, 9%Z, sig))
    <$> (signalsOf "alpha" serverError ++ [TimerFires]
         ++ signalsOf "alpha" serverError ++ [TimerFires]
         ++ signalsOf "alpha" serverError).

(** A browser whose storage accepts every write and is never estimated
    above the limit of the service. *)
Definition ample (B : Browser) : Prop :=
  forall ls, fits B ls = true
             /\ (storageSize B ls <= ConversationService.MAX_STORAGE_SIZE)%Z.

(** The store with its list of conversations replaced. *)
Definition withConversations (ls : LocalStorage) (l : list Conversation) : LocalStorage :=
  {| ls_conversations := Some l; ls_active := ls_active ls |}.

(** [a] was updated no later than [b]. *)
Definition notNewer (a b : Conversation) : Prop :=
  (conv_updatedAt a <= conv_updatedAt b)%Z.

(** Removing from a store that fits gives a store that fits: the list of
    conversations without those of one id, and the store without its active
    id. *)
Definition shrinkable (B : Browser) : Prop :=
  forall ls, fits B ls = true ->
    (forall id, fits B (withConversations ls
                          (filter (fun conv => conv_id conv ≠ id)
                             (ConversationService.getAllConversations ls))) = true)
    /\ fits B (ConversationService.clearActiveConversation ls) = true.

(** The conversations of [l] whose id is not the id of one of [removed]. *)
Definition withoutIdsOf (removed l : list Conversation) : list Conversation :=
  filter (fun conv => conv_id conv ∉ conv_id <$> removed) l.

(** A store at the cap: fifty conversations c0 .. c49, updated at 100 .. 149. *)
Definition numbered (i : nat) : Conversation :=
  {| conv_id := "c" +:+ pretty i; conv_title := "New Conversation";
     conv_createdAt := 100 + Z.of_nat i; conv_updatedAt := 100 + Z.of_nat i;
     conv_messages := []; conv_modelIds := [] |}.

Definition fullStorage : LocalStorage :=
  {| ls_conversations := Some (numbered <$> seq 0 50); ls_active := Some "c49" |}.

(** A conversation last updated long before those, as an import carries it. *)
Definition importedOld : Conversation :=
  {| conv_id := "old"; conv_title := "hi"; conv_createdAt := 1; conv_updatedAt := 1;
     conv_messages := [hiMessage]; conv_modelIds := [] |}.

(** A conversation updated after all of them. *)
Definition justUpdated : Conversation :=
  {| conv_id := "c7"; conv_title := "hi"; conv_createdAt := 107; conv_updatedAt := 999;
     conv_messages := [hiMessage]; conv_modelIds := [] |}.

(** The object [createConversation] builds. *)
Definition freshConversation (now : Z) (rnd : string) (title : string) : Conversation :=
  {| conv_id := "conv_" +:+ pretty now +:+ "_" +:+ rnd;
     conv_title := title;
     conv_createdAt := now;
     conv_updatedAt := now;
     conv_messages := [];
     conv_modelIds := [] |}.

(** Two stored conversations, a (active, updated at 10) and b (updated at
    20), and the hook state showing a. *)
Definition chatA : Conversation :=
  {| conv_id := "a"; conv_title := "first"; conv_createdAt := 10; conv_updatedAt := 10;
     conv_messages := [hiMessage]; conv_modelIds := [] |}.

Definition chatB : Conversation :=
  {| conv_id := "b"; conv_title := "second"; conv_createdAt := 5; conv_updatedAt := 20;
     conv_messages := [hiMessage]; conv_modelIds := [] |}.

Definition twoChats : World :=
  {| hook := {| models := [modelAlpha];
                conversations := {[ "alpha" := UseAIModels.projection chatA modelAlpha ]};
                allConversations := [chatA; chatB];
                activeConversationId := Some "a";
                configRetrySettings := None;
                error := None |};
     storage := {| ls_conversations := Some [chatA; chatB]; ls_active := Some "a" |};
     requests := [] |}.

(** Two enabled models without history, alpha and beta, on the conversation
    of [world1]; and a schedule in which beta is rejected twice with an
    error the gate recognises before it answers "ok", while alpha answers
    "A" in between. *)
Definition modelBeta : AIModel :=
  {| model_id := "beta"; model_name := "beta"; model_isEnabled := true;
     model_isOnline := true; model_useHistory := None |}.

Definition twoModels : World :=
  {| hook := {| models := [modelAlpha; modelBeta];
                conversations :=
                  {[ "alpha" := UseAIModels.projection chat1 modelAlpha;
                     "beta" := UseAIModels.projection chat1 modelBeta ]};
                allConversations := [chat1];
                activeConversationId := Some "c1";
                configRetrySettings := None;
                error := None |};
     storage := storage1;
     requests := [] |}.

Definition notLoaded : JsError :=
  mkError ConfigurationError "Model beta is not loaded.".

Definition racingSchedule : list (nat * Z * Signal) :=
  [ (1, 41%Z, SendRejected notLoaded); (0, 42%Z, SendResolved);
    (0, 43%Z, Fragment "A"); (1, 44%Z, TimerFires);
    (1, 45%Z, SendRejected notLoaded); (0, 46%Z, StreamEnds);
    (1, 47%Z, TimerFires); (1, 48%Z, SendResolved);
    (1, 49%Z, Fragment "o"); (1, 50%Z, Fragment "k"); (1, 51%Z, StreamEnds) ].

(** A prompt of exactly fifty characters. *)
Definition fiftyCharacters : string :=
  "abcdefghijklmnopqrstuvwxyzabcdefghijklmnopqrstuvwx".

(** ** The rest of the conversation service *)

Module ConversationSearch.

(** [list.sort((a, b) => b.updatedAt - a.updatedAt)]: newest first, stable. *)
Fixpoint insertNewestFirst (c : Conversation) (l : list Conversation)
  : list Conversation :=
  match l with
  | [] => [c]
  | x :: r => if (conv_updatedAt x <=? conv_updatedAt c)%Z then c :: x :: r
              else x :: insertNewestFirst c r
  end.

Fixpoint sortNewestFirst (l : list Conversation) : list Conversation :=
  match l with
  | [] => []
  | c :: r => insertNewestFirst c (sortNewestFirst r)
  end.

(** The test of lines 226-229 on one conversation. *)
Definition matchesQuery (lowerQuery : string) (conv : Conversation) : bool :=
  Js.includes (Js.toLowerCase (conv_title conv)) lowerQuery
  || existsb (fun msg => Js.includes (Js.toLowerCase (msg_content msg)) lowerQuery)
       (conv_messages conv).

(** [searchConversations(query)] *)
Definition searchConversations (ls : LocalStorage) (query : string) : list Conversation :=
  if negb (Js.truthy (Js.trim query)) then ConversationService.getAllConversations ls
  else
    let conversations := ConversationService.getAllConversations ls in
    let lowerQuery := Js.toLowerCase query in
    sortNewestFirst (filter (fun conv => matchesQuery lowerQuery conv = true) conversations).

End ConversationSearch.

(** ** The rest of the transport client *)

(** The fields of [LMStudioRepository]. An [AbortController] is an object
    shared between the map and the request it was made for: it is a handle
    (the number of controllers made before it), and [aborted] holds the
    handles of the controllers whose [abort()] was called. *)
Record Repository := {
  baseUrl : string;
  activeRequests : gmap string nat;
  aborted : gset nat;
  controllers : nat
}.

Module RepositoryState.

(** [s.replace(/\/$/, '')]: one trailing slash is removed. *)
Fixpoint dropTrailingSlash (s : string) : string :=
  match s with
  | EmptyString => EmptyString
  | String c EmptyString => if Ascii.eqb c "/"%char then EmptyString else s
  | String c r => String c (dropTrailingSlash r)
  end.

Definition setBaseUrl (repo : Repository) (url : string) : Repository :=
  {| baseUrl := dropTrailingSlash url; activeRequests := activeRequests repo;
     aborted := aborted repo; controllers := controllers repo |}.

(** What [fetch] does for the probe of [verifyConnection]. *)
Inductive ProbeResult :=
| ProbeRejects (e : JsError)
| ProbeOk
| ProbeNotOk (status : nat) (statusText : string).

Definition verifyConnection (r : ProbeResult) : Outcome bool :=
  tryCatch
    (match r with
     | ProbeRejects e => Throws e
     | ProbeNotOk status statusText =>
         Throws (mkError NetworkError ("HTTP " +:+ pretty status +:+ ": " +:+ statusText))
     | ProbeOk => Returns true
     end)
    (fun error =>
       if instanceof error NetworkError then Throws error
       else Throws (mkError ConfigurationError
                      ("Failed to connect to LM Studio: "
                       +:+ (if instanceofError error then err_message error
                            else "Unknown error")))).

(** What [fetch] and [response.json()] do for [fetchModels]:
    the request is rejected, the response is not ok, reading the JSON
    throws, the JSON has no array [data], or it has one, with these ids. *)
Inductive ModelsResponse :=
| ModelsRejects (e : JsError)
| ModelsNotOk (status : nat)
| ModelsUnreadable (e : JsError)
| ModelsInvalid
| ModelsData (ids : list string).

(** The model built for one element of [data.data] (its [size] is not part
    of the embedding). *)
Definition fetchedModel (id : string) : AIModel :=
  {| model_id := id; model_name := id; model_isEnabled := false;
     model_isOnline := true; model_useHistory := None |}.

Definition fetchModels (r : ModelsResponse) : Outcome (list AIModel) :=
  tryCatch
    (match r with
     | ModelsRejects e => Throws e
     | ModelsNotOk status =>
         Throws (mkError NetworkError ("Failed to fetch models: HTTP " +:+ pretty status))
     | ModelsUnreadable e => Throws e
     | ModelsInvalid =>
         Throws (mkError ValidationError "Invalid response format from LM Studio API")
     | ModelsData ids => Returns (fetchedModel <$> ids)
     end)
    (fun error =>
       if instanceof error NetworkError || instanceof error ValidationError
       then Throws error
       else Throws (mkError NetworkError
                      ("Failed to fetch models: "
                       +:+ (if instanceofError error then err_message error
                            else "Unknown error")))).

(** [sendMessage] with its bookkeeping (lines 87-92 and 133): a controller
    is made and registered under the request id before [fetch] is called;
    the id is attached to the response that is returned. [now] is
    [Date.now()] and [rnd] the text of [Math.random()]. *)
Definition sendMessage (repo : Repository) (modelId : string) (now : Z) (rnd : string)
    (r : LMStudioRepository.FetchResult) : Repository * Outcome string :=
  let requestId := modelId +:+ "-" +:+ pretty now +:+ "-" +:+ rnd in
  let abortController := controllers repo in
  ({| baseUrl := baseUrl repo;
      activeRequests := <[requestId := abortController]> (activeRequests repo);
      aborted := aborted repo;
      controllers := S (controllers repo) |},
   _ ← LMStudioRepository.sendMessage modelId r; Returns requestId).

Definition cancelRequest (repo : Repository) (requestId : string) : Repository :=
  match activeRequests repo !! requestId with
  | Some abortController =>
      {| baseUrl := baseUrl repo;
         activeRequests := delete requestId (activeRequests repo);
         aborted := {[abortController]} ∪ aborted repo;
         controllers := controllers repo |}
  | None => repo
  end.

Definition cancelAllRequests (repo : Repository) : Repository :=
  {| baseUrl := baseUrl repo;
     activeRequests := ∅;
     aborted := list_to_set ((map_to_list (activeRequests repo)).*2) ∪ aborted repo;
     controllers := controllers repo |}.

Definition cleanupRequest (repo : Repository) (requestId : string) : Repository :=
  {| baseUrl := baseUrl repo;
     activeRequests := delete requestId (activeRequests repo);
     aborted := aborted repo;
     controllers := controllers repo |}.

(** [parseStreamingResponse] with its bookkeeping: once the reader exists,
    the [finally] block removes the request of the response, however the
    stream ends; without a body the generator throws before the [try]. *)
Definition parseStreamingResponse (repo : Repository) (requestId : option string)
    (hasBody : bool) (lines : list LMStudioRepository.Line) (readerEnd : option JsError)
  : Repository * (list string * option JsError) :=
  (if hasBody then
     match requestId with
     | Some id => if Js.truthy id then cleanupRequest repo id else repo
     | None => repo
     end
   else repo,
   LMStudioRepository.parseStreamingResponse hasBody lines readerEnd).

End RepositoryState.

(** ** Plain objects used as maps *)

(** The property names every plain object inherits from [Object.prototype].
    Reading [o[k]] for such a [k] that is no own property of [o] gives the
    inherited value, a function or (for [__proto__]) the prototype itself,
    which is truthy and has none of the fields of the program's records;
    assigning an object to [o["__proto__"]] replaces the prototype of [o]
    and makes no property. *)
Definition objectPrototypeNames : list string :=
  [ "__proto__"; "constructor"; "hasOwnProperty"; "isPrototypeOf";
    "propertyIsEnumerable"; "toLocaleString"; "toString"; "valueOf";
    "__defineGetter__"; "__defineSetter__"; "__lookupGetter__"; "__lookupSetter__" ].

Definition inheritedName (k : string) : bool :=
  bool_decide (k ∈ objectPrototypeNames).

(** ** The storage service, [lib/services/storage-service.ts] *)

(** One entry of the stored model preferences. *)
Record Preference := {
  pref_isEnabled : bool;
  pref_useHistory : bool
}.

(** Retry settings as they may be stored: any field may be missing. *)
Record StoredRetrySettings := {
  st_enabled : option bool;
  st_maxRetries : option nat;
  st_retryDelay : option Z;
  st_retryStrategy : option RetryStrategy;
  st_retryOnlyModelErrors : option bool
}.

(** [LMStudioConfig], and the object stored for it. *)
Record LMStudioConfig := {
  cfg_baseUrl : string;
  cfg_isConfigured : bool;
  cfg_retrySettings : option RetrySettings
}.

Record StoredConfig := {
  st_baseUrl : string;
  st_isConfigured : bool;
  st_retrySettings : option StoredRetrySettings
}.

(** The two keys of [localStorage] the storage service owns. *)
Record ConfigStorage := {
  cs_config : option StoredConfig;
  cs_preferences : option (gmap string Preference)
}.

Module StorageService.

Definition storedDefaults : RetrySettings :=
  {| enabled := true; maxRetries := 2; retryDelay := 2000;
     retryStrategy := fixed; retryOnlyModelErrors := true |}.

Definition defaultConfig : LMStudioConfig :=
  {| cfg_baseUrl := "http://localhost:1234"; cfg_isConfigured := false;
     cfg_retrySettings := Some storedDefaults |}.

(** [{ enabled: true, ..., ...parsed.retrySettings }] *)
Definition mergeRetrySettings (stored : option StoredRetrySettings) : RetrySettings :=
  match stored with
  | None => storedDefaults
  | Some s =>
      {| enabled := default (enabled storedDefaults) (st_enabled s);
         maxRetries := default (maxRetries storedDefaults) (st_maxRetries s);
         retryDelay := default (retryDelay storedDefaults) (st_retryDelay s);
         retryStrategy := default (retryStrategy storedDefaults) (st_retryStrategy s);
         retryOnlyModelErrors :=
           default (retryOnlyModelErrors storedDefaults) (st_retryOnlyModelErrors s) |}
  end.

(** What [JSON.stringify] keeps of retry settings: every field. *)
Definition storeRetrySettings (rs : RetrySettings) : StoredRetrySettings :=
  {| st_enabled := Some (enabled rs); st_maxRetries := Some (maxRetries rs);
     st_retryDelay := Some (retryDelay rs); st_retryStrategy := Some (retryStrategy rs);
     st_retryOnlyModelErrors := Some (retryOnlyModelErrors rs) |}.

Definition getConfig (cs : ConfigStorage) : LMStudioConfig :=
  match cs_config cs with
  | Some parsed =>
      {| cfg_baseUrl := st_baseUrl parsed;
         cfg_isConfigured := st_isConfigured parsed;
         cfg_retrySettings := Some (mergeRetrySettings (st_retrySettings parsed)) |}
  | None => defaultConfig
  end.

Definition getModelPreferences (cs : ConfigStorage) : gmap string Preference :=
  match cs_preferences cs with
  | Some stored => stored
  | None => ∅
  end.

(** The own properties of the object built by the [reduce] of lines
    323-329, which are what [JSON.stringify] writes: a later model
    overwrites an earlier one of the same id, and the assignment under the
    id [__proto__] makes no property. *)
Definition preferencesOf (models : list AIModel) : gmap string Preference :=
  foldl (fun acc model =>
           if String.eqb (model_id model) "__proto__" then acc
           else
             <[model_id model :=
                 {| pref_isEnabled := model_isEnabled model;
                    pref_useHistory := default false (model_useHistory model) |}]> acc)
        ∅ models.

(** [preferences[model.id]?.isEnabled ?? false]: for an id without a stored
    preference the value read is [undefined] or an inherited one without
    the fields [isEnabled] and [useHistory], so [false] either way. *)
Definition applyPreferencesToModels (cs : ConfigStorage) (models : list AIModel)
  : list AIModel :=
  let preferences := getModelPreferences cs in
  (fun model =>
     {| model_id := model_id model;
        model_name := model_name model;
        model_isEnabled := default false (pref_isEnabled <$> preferences !! model_id model);
        model_isOnline := model_isOnline model;
        model_useHistory :=
          Some (default false (pref_useHistory <$> preferences !! model_id model)) |})
    <$> models.

Definition clearAll (cs : ConfigStorage) : ConfigStorage :=
  {| cs_config := None; cs_preferences := None |}.

Section WithQuota.
(** Whether [localStorage] can hold these contents; a [setItem] leading to
    contents it cannot hold throws, and the services catch it. *)
Variable accepts : ConfigStorage -> bool.

Definition saveConfig (cs : ConfigStorage) (config : LMStudioConfig) : ConfigStorage :=
  let cs' :=
    {| cs_config :=
         Some {| st_baseUrl := cfg_baseUrl config;
                 st_isConfigured := cfg_isConfigured config;
                 st_retrySettings := storeRetrySettings <$> cfg_retrySettings config |};
       cs_preferences := cs_preferences cs |} in
  if accepts cs' then cs' else cs.

Definition saveModelPreferences (cs : ConfigStorage) (models : list AIModel)
  : ConfigStorage :=
  let cs' := {| cs_config := cs_config cs;
                cs_preferences := Some (preferencesOf models) |} in
  if accepts cs' then cs' else cs.

End WithQuota.

End StorageService.

(** ** The rest of the hook *)

Module HookActions.

Definition setModels (h : HookState) (ms : list AIModel) : HookState :=
  {| models := ms;
     conversations := conversations h;
     allConversations := allConversations h;
     activeConversationId := activeConversationId h;
     configRetrySettings := configRetrySettings h;
     error := error h |}.

Definition enabledModels (h : HookState) : list AIModel :=
  filter (fun model => model_isEnabled model = true) (models h).

Section WithQuota.
Variable accepts : ConfigStorage -> bool.

(** [toggleModel(modelId, enabled)] *)
Definition toggleModel (h : HookState) (cs : ConfigStorage) (modelId : string)
    (enabled : bool) : HookState * ConfigStorage :=
  let updated :=
    (fun model =>
       if String.eqb (model_id model) modelId
       then {| model_id := model_id model; model_name := model_name model;
               model_isEnabled := enabled; model_isOnline := model_isOnline model;
               model_useHistory := model_useHistory model |}
       else model) <$> models h in
  (setModels h updated, StorageService.saveModelPreferences accepts cs updated).

(** [toggleModelHistory(modelId, useHistory)] *)
Definition toggleModelHistory (h : HookState) (cs : ConfigStorage) (modelId : string)
    (useHistory : bool) : HookState * ConfigStorage :=
  let updated :=
    (fun model =>
       if String.eqb (model_id model) modelId
       then {| model_id := model_id model; model_name := model_name model;
               model_isEnabled := model_isEnabled model;
               model_isOnline := model_isOnline model;
               model_useHistory := Some useHistory |}
       else model) <$> models h in
  (setModels h updated, StorageService.saveModelPreferences accepts cs updated).

End WithQuota.

(** [fetchModels()] of the hook, given what the server answers;
    [isConfigured] is the derived state of line 103. *)
Definition fetchModels (isConfigured : bool) (h : HookState) (cs : ConfigStorage)
    (r : RepositoryState.ModelsResponse) : HookState :=
  if negb isConfigured then h
  else
    let h1 := {| models := models h; conversations := conversations h;
                 allConversations := allConversations h;
                 activeConversationId := activeConversationId h;
                 configRetrySettings := configRetrySettings h;
                 error := None |} in
    match RepositoryState.fetchModels r with
    | Returns fetchedModels =>
        setModels h1 (StorageService.applyPreferencesToModels cs fetchedModels)
    | Throws err =>
        {| models := models h1; conversations := conversations h1;
           allConversations := allConversations h1;
           activeConversationId := activeConversationId h1;
           configRetrySettings := configRetrySettings h1;
           error := Some (if instanceofError err then err_message err
                          else "Failed to fetch models") |}
    end.

(** The entry made for a model that has none (lines 119-123). *)
Definition initialConversation (model : AIModel) : ModelConversation :=
  {| mc_modelId := Some (model_id model); mc_messages := []; mc_isLoading := Some false;
     mc_error := None; mc_retryCount := None; mc_canRetry := None;
     mc_lastFailedPrompt := None |}.

(** The effect of lines 114-130. The test [!conversations[model.id]] fails
    for an id that has a column and for an id the state object inherits a
    value for. *)
Definition initializeConversations (h : HookState) : HookState :=
  let newConversations :=
    foldl (fun acc model =>
             match conversations h !! model_id model with
             | Some _ => acc
             | None => if inheritedName (model_id model) then acc
                       else <[model_id model := initialConversation model]> acc
             end) (∅ : gmap string ModelConversation) (models h) in
  if 0 <? size newConversations then
    {| models := models h;
       conversations := newConversations ∪ conversations h;
       allConversations := allConversations h;
       activeConversationId := activeConversationId h;
       configRetrySettings := configRetrySettings h;
       error := error h |}
  else h.

(** The part of the mount effect that reads the conversation store (lines
    88-99). The array given to [setAllConversations] is the one [sort]
    reorders in place, so the state holds it sorted. *)
Definition mountConversations (B : Browser) (w : World) : World :=
  let savedConversations := ConversationService.getAllConversations (storage w) in
  let savedActiveId := ConversationService.getActiveConversationId (storage w) in
  let w1 := UseAIModels.setActiveConversationId
              (UseAIModels.setAllConversations w savedConversations) savedActiveId in
  if (0 <? length savedConversations)
     && negb (match savedActiveId with Some id => Js.truthy id | None => false end)
  then
    let sorted := ConversationSearch.sortNewestFirst savedConversations in
    match sorted with
    | mostRecent :: _ =>
        UseAIModels.setActiveConversationId
          (UseAIModels.setAllConversations
             (UseAIModels.setStorage w1
                (ConversationService.setActiveConversation B (storage w1)
                   (conv_id mostRecent)))
             sorted)
          (Some (conv_id mostRecent))
    | [] => w1
    end
  else w1.

(** The effect of lines 133-139, once mounted. *)
Definition ensureConversation (B : Browser) (now : Z) (rnd : string) (w : World) : World :=
  if (length (allConversations (hook w)) =? 0)
     && negb (match activeConversationId (hook w) with
              | Some id => Js.truthy id
              | None => false
              end)
  then
    let '(newConv, ls) :=
      ConversationService.createConversation B now rnd (storage w) None in
    UseAIModels.setAllConversations
      (UseAIModels.setActiveConversationId (UseAIModels.setStorage w ls)
         (Some (conv_id newConv)))
      [newConv]
  else w.

End HookActions.

(** ** The prompt form, [components/ui/floating-prompt.tsx] *)

Module FloatingPrompt.

(** [handleSend]: the prompt handed to [onSendPrompt], or [None] when the
    form refuses to send. *)
Definition handleSend (prompt : string) (attachments : list AttachmentFile)
    (enabledModelsCount : nat) : option PromptData :=
  if negb (Js.truthy (Js.trim prompt)) && (length attachments =? 0) then None
  else if enabledModelsCount =? 0 then None
  else Some {| text := Js.trim prompt; attachments := attachments |}.

End FloatingPrompt.

(** ** The connection settings of the hook *)

(** The state [config] starts in (lines 61-64): no retry settings. *)
Definition initialConfig : LMStudioConfig :=
  {| cfg_baseUrl := "http://localhost:1234"; cfg_isConfigured := false;
     cfg_retrySettings := None |}.

(** The states [config] and [error] of the hook, the transport client and
    the keys of the storage service. *)
Record Connection := {
  conn_config : LMStudioConfig;
  conn_error : option string;
  conn_repo : Repository;
  conn_storage : ConfigStorage
}.

Module ConnectionActions.

(** The part of the mount effect that reads the configuration (lines 85-86). *)
Definition mountConfig (s : Connection) : Connection :=
  {| conn_config := StorageService.getConfig (conn_storage s);
     conn_error := conn_error s; conn_repo := conn_repo s;
     conn_storage := conn_storage s |}.

Section WithQuota.
Variable accepts : ConfigStorage -> bool.

(** [verifyAndSaveConfig(baseUrl)], given what the probe does. The callback
    is made once (its dependency list is empty), so the [config] it reads
    is the one of the first render, [initialConfig]. *)
Definition verifyAndSaveConfig (s : Connection) (baseUrl : string)
    (probe : RepositoryState.ProbeResult) : Connection * bool :=
  let repo := RepositoryState.setBaseUrl (conn_repo s) baseUrl in
  match RepositoryState.verifyConnection probe with
  | Returns _ =>
      let newConfig :=
        {| cfg_baseUrl := baseUrl; cfg_isConfigured := true;
           cfg_retrySettings := cfg_retrySettings initialConfig |} in
      ({| conn_config := newConfig; conn_error := None; conn_repo := repo;
          conn_storage := StorageService.saveConfig accepts (conn_storage s) newConfig |},
       true)
  | Throws err =>
      ({| conn_config := conn_config s;
          conn_error := Some (if instanceofError err then err_message err
                              else "Failed to verify connection");
          conn_repo := repo;
          conn_storage := conn_storage s |},
       false)
  end.

(** [updateRetrySettings(retrySettings)] *)
Definition updateRetrySettings (s : Connection) (retrySettings : RetrySettings)
  : Connection :=
  let newConfig :=
    {| cfg_baseUrl := cfg_baseUrl (conn_config s);
       cfg_isConfigured := cfg_isConfigured (conn_config s);
       cfg_retrySettings := Some retrySettings |} in
  {| conn_config := newConfig; conn_error := conn_error s; conn_repo := conn_repo s;
     conn_storage := StorageService.saveConfig accepts (conn_storage s) newConfig |}.

End WithQuota.

End ConnectionActions.

(** ** The effects that follow a change of the active conversation *)

Module Effects.

(** The object [updated] of lines 149-165: a column for each model of the
    roster, a later model overwriting an earlier one of the same id; the
    assignment under the id [__proto__] makes no column. *)
Definition loadedColumns (conversation : Conversation) (models : list AIModel)
  : gmap string ModelConversation :=
  foldl (fun updated model =>
           if String.eqb (model_id model) "__proto__" then updated
           else <[model_id model := UseAIModels.projection conversation model]> updated)
        ∅ models.

(** The effect of lines 144-169, once mounted. React runs it after a render
    in which [activeConversationId] differs from the one of the render
    before. *)
Definition loadActiveConversation (w : World) : World :=
  match activeConversationId (hook w) with
  | Some id =>
      if Js.truthy id && (0 <? length (models (hook w))) then
        match ConversationService.getConversation (storage w) id with
        | Some conversation =>
            UseAIModels.setConversations w (fun prev =>
              loadedColumns conversation (models (hook w)))
        | None => w
        end
      else w
  | None => w
  end.

(** The columns the hook settles in after a callback took the state from
    [before] to [after]: the effect of lines 144-169 when the active
    conversation changed, then the effect of lines 114-130 on the columns
    that gives. (In the render of [after] the effect of lines 114-130 runs
    first; the update it queues is applied before, and replaced by, the one
    of the effect of lines 144-169 when that one makes an update.) The
    effect of lines 133-139 is [HookActions.ensureConversation]; it does
    nothing while a conversation is active. *)
Definition settled (before after : World) : World :=
  let w1 :=
    if bool_decide (activeConversationId (hook after) = activeConversationId (hook before))
    then after else loadActiveConversation after in
  UseAIModels.setHook w1 (HookActions.initializeConversations (hook w1)).

End Effects.

(** ** Forgetting attachments *)

(** A prompt without its attachments; a column, a world, a task and a call
    with the attachments of the prompts they hold forgotten. *)
Definition textOnly (prompt : PromptData) : PromptData :=
  {| text := text prompt; attachments := [] |}.

Definition columnTextOnly (mc : ModelConversation) : ModelConversation :=
  {| mc_modelId := mc_modelId mc; mc_messages := mc_messages mc;
     mc_isLoading := mc_isLoading mc; mc_error := mc_error mc;
     mc_retryCount := mc_retryCount mc; mc_canRetry := mc_canRetry mc;
     mc_lastFailedPrompt := textOnly <$> mc_lastFailedPrompt mc |}.

Definition worldTextOnly (w : World) : World :=
  UseAIModels.setConversations w (fun prev => columnTextOnly <$> prev).

Definition taskTextOnly (t : Task) : Task :=
  {| task_model := task_model t; task_prompt := textOnly (task_prompt t);
     task_activeId := task_activeId t; task_settings := task_settings t;
     task_retryCount := task_retryCount t; task_phase := task_phase t |}.

Definition engineTextOnly (eng : Engine) : Engine :=
  {| world := worldTextOnly (world eng); tasks := taskTextOnly <$> tasks eng |}.

(** ** Predicates and samples for the properties of the rest of the code *)

(** Newest first. *)
Definition notOlder (a b : Conversation) : Prop :=
  (conv_updatedAt b <= conv_updatedAt a)%Z.

(** The registered requests have controllers of their own, all of them made
    by this client. *)
Definition consistent (repo : Repository) : Prop :=
  (forall id1 id2 h, activeRequests repo !! id1 = Some h ->
                     activeRequests repo !! id2 = Some h -> id1 = id2)
  /\ (forall id h, activeRequests repo !! id = Some h -> h < controllers repo).

(** A client as it is constructed. *)
Definition newRepository : Repository :=
  {| baseUrl := "http://localhost:1234"; activeRequests := ∅; aborted := ∅;
     controllers := 0 |}.

(** A storage that takes every write. *)
Definition unlimited (accepts : ConfigStorage -> bool) : Prop :=
  forall cs, accepts cs = true.

Definition emptyConfigStorage : ConfigStorage :=
  {| cs_config := None; cs_preferences := None |}.

(** The model as [applyPreferencesToModels] returns it when its own
    preferences were saved: [useHistory] is always set. *)
Definition withHistorySet (model : AIModel) : AIModel :=
  {| model_id := model_id model; model_name := model_name model;
     model_isEnabled := model_isEnabled model; model_isOnline := model_isOnline model;
     model_useHistory := Some (default false (model_useHistory model)) |}.

(** The model as [applyPreferencesToModels] returns it when nothing is
    stored for its id. *)
Definition withoutPreference (model : AIModel) : AIModel :=
  {| model_id := model_id model; model_name := model_name model;
     model_isEnabled := false; model_isOnline := model_isOnline model;
     model_useHistory := Some false |}.

(** The preference a model of the roster has, by its id. *)
Definition preferenceIn (ms : list AIModel) (id : string) : option Preference :=
  (fun model => {| pref_isEnabled := model_isEnabled model;
                   pref_useHistory := default false (model_useHistory model) |})
    <$> find (fun model => String.eqb (model_id model) id) ms.

Definition connection0 : Connection :=
  {| conn_config := initialConfig; conn_error := None; conn_repo := newRepository;
     conn_storage := emptyConfigStorage |}.

(** * Properties *)

(** ** Strings *)

Lemma substring0_length (n : nat) (s : string) :
  String.length (Js.substring0 n s) = n `min` String.length s.
Proof.
  unfold Js.substring0. revert n.
  induction s as [|c s IH]; intros [|n]; simpl; auto.
Qed.

Lemma substring0_all (n : nat) (s : string) :
  String.length s <= n -> Js.substring0 n s = s.
Proof.
  unfold Js.substring0. revert n.
  induction s as [|c s IH]; intros [|n] Hlen; simpl in *; try lia; auto.
  f_equal. apply IH. lia.
Qed.

Lemma append_String (c : ascii) (a b : string) :
  String c a +:+ b = String c (a +:+ b).
Proof. reflexivity. Qed.

Lemma append_length (a b : string) :
  String.length (a +:+ b) = String.length a + String.length b.
Proof. induction a as [|c a IH]; [done|]. rewrite append_String. simpl. by rewrite IH. Qed.

Lemma substring0_prefix (n : nat) (s : string) :
  exists rest, s = Js.substring0 n s +:+ rest.
Proof.
  unfold Js.substring0. revert n.
  induction s as [|c s IH]; intros [|n]; simpl.
  - by exists "".
  - by exists "".
  - by exists (String c s).
  - destruct (IH n) as [rest Hrest]. exists rest.
    rewrite append_String. f_equal. exact Hrest.
Qed.

(** ** C7: the retry delay *)

(** C7. The delay awaited before a retry is [retryDelay * 2 ^ k] for the
    strategy exponential, [retryDelay] for fixed and [0] for immediate, where
    [k] is the number of retries already performed; a task that has
    performed [k] retries and may retry again waits exactly
    [getRetryDelay] at index [k] when that delay is positive. In particular
    a base delay of 2000 gives 2000, 4000, 8000 and 16000. *)
Theorem C7_retry_delay :
  (forall (en only : bool) (mx : nat) (d : Z) (k : nat),
      UseAIModels.getRetryDelay
        {| enabled := en; maxRetries := mx; retryDelay := d;
           retryStrategy := exponential; retryOnlyModelErrors := only |} k
      = (d * 2 ^ Z.of_nat k)%Z
      /\ UseAIModels.getRetryDelay
           {| enabled := en; maxRetries := mx; retryDelay := d;
              retryStrategy := fixed; retryOnlyModelErrors := only |} k = d
      /\ UseAIModels.getRetryDelay
           {| enabled := en; maxRetries := mx; retryDelay := d;
              retryStrategy := immediate; retryOnlyModelErrors := only |} k = 0%Z)
  /\ (forall (w : World) (t : Task) (e : JsError),
         UseAIModels.shouldRetryError (task_settings t) e = true ->
         task_retryCount t < maxRetries (task_settings t) ->
         (0 < UseAIModels.getRetryDelay (task_settings t) (task_retryCount t))%Z ->
         task_phase (UseAIModels.onError w t e).2
         = Waiting (UseAIModels.getRetryDelay (task_settings t) (task_retryCount t))
         /\ task_retryCount (UseAIModels.onError w t e).2 = S (task_retryCount t))
  /\ (let rs := {| enabled := true; maxRetries := 5; retryDelay := 2000;
                   retryStrategy := exponential; retryOnlyModelErrors := true |} in
      UseAIModels.getRetryDelay rs 0 = 2000%Z
      /\ UseAIModels.getRetryDelay rs 1 = 4000%Z
      /\ UseAIModels.getRetryDelay rs 2 = 8000%Z
      /\ UseAIModels.getRetryDelay rs 3 = 16000%Z).
Proof.
  split; [|split].
  - intros en only mx d k. by repeat split.
  - intros w t e Hretry Hlt Hpos.
    unfold UseAIModels.onError. rewrite Hretry.
    replace (task_retryCount t <? maxRetries (task_settings t)) with true
      by (symmetry; apply Nat.ltb_lt; exact Hlt).
    simpl. rewrite Nat.sub_0_r.
    replace (0 <? UseAIModels.getRetryDelay (task_settings t) (task_retryCount t))%Z
      with true by (symmetry; apply Z.ltb_lt; exact Hpos).
    done.
  - by repeat split.
Qed.

Lemma C7_retry_delay_witness :
  let e := mkError ConfigurationError "Model alpha is not loaded." in
  task_phase (UseAIModels.onError alphaStarted.1 alphaStarted.2 e).2 = Waiting 2000
  /\ task_retryCount (UseAIModels.onError alphaStarted.1 alphaStarted.2 e).2 = 1.
Proof.
  refine (proj1 (proj2 C7_retry_delay) alphaStarted.1 alphaStarted.2
            (mkError ConfigurationError "Model alpha is not loaded.") _ _ _).
  - reflexivity.
  - vm_compute. lia.
  - reflexivity.
Defined.

(** ** C9: the title of a conversation created from a prompt *)

Lemma generateTitle_short (message : string) :
  String.length (Js.trim message) < 50 ->
  ConversationService.generateTitle message = Js.trim message.
Proof.
  intros Hlen. unfold ConversationService.generateTitle.
  rewrite substring0_all by lia.
  destruct (String.length (Js.trim message) =? 50) eqn:E; [|done].
  apply Nat.eqb_eq in E. lia.
Qed.

Lemma generateTitle_long (message : string) :
  50 <= String.length (Js.trim message) ->
  ConversationService.generateTitle message
  = Js.substring0 50 (Js.trim message) +:+ "...".
Proof.
  intros Hlen. unfold ConversationService.generateTitle.
  rewrite substring0_length.
  by replace (50 `min` String.length (Js.trim message)) with 50 by lia.
Qed.

(** C9 (amended). The conversation created for a non-empty prompt [p] takes
    its title from the trimmed prompt: when the trimmed prompt has fewer than
    50 characters the title is the trimmed prompt itself; when it has more
    than 50 characters the title is its first 50 characters followed by an
    ellipsis. *)
Theorem C9_title_from_trimmed_prompt (B : Browser) (now : Z) (rnd : string)
    (ls : LocalStorage) (p : string) :
  Js.truthy p = true ->
  let created := (ConversationService.createConversation B now rnd ls (Some p)).1 in
  (String.length (Js.trim p) < 50 -> conv_title created = Js.trim p)
  /\ (50 < String.length (Js.trim p) ->
      conv_title created = Js.substring0 50 (Js.trim p) +:+ "..."
      /\ String.length (Js.substring0 50 (Js.trim p)) = 50
      /\ exists rest, Js.trim p = Js.substring0 50 (Js.trim p) +:+ rest).
Proof.
  intros Hp. simpl. rewrite Hp. split.
  - apply generateTitle_short.
  - intros Hlen. split; [apply generateTitle_long; lia|]. split.
    + rewrite substring0_length. lia.
    + apply substring0_prefix.
Qed.

Lemma C9_title_from_trimmed_prompt_witness :
  conv_title (ConversationService.createConversation ampleBrowser 7 "r" emptyStorage
                (Some "  hello  ")).1 = "hello".
Proof.
  refine (proj1 (C9_title_from_trimmed_prompt ampleBrowser 7 "r" emptyStorage
                   "  hello  " _) _).
  - reflexivity.
  - vm_compute. lia.
Defined.

(** C9 as stated fails: a prompt of 55 characters, ten of them leading
    spaces, is longer than 50 characters, yet its title is the trimmed
    prompt, with no ellipsis, and not the first 50 characters of the prompt
    followed by one. *)
Lemma C9_counterexample :
  50 < String.length paddedPrompt
  /\ conv_title (ConversationService.createConversation ampleBrowser 7 "r" emptyStorage
                   (Some paddedPrompt)).1
     = "abcdefghijklmnopqrstuvwxyzabcdefghijklmnopqrs"
  /\ conv_title (ConversationService.createConversation ampleBrowser 7 "r" emptyStorage
                   (Some paddedPrompt)).1
     <> Js.substring0 50 paddedPrompt +:+ "...".
Proof.
  split; [vm_compute; lia|]. split; [by vm_compute|]. by vm_compute.
Qed.

(** A trimmed prompt of exactly 50 characters, the case the amended claim
    leaves open: nothing is cut, and the title still ends with an ellipsis. *)
Example title_of_fifty_characters :
  String.length fiftyCharacters = 50
  /\ ConversationService.generateTitle fiftyCharacters = fiftyCharacters +:+ "...".
Proof. by vm_compute. Qed.

(** ** C8: clearing the view of one model *)

(** C8 (amended). [clearConversation m] empties the projection of [m] and
    clears its error, keeping the other fields of its entry; it leaves the
    entry of every other model, the durable store, the active conversation
    and the requests as they were. *)
Theorem C8_clear_conversation_only_empties_view (w : World) (m : string) :
  let w' := UseAIModels.clearConversation w m in
  (exists mc', conversations (hook w') !! m = Some mc'
      /\ mc_messages mc' = [] /\ mc_error mc' = None
      /\ forall old, conversations (hook w) !! m = Some old ->
           mc_modelId mc' = mc_modelId old
           /\ mc_isLoading mc' = mc_isLoading old
           /\ mc_retryCount mc' = mc_retryCount old
           /\ mc_canRetry mc' = mc_canRetry old
           /\ mc_lastFailedPrompt mc' = mc_lastFailedPrompt old)
  /\ (forall k, k <> m -> conversations (hook w') !! k = conversations (hook w) !! k)
  /\ storage w' = storage w
  /\ activeConversationId (hook w') = activeConversationId (hook w)
  /\ allConversations (hook w') = allConversations (hook w)
  /\ requests w' = requests w.
Proof.
  simpl. split; [|split; [|done]].
  - eexists. split; [apply lookup_insert_eq|]. simpl.
    split; [done|]. split; [done|].
    intros old Hold. by rewrite Hold.
  - intros k Hk. by rewrite lookup_insert_ne.
Qed.

Lemma C8_clear_conversation_only_empties_view_witness :
  conversations (hook (UseAIModels.clearConversation world1 "beta")) !! "alpha"
  = conversations (hook world1) !! "alpha".
Proof.
  refine (proj1 (proj2 (C8_clear_conversation_only_empties_view world1 "beta"))
            "alpha" _).
  discriminate.
Defined.

(** C8 as stated fails: the durable conversation holds the prompt "hi", which
    belongs to the projection of alpha, but after [clearConversation] the
    projection of alpha is empty while the durable conversation is
    untouched. *)
Lemma C8_counterexample :
  let w' := UseAIModels.clearConversation world1 "alpha" in
  mc_messages <$> (conversations (hook w') !! "alpha") = Some []
  /\ UseAIModels.modelMessages "alpha"
       (ConversationService.getConversationHistory (storage w') "c1" "alpha")
     = [hiMessage]
  /\ mc_messages <$> (conversations (hook w') !! "alpha")
     <> Some (UseAIModels.modelMessages "alpha"
                (ConversationService.getConversationHistory (storage w') "c1" "alpha")).
Proof.
  simpl. rewrite lookup_insert_eq. simpl.
  assert (UseAIModels.modelMessages "alpha"
            (ConversationService.getConversationHistory storage1 "c1" "alpha")
          = [hiMessage]) as -> by reflexivity.
  by repeat split.
Qed.

(** ** C6: the outbound message list *)

Lemma startTasks_spec (w : World) (id : string) (rs : RetrySettings)
    (prompt : PromptData) (ms : list AIModel) :
  UseAIModels.startTasks w id rs prompt ms
  = ({| hook := hook w; storage := storage w;
        requests := requests w
          ++ ((fun M => (model_id M, UseAIModels.apiMessages (storage w) M id prompt))
                <$> ms) |},
     (fun M => newTask M prompt id rs) <$> ms).
Proof.
  revert w. induction ms as [|M ms IH]; intros w.
  - simpl. rewrite app_nil_r. by destruct w.
  - simpl. unfold UseAIModels.beginAttempt. simpl.
    rewrite IH. simpl. by rewrite <- app_assoc.
Qed.

(** C6. Every request a task sends carries the outbound list [apiMessages]
    computed from the store at that moment: [sendPromptToModels] sends one
    request per target model, and every later attempt of a task sends one
    more. For a model whose history flag is set, that list is the whole
    message sequence of the conversation, each message mapped to its role
    and content, whatever model owns it; for a model whose flag is unset it is
    the single user message holding the text of the prompt. *)
Theorem C6_outbound_messages (w : World) (id : string) (prompt : PromptData) :
  Js.truthy id = true ->
  (forall (cs : option RetrySettings) (ms : list AIModel),
      requests (world (UseAIModels.sendPromptToModels (Some id) cs w ms prompt))
      = requests w
        ++ ((fun M => (model_id M, UseAIModels.apiMessages (storage w) M id prompt))
              <$> ms))
  /\ (forall t : Task,
         task_retryCount t <= maxRetries (task_settings t) ->
         requests (UseAIModels.beginAttempt w t).1
         = requests w
           ++ [(model_id (task_model t),
                UseAIModels.apiMessages (storage w) (task_model t) (task_activeId t)
                  (task_prompt t))])
  /\ (forall M : AIModel,
         (model_useHistory M = Some true ->
          forall c, ConversationService.getConversation (storage w) id = Some c ->
            UseAIModels.apiMessages (storage w) M id prompt
            = UseAIModels.toApiMessage <$> conv_messages c
            /\ forall msg, msg ∈ conv_messages c ->
                 {| api_role := roleName (msg_role msg);
                    api_content := msg_content msg |}
                 ∈ UseAIModels.apiMessages (storage w) M id prompt)
         /\ (model_useHistory M <> Some true ->
             UseAIModels.apiMessages (storage w) M id prompt
             = [ {| api_role := "user"; api_content := text prompt |} ])).
Proof.
  intros Hid. split; [|split].
  - intros cs ms. unfold UseAIModels.sendPromptToModels. rewrite Hid.
    rewrite startTasks_spec. by destruct (UseAIModels.allSettled _).
  - intros t Hle. unfold UseAIModels.beginAttempt.
    by replace (task_retryCount t <=? maxRetries (task_settings t)) with true
      by (symmetry; by apply Nat.leb_le).
  - intros M. split.
    + intros Hhist c Hc. unfold UseAIModels.apiMessages.
      rewrite bool_decide_true by done. rewrite Hid. simpl.
      unfold ConversationService.getConversationHistory. rewrite Hc.
      split; [done|]. intros msg Hmsg.
      apply (list_elem_of_fmap_2 UseAIModels.toApiMessage) in Hmsg. exact Hmsg.
    + intros Hhist. unfold UseAIModels.apiMessages.
      by rewrite bool_decide_false by done.
Qed.

Lemma C6_outbound_messages_witness :
  UseAIModels.apiMessages (storage world2) modelAlpha "c2" promptAgain
  = [ {| api_role := "user"; api_content := "hi" |};
      {| api_role := "assistant"; api_content := "A1" |} ].
Proof.
  refine (proj1 (proj1 (proj2 (proj2
            (C6_outbound_messages world2 "c2" promptAgain _)) modelAlpha)
            _ chat2 _)); reflexivity.
Defined.

(** ** C4: streaming into the projection of a model *)

Lemma streamUpdate_replaces (modelId s : string) (now : Z) (mc : ModelConversation)
    (l : list ChatMessage) (m0 : ChatMessage) :
  mc_messages mc = l ++ [m0] ->
  isOwnedAssistant modelId m0 = true ->
  mc_messages (UseAIModels.streamUpdate modelId s now mc)
  = l ++ [ {| msg_role := msg_role m0; msg_content := s;
              msg_timestamp := msg_timestamp m0; msg_modelId := msg_modelId m0 |} ].
Proof.
  intros Hl Hown. unfold UseAIModels.streamUpdate. simpl.
  rewrite Hl, last_snoc. unfold isOwnedAssistant in Hown. rewrite Hown.
  rewrite length_app. simpl.
  rewrite insert_app_r_alt by lia.
  by replace (length l + 1 - 1 - length l) with 0 by lia.
Qed.

Lemma streamUpdate_appends (modelId s : string) (now : Z) (mc : ModelConversation) :
  match last (mc_messages mc) with
  | Some m0 => isOwnedAssistant modelId m0 = false
  | None => True
  end ->
  mc_messages (UseAIModels.streamUpdate modelId s now mc)
  = mc_messages mc
    ++ [ {| msg_role := assistant; msg_content := s; msg_timestamp := now;
            msg_modelId := Some modelId |} ].
Proof.
  intros Hlast. unfold UseAIModels.streamUpdate. simpl.
  destruct (last (mc_messages mc)) as [m0|]; [|done].
  unfold isOwnedAssistant in Hlast. by rewrite Hlast.
Qed.

(** After the update the trailing message is an assistant message of the
    model and carries the whole text. *)
Lemma streamUpdate_last (modelId s : string) (now : Z) (mc : ModelConversation) :
  exists m, last (mc_messages (UseAIModels.streamUpdate modelId s now mc)) = Some m
    /\ msg_role m = assistant /\ msg_modelId m = Some modelId /\ msg_content m = s.
Proof.
  destruct (last (mc_messages mc)) as [m0|] eqn:Hlast.
  - destruct (isOwnedAssistant modelId m0) eqn:Hown.
    + apply last_Some in Hlast as [l Hl].
      eexists. rewrite (streamUpdate_replaces _ _ _ _ l m0 Hl Hown), last_snoc.
      split; [done|]. simpl. unfold isOwnedAssistant in Hown.
      apply andb_prop in Hown as [H1 H2].
      apply bool_decide_eq_true in H1. apply bool_decide_eq_true in H2. done.
    + eexists. rewrite streamUpdate_appends by (by rewrite Hlast).
      rewrite last_snoc. done.
  - eexists. rewrite streamUpdate_appends by (by rewrite Hlast).
    rewrite last_snoc. done.
Qed.

Lemma append_assoc (a b c : string) : (a +:+ b) +:+ c = a +:+ (b +:+ c).
Proof.
  induction a as [|x a IH]; [done|]. rewrite !append_String. by rewrite IH.
Qed.

Lemma append_empty_r (a : string) : a +:+ "" = a.
Proof. induction a as [|x a IH]; [done|]. rewrite append_String. by rewrite IH. Qed.

Lemma updateIfPresent_ne (k k' : string) (f : ModelConversation -> ModelConversation)
    (m : gmap string ModelConversation) :
  k <> k' -> UseAIModels.updateIfPresent k' f m !! k = m !! k.
Proof.
  intros Hne. unfold UseAIModels.updateIfPresent.
  destruct (m !! k'); [|done]. by rewrite lookup_insert_ne.
Qed.

Lemma updateIfPresent_eq (k : string) (f : ModelConversation -> ModelConversation)
    (m : gmap string ModelConversation) :
  UseAIModels.updateIfPresent k f m !! k = f <$> (m !! k).
Proof.
  unfold UseAIModels.updateIfPresent.
  destruct (m !! k) eqn:E; [|by rewrite E]. by rewrite lookup_insert_eq.
Qed.

Lemma beginAttempt_frame (w : World) (t : Task) :
  hook (UseAIModels.beginAttempt w t).1 = hook w
  /\ storage (UseAIModels.beginAttempt w t).1 = storage w
  /\ task_model (UseAIModels.beginAttempt w t).2 = task_model t
  /\ task_settings (UseAIModels.beginAttempt w t).2 = task_settings t
  /\ task_retryCount (UseAIModels.beginAttempt w t).2 = task_retryCount t.
Proof.
  unfold UseAIModels.beginAttempt.
  by destruct (task_retryCount t <=? maxRetries (task_settings t)).
Qed.

Lemma onError_frame (w : World) (t : Task) (e : JsError) :
  task_model (UseAIModels.onError w t e).2 = task_model t
  /\ task_settings (UseAIModels.onError w t e).2 = task_settings t
  /\ storage (UseAIModels.onError w t e).1 = storage w
  /\ forall k, k <> model_id (task_model t) ->
       conversations (hook (UseAIModels.onError w t e).1) !! k
       = conversations (hook w) !! k.
Proof.
  unfold UseAIModels.onError.
  destruct (_ && _).
  - destruct (0 <? _)%Z.
    + simpl. repeat split; try done. intros k Hk. by apply updateIfPresent_ne.
    + match goal with |- context [UseAIModels.beginAttempt ?w' ?t'] =>
        destruct (beginAttempt_frame w' t') as (Hh & Hs & Hm & Hrs & _) end.
      rewrite Hh, Hs, Hm, Hrs. simpl. repeat split; try done.
      intros k Hk. by apply updateIfPresent_ne.
  - simpl. repeat split; try done. intros k Hk. by apply updateIfPresent_ne.
Qed.

Lemma step_frame (B : Browser) (now : Z) (w : World) (t : Task) (sig : Signal) :
  task_model (UseAIModels.step B now w t sig).2 = task_model t
  /\ forall k, k <> model_id (task_model t) ->
       conversations (hook (UseAIModels.step B now w t sig).1) !! k
       = conversations (hook w) !! k.
Proof.
  unfold UseAIModels.step.
  destruct (task_phase t) eqn:Hph, sig; simpl; try done;
    try (destruct (onError_frame w t e) as (? & _ & _ & ?); done).
  - split; [done|]. intros k Hk. by apply updateIfPresent_ne.
  - split; [done|]. by destruct (_ && _).
  - destruct (beginAttempt_frame w t) as (Hh & _ & Hm & _). by rewrite Hh, Hm.
Qed.

Lemma refreshAllConversations_conversations (w : World) :
  conversations (hook (UseAIModels.refreshAllConversations w)) = conversations (hook w).
Proof. done. Qed.

(** A delivery changes neither the model of any task nor, at another
    position, the task itself. *)
Lemma deliver_tasks (B : Browser) (eng : Engine) (j : nat) (now : Z) (sig : Signal) :
  (forall i, task_model <$> (tasks (UseAIModels.deliver B eng j now sig) !! i)
             = task_model <$> (tasks eng !! i))
  /\ (forall i, i <> j ->
        tasks (UseAIModels.deliver B eng j now sig) !! i = tasks eng !! i).
Proof.
  unfold UseAIModels.deliver.
  destruct (tasks eng !! j) as [t|] eqn:Ht; [|done].
  destruct (UseAIModels.step B now (world eng) t sig) as [w1 t1] eqn:Hstep. simpl.
  split.
  - intros i. destruct (decide (i = j)) as [->|Hne].
    + rewrite list_lookup_insert_eq by (by eapply lookup_lt_Some).
      rewrite Ht. simpl. f_equal.
      pose proof (proj1 (step_frame B now (world eng) t sig)) as Hm.
      by rewrite Hstep in Hm.
    + by rewrite list_lookup_insert_ne.
  - intros i Hne. by rewrite list_lookup_insert_ne.
Qed.

(** A delivery to a task leaves the entries of the other models alone. *)
Lemma deliver_other_key (B : Browser) (eng : Engine) (j : nat) (now : Z)
    (sig : Signal) (k : string) :
  (forall t, tasks eng !! j = Some t -> model_id (task_model t) <> k) ->
  conversations (hook (world (UseAIModels.deliver B eng j now sig))) !! k
  = conversations (hook (world eng)) !! k.
Proof.
  intros Hk. unfold UseAIModels.deliver.
  destruct (tasks eng !! j) as [t|] eqn:Ht; [|done].
  destruct (UseAIModels.step B now (world eng) t sig) as [w1 t1] eqn:Hstep. simpl.
  pose proof (proj2 (step_frame B now (world eng) t sig) k) as Hf.
  rewrite Hstep in Hf. simpl in Hf.
  destruct (_ && _); simpl; apply Hf; intros ->; by eapply Hk.
Qed.

(** A fragment delivered to a streaming task whose model has an entry. *)
Lemma deliver_fragment (B : Browser) (eng : Engine) (i : nat) (now : Z)
    (chunk buf : string) (t : Task) (mc : ModelConversation) :
  tasks eng !! i = Some t ->
  task_phase t = Streaming buf ->
  conversations (hook (world eng)) !! model_id (task_model t) = Some mc ->
  tasks (UseAIModels.deliver B eng i now (Fragment chunk)) !! i
  = Some (UseAIModels.setPhase t (Streaming (buf +:+ chunk)))
  /\ conversations (hook (world (UseAIModels.deliver B eng i now (Fragment chunk))))
       !! model_id (task_model t)
     = Some (UseAIModels.streamUpdate (model_id (task_model t)) (buf +:+ chunk) now mc).
Proof.
  intros Ht Hph Hmc. unfold UseAIModels.deliver. rewrite Ht.
  unfold UseAIModels.step. rewrite Hph. simpl.
  rewrite list_lookup_insert_eq by (by eapply lookup_lt_Some).
  split; [done|].
  match goal with |- context [if ?c then _ else _] => destruct c end;
    simpl; by rewrite updateIfPresent_eq, Hmc.
Qed.

Lemma fragmentsFor_cons_other (i j : nat) (now : Z) (sig : Signal)
    (rest : list (nat * Z * Signal)) :
  j <> i -> fragmentsFor i ((j, now, sig) :: rest) = fragmentsFor i rest.
Proof.
  intros Hne. unfold fragmentsFor. simpl.
  destruct sig; try done. by rewrite bool_decide_false.
Qed.

Lemma fragmentsFor_cons_fragment (i : nat) (now : Z) (chunk : string)
    (rest : list (nat * Z * Signal)) :
  fragmentsFor i ((i, now, Fragment chunk) :: rest) = chunk :: fragmentsFor i rest.
Proof. unfold fragmentsFor. simpl. by rewrite bool_decide_true. Qed.

Lemma run_cons (B : Browser) (eng : Engine) (j : nat) (now : Z) (sig : Signal)
    (rest : list (nat * Z * Signal)) :
  UseAIModels.run B eng ((j, now, sig) :: rest)
  = UseAIModels.run B (UseAIModels.deliver B eng j now sig) rest.
Proof. reflexivity. Qed.

(** The invariant of a streaming task under any interleaving with the tasks
    of other models. *)
Lemma streaming_run (B : Browser) (i : nat) (m : string)
    (schedule : list (nat * Z * Signal)) :
  forall (eng : Engine) (buf : string) (t : Task) (mc : ModelConversation),
    tasks eng !! i = Some t ->
    model_id (task_model t) = m ->
    task_phase t = Streaming buf ->
    conversations (hook (world eng)) !! m = Some mc ->
    (forall j t', j <> i -> tasks eng !! j = Some t' -> model_id (task_model t') <> m) ->
    (forall now sig, (i, now, sig) ∈ schedule -> exists chunk, sig = Fragment chunk) ->
    exists t' mc',
      tasks (UseAIModels.run B eng schedule) !! i = Some t'
      /\ model_id (task_model t') = m
      /\ task_phase t'
         = Streaming (buf +:+ concatFragments (fragmentsFor i schedule))
      /\ conversations (hook (world (UseAIModels.run B eng schedule))) !! m = Some mc'
      /\ ((fragmentsFor i schedule = [] /\ mc' = mc)
          \/ exists lastm, last (mc_messages mc') = Some lastm
               /\ msg_role lastm = assistant
               /\ msg_modelId lastm = Some m
               /\ msg_content lastm
                  = buf +:+ concatFragments (fragmentsFor i schedule)).
Proof.
  induction schedule as [|[[j now] sig] rest IH]; intros eng buf t mc Ht Hm Hph Hmc Hoth Hsig.
  - exists t, mc. simpl. rewrite append_empty_r. repeat split; try done. by left.
  - assert (Hrest : forall now' sig', (i, now', sig') ∈ rest ->
                      exists chunk, sig' = Fragment chunk).
    { intros now' sig' Hin. eapply Hsig. by right. }
    rewrite run_cons.
    pose proof (deliver_tasks B eng j now sig) as [Hmodels Hsame].
    assert (Hoth' : forall j' t', j' <> i ->
              tasks (UseAIModels.deliver B eng j now sig) !! j' = Some t' ->
              model_id (task_model t') <> m).
    { intros j' t' Hne Hj'. specialize (Hmodels j'). rewrite Hj' in Hmodels.
      destruct (tasks eng !! j') as [t0|] eqn:E; [|done].
      simpl in Hmodels. injection Hmodels as ->. by eapply Hoth. }
    destruct (decide (j = i)) as [->|Hne].
    + destruct (Hsig now sig) as [chunk ->]; [by left|].
      subst m.
      destruct (deliver_fragment B eng i now chunk buf t mc Ht Hph Hmc) as [Ht1 Hmc1].
      destruct (IH _ (buf +:+ chunk) _ _ Ht1 eq_refl eq_refl Hmc1 Hoth' Hrest)
        as (t' & mc' & Ht' & Hm' & Hph' & Hmc' & Hlast).
      exists t', mc'. rewrite fragmentsFor_cons_fragment.
      change (concatFragments (chunk :: fragmentsFor i rest))
        with (chunk +:+ concatFragments (fragmentsFor i rest)).
      rewrite <- append_assoc. repeat split; try done.
      right. destruct Hlast as [[Hnil ->]|Hlast].
      * rewrite Hnil. change (concatFragments []) with "".
        rewrite append_empty_r. apply streamUpdate_last.
      * exact Hlast.
    + assert (Ht1 : tasks (UseAIModels.deliver B eng j now sig) !! i = Some t)
        by (by rewrite Hsame).
      assert (Hmc1 : conversations (hook (world (UseAIModels.deliver B eng j now sig)))
                       !! m = Some mc).
      { rewrite deliver_other_key; [done|]. intros t0 Ht0. by eapply Hoth. }
      destruct (IH _ buf _ _ Ht1 Hm Hph Hmc1 Hoth' Hrest)
        as (t' & mc' & Ht' & Hm' & Hph' & Hmc' & Hlast).
      exists t', mc'. by rewrite fragmentsFor_cons_other.
Qed.

(** C4. A task that has just started streaming for a model with an entry in
    the state receives fragments, interleaved in any way with signals for the
    tasks of other models. After every prefix of the schedule that holds at
    least one of its fragments, the trailing message of the entry is an
    assistant message of the model whose content is the concatenation of the
    fragments received so far. Each fragment applies [streamUpdate] with the
    accumulated text, which overwrites the trailing message when it is an
    assistant message of the model and appends a new one otherwise. *)
Theorem C4_streaming_replaces_trailing_message (B : Browser) (eng : Engine) (i : nat)
    (t : Task) (mc : ModelConversation) (schedule : list (nat * Z * Signal)) (k : nat) :
  tasks eng !! i = Some t ->
  task_phase t = Streaming "" ->
  conversations (hook (world eng)) !! model_id (task_model t) = Some mc ->
  (forall j t', j <> i -> tasks eng !! j = Some t' ->
     model_id (task_model t') <> model_id (task_model t)) ->
  (forall now sig, (i, now, sig) ∈ schedule -> exists chunk, sig = Fragment chunk) ->
  fragmentsFor i (take k schedule) <> [] ->
  (exists mc' lastm,
      conversations (hook (world (UseAIModels.run B eng (take k schedule))))
        !! model_id (task_model t) = Some mc'
      /\ last (mc_messages mc') = Some lastm
      /\ msg_role lastm = assistant
      /\ msg_modelId lastm = Some (model_id (task_model t))
      /\ msg_content lastm = concatFragments (fragmentsFor i (take k schedule)))
  /\ (forall eng' t' buf now chunk mc0,
        tasks eng' !! i = Some t' ->
        task_phase t' = Streaming buf ->
        conversations (hook (world eng')) !! model_id (task_model t') = Some mc0 ->
        conversations (hook (world (UseAIModels.deliver B eng' i now (Fragment chunk))))
          !! model_id (task_model t')
        = Some (UseAIModels.streamUpdate (model_id (task_model t')) (buf +:+ chunk) now mc0))
  /\ (forall modelId s now mc0,
        (forall l m0,
            mc_messages mc0 = l ++ [m0] ->
            isOwnedAssistant modelId m0 = true ->
            mc_messages (UseAIModels.streamUpdate modelId s now mc0)
            = l ++ [ {| msg_role := msg_role m0; msg_content := s;
                        msg_timestamp := msg_timestamp m0;
                        msg_modelId := msg_modelId m0 |} ])
        /\ (match last (mc_messages mc0) with
            | Some m0 => isOwnedAssistant modelId m0 = false
            | None => True
            end ->
            mc_messages (UseAIModels.streamUpdate modelId s now mc0)
            = mc_messages mc0
              ++ [ {| msg_role := assistant; msg_content := s; msg_timestamp := now;
                      msg_modelId := Some modelId |} ])).
Proof.
  intros Ht Hph Hmc Hoth Hsig Hfrags. split; [|split].
  - destruct (streaming_run B i (model_id (task_model t)) (take k schedule)
                eng "" t mc Ht eq_refl Hph Hmc Hoth)
      as (t' & mc' & _ & _ & _ & Hmc' & Hlast).
    { intros now sig Hin. eapply Hsig.
      apply elem_of_take in Hin as (n & Hn & _). by eapply list_elem_of_lookup_2. }
    destruct Hlast as [[Hnil _]|(lastm & Hl & Hr & Ho & Hc)]; [done|].
    exists mc', lastm. repeat split; done.
  - intros eng' t' buf now chunk mc0 Ht' Hph' Hmc0.
    by destruct (deliver_fragment B eng' i now chunk buf t' mc0 Ht' Hph' Hmc0).
  - intros modelId s now mc0. split.
    + intros l m0. apply streamUpdate_replaces.
    + apply streamUpdate_appends.
Qed.

Lemma C4_streaming_replaces_trailing_message_witness :
  exists mc' lastm,
    conversations (hook (world (UseAIModels.run ampleBrowser streamingAlpha
                                  (take 2 helloSchedule)))) !! "alpha" = Some mc'
    /\ last (mc_messages mc') = Some lastm
    /\ msg_role lastm = assistant
    /\ msg_modelId lastm = Some "alpha"
    /\ msg_content lastm = "Hello".
Proof.
  refine (proj1 (C4_streaming_replaces_trailing_message ampleBrowser streamingAlpha 0
                   (UseAIModels.setPhase
                      (newTask modelAlpha promptAgain "c1" UseAIModels.defaultRetrySettings)
                      (Streaming ""))
                   (UseAIModels.projection chat1 modelAlpha) helloSchedule 2
                   _ _ _ _ _ _)).
  - reflexivity.
  - reflexivity.
  - apply lookup_singleton_eq.
  - intros [|j] t' Hj Ht'; [done|]. destruct j; discriminate.
  - intros now sig Hin. unfold helloSchedule in Hin.
    repeat (apply elem_of_cons in Hin as [Hin|Hin];
            [injection Hin as _ ->; eauto|]).
    by apply elem_of_nil in Hin.
  - discriminate.
Defined.

(** Two models racing: the retries of beta neither delay nor disturb alpha,
    and the durable conversation ends with the prompt once and one answer
    per model. *)
Example two_models_race :
  let eng := UseAIModels.run ampleBrowser
               (UseAIModels.sendPromptToEnabledModels ampleBrowser 40 "r" twoModels
                  promptAgain)
               racingSchedule in
  (task_phase <$> tasks eng) = [Settled; Settled]
  /\ length (requestsOf "alpha" (world eng)) = 1
  /\ length (requestsOf "beta" (world eng)) = 3
  /\ ((fun m => (msg_content m, msg_modelId m))
        <$> ConversationService.getConversationHistory (storage (world eng)) "c1" "alpha")
     = [("hi", None); ("again", None); ("A", Some "alpha"); ("ok", Some "beta")]
  /\ ((fun mc => msg_content <$> mc_messages mc)
        <$> conversations (hook (world eng)) !! "alpha")
     = Some ["hi"; "again"; "A"]
  /\ ((fun mc => msg_content <$> mc_messages mc)
        <$> conversations (hook (world eng)) !! "beta")
     = Some ["hi"; "again"; "ok"].
Proof. vm_compute. split_and!; done. Qed.

(** ** C2: the retry gate and the errors the transport raises *)

(** A report of an unloaded model in the body of a failed request never
    leaves [sendMessage] as a [ConfigurationError]: the error built for it
    is thrown inside the [try] whose [catch] swallows parse errors. *)
Lemma sendMessage_unloaded (modelId : string) (status : nat) (m : string) :
  LMStudioRepository.sendReportsModelUnloaded m = true ->
  LMStudioRepository.sendMessage modelId
    (LMStudioRepository.FetchNotOk status (LMStudioRepository.BodyMessage m))
  = Throws (mkError NetworkError ("Failed to send message: HTTP " +:+ pretty status)).
Proof.
  intros Hm. unfold LMStudioRepository.sendMessage. rewrite Hm. reflexivity.
Qed.

(** Whatever [fetch] does, [sendMessage] throws nothing but a
    [NetworkError]. *)
Lemma sendMessage_throws_NetworkError (modelId : string)
    (r : LMStudioRepository.FetchResult) (e : JsError) :
  LMStudioRepository.sendMessage modelId r = Throws e -> err_class e = NetworkError.
Proof.
  unfold LMStudioRepository.sendMessage, tryCatch.
  destruct r as [e0| |status body].
  - unfold instanceof.
    destruct (bool_decide (err_class e0 = NetworkError)) eqn:E1.
    + intros [= <-]. by apply bool_decide_eq_true in E1.
    + destruct (bool_decide (err_class e0 = AbortError)); by intros [= <-].
  - done.
  - destruct body as [| |m]; simpl; try (by intros [= <-]).
    destruct (LMStudioRepository.sendReportsModelUnloaded m); by intros [= <-].
Qed.

(** The error a data line reporting an unloaded model makes the stream
    throw. *)
Lemma parseData_unloaded (l : LMStudioRepository.Line)
    (parsed : LMStudioRepository.Parsed) (errorMsg : LMStudioRepository.ErrorField) :
  LMStudioRepository.line_json l = Some parsed ->
  LMStudioRepository.p_error parsed = Some errorMsg ->
  LMStudioRepository.streamReportsModelUnloaded errorMsg = true ->
  LMStudioRepository.parseData l
  = Throws (mkError ConfigurationError
              "Model unloaded during response. Please reload the model in LM Studio.").
Proof.
  intros Hj He Hu. unfold LMStudioRepository.parseData. by rewrite Hj, He, Hu.
Qed.

(** With [retryOnlyModelErrors] set, the gate refuses every error that
    [sendMessage] can throw and every error a line of the stream can make
    [parseStreamingResponse] throw: the only [ConfigurationError] that
    reaches the hook carries a message without the words the gate looks
    for. *)
Lemma gate_refuses_send_errors (rs : RetrySettings) (modelId : string)
    (r : LMStudioRepository.FetchResult) (e : JsError) :
  retryOnlyModelErrors rs = true ->
  LMStudioRepository.sendMessage modelId r = Throws e ->
  UseAIModels.shouldRetryError rs e = false.
Proof.
  intros Honly He. apply sendMessage_throws_NetworkError in He.
  unfold UseAIModels.shouldRetryError, instanceof. rewrite Honly, He.
  by destruct (enabled rs).
Qed.

Lemma gate_refuses_stream_errors (rs : RetrySettings)
    (lines : list LMStudioRepository.Line) (frags : list string) (e : JsError) :
  retryOnlyModelErrors rs = true ->
  LMStudioRepository.parseLines lines None = (frags, Some e) ->
  UseAIModels.shouldRetryError rs e = false.
Proof.
  intros Honly. revert frags.
  induction lines as [|l rest IH]; intros frags; [done|].
  cbn [LMStudioRepository.parseLines].
  destruct (Js.startsWith _ _); [|apply IH].
  destruct (String.eqb _ _); [done|].
  destruct (LMStudioRepository.parseData l) as [[content|]|e0] eqn:Hdata.
  - destruct (LMStudioRepository.parseLines rest None) as [frags' e'] eqn:Hrest.
    intros [= _ ->]. by eapply IH.
  - apply IH.
  - intros [= _ ->]. unfold LMStudioRepository.parseData, tryCatch in Hdata.
    unfold UseAIModels.shouldRetryError. rewrite Honly.
    destruct (enabled rs); [|done]. cbn [negb].
    destruct (LMStudioRepository.line_json l) as [parsed|]; [|done].
    destruct (LMStudioRepository.p_error parsed) as [errorMsg|]; [|done].
    destruct (LMStudioRepository.streamReportsModelUnloaded errorMsg);
      by injection Hdata as <-.
Qed.

(** The final branch of the [catch] block. *)
Lemma onError_final (w : World) (t : Task) (e : JsError) :
  UseAIModels.shouldRetryError (task_settings t) e
  && (task_retryCount t <? maxRetries (task_settings t)) = false ->
  UseAIModels.onError w t e
  = (UseAIModels.setConversations w
       (UseAIModels.updateIfPresent (model_id (task_model t))
          (UseAIModels.failedUpdate
             (if instanceofError e then err_message e else "Failed to get response")
             (task_retryCount t) (task_prompt t))),
     UseAIModels.setPhase t Settled).
Proof. intros H. unfold UseAIModels.onError. by rewrite H. Qed.

(** The half of the claim that holds: with [retryOnlyModelErrors] set, a
    [NetworkError] raised while sending or streaming makes the task fail at
    once, with the retry count it had and the manual retry flag set. *)
Lemma network_error_fails_directly (w : World) (t : Task) (e : JsError)
    (mc : ModelConversation) :
  retryOnlyModelErrors (task_settings t) = true ->
  err_class e = NetworkError ->
  conversations (hook w) !! model_id (task_model t) = Some mc ->
  task_phase (UseAIModels.onError w t e).2 = Settled
  /\ requests (UseAIModels.onError w t e).1 = requests w
  /\ conversations (hook (UseAIModels.onError w t e).1) !! model_id (task_model t)
     = Some (UseAIModels.failedUpdate (err_message e) (task_retryCount t)
               (task_prompt t) mc).
Proof.
  intros Honly He Hmc. rewrite onError_final.
  - cbn. rewrite updateIfPresent_eq, Hmc. unfold instanceofError, instanceof.
    rewrite He. done.
  - unfold UseAIModels.shouldRetryError, instanceof. rewrite Honly, He.
    by destruct (enabled (task_settings t)).
Qed.

(** C2 (what the code does). With [retryOnlyModelErrors] set, a task whose
    request is answered by a report that the model is not loaded, or whose
    stream reports that the model was unloaded, settles at once as failed: no
    further request is sent, the retry count stays what it was (0 for a fresh
    task) and the manual retry flag is set. The report at send time reaches
    the hook as a [NetworkError]; the report in the stream reaches it as a
    [ConfigurationError] whose message the gate does not recognise. *)
Theorem C2_unloaded_model_fails_without_retry (B : Browser) (now : Z) (w : World)
    (t : Task) (mc : ModelConversation) :
  retryOnlyModelErrors (task_settings t) = true ->
  conversations (hook w) !! model_id (task_model t) = Some mc ->
  (forall status m,
      task_phase t = AwaitingResponse ->
      LMStudioRepository.sendReportsModelUnloaded m = true ->
      let wt := feed B now (w, t)
                  (signalsOf (model_id (task_model t))
                     {| ex_fetch := LMStudioRepository.FetchNotOk status
                                      (LMStudioRepository.BodyMessage m);
                        ex_hasBody := true; ex_lines := []; ex_readerEnd := None |}) in
      task_phase wt.2 = Settled
      /\ task_retryCount wt.2 = task_retryCount t
      /\ requests wt.1 = requests w
      /\ conversations (hook wt.1) !! model_id (task_model t)
         = Some (UseAIModels.failedUpdate
                   ("Failed to send message: HTTP " +:+ pretty status)
                   (task_retryCount t) (task_prompt t) mc))
  /\ (forall buf l parsed errorMsg,
         task_phase t = Streaming buf ->
         LMStudioRepository.line_json l = Some parsed ->
         LMStudioRepository.p_error parsed = Some errorMsg ->
         LMStudioRepository.streamReportsModelUnloaded errorMsg = true ->
         exists e,
           LMStudioRepository.parseData l = Throws e
           /\ err_class e = ConfigurationError
           /\ let wt := UseAIModels.step B now w t (StreamThrows e) in
              task_phase wt.2 = Settled
              /\ task_retryCount wt.2 = task_retryCount t
              /\ requests wt.1 = requests w
              /\ conversations (hook wt.1) !! model_id (task_model t)
                 = Some (UseAIModels.failedUpdate
                           "Model unloaded during response. Please reload the model in LM Studio."
                           (task_retryCount t) (task_prompt t) mc)).
Proof.
  intros Honly Hmc. split.
  - intros status m Hph Hm. unfold signalsOf. simpl.
    rewrite (sendMessage_unloaded _ status m Hm). simpl.
    unfold UseAIModels.step. rewrite Hph. simpl.
    rewrite onError_final.
    + simpl. rewrite updateIfPresent_eq, Hmc. done.
    + unfold UseAIModels.shouldRetryError. rewrite Honly.
      by destruct (enabled (task_settings t)).
  - intros buf l parsed errorMsg Hph Hj He Hu.
    eexists. split; [by apply (parseData_unloaded l parsed errorMsg)|].
    split; [done|].
    unfold UseAIModels.step. rewrite Hph. simpl.
    rewrite onError_final.
    + simpl. rewrite updateIfPresent_eq, Hmc. done.
    + unfold UseAIModels.shouldRetryError. rewrite Honly.
      by destruct (enabled (task_settings t)).
Qed.

Lemma C2_unloaded_model_fails_without_retry_witness :
  let wt := feed ampleBrowser 9 (alphaStarted.1, alphaStarted.2)
              (signalsOf "alpha" unloadedAtSend) in
  task_phase wt.2 = Settled
  /\ task_retryCount wt.2 = 0
  /\ requests wt.1 = requests alphaStarted.1
  /\ conversations (hook wt.1) !! "alpha"
     = Some (UseAIModels.failedUpdate "Failed to send message: HTTP 404" 0 promptAgain
               (UseAIModels.projection chat1 modelAlpha)).
Proof.
  refine (proj1 (C2_unloaded_model_fails_without_retry ampleBrowser 9
                   alphaStarted.1 alphaStarted.2
                   (UseAIModels.projection chat1 modelAlpha) _ _)
            404 "Model not loaded" _ _).
  - reflexivity.
  - apply lookup_singleton_eq.
  - reflexivity.
  - reflexivity.
Defined.

(** The two failing runs, from the first request to the end: the server
    would report the unloaded model on every request, but the task sends one
    request only and fails with a retry count of 0. *)
Example unloaded_at_send_run :
  let wt := serve ampleBrowser 9 alphaStarted
              [unloadedAtSend; unloadedAtSend; unloadedAtSend] in
  task_phase wt.2 = Settled
  /\ length (requestsOf "alpha" wt.1) = 1
  /\ (mc_retryCount <$> conversations (hook wt.1) !! "alpha") = Some (Some 0)
  /\ (mc_canRetry <$> conversations (hook wt.1) !! "alpha") = Some (Some true)
  /\ (mc_error <$> conversations (hook wt.1) !! "alpha")
     = Some (Some "Failed to send message: HTTP 404").
Proof. vm_compute. done. Qed.

Example unloaded_mid_stream_run :
  let wt := serve ampleBrowser 9 alphaStarted
              [unloadedMidStream; unloadedMidStream; unloadedMidStream] in
  task_phase wt.2 = Settled
  /\ length (requestsOf "alpha" wt.1) = 1
  /\ (mc_retryCount <$> conversations (hook wt.1) !! "alpha") = Some (Some 0)
  /\ (mc_canRetry <$> conversations (hook wt.1) !! "alpha") = Some (Some true)
  /\ (mc_error <$> conversations (hook wt.1) !! "alpha")
     = Some (Some "Model unloaded during response. Please reload the model in LM Studio.").
Proof. vm_compute. done. Qed.

(** The gate itself works for an error it recognises: three rejections with
    a [ConfigurationError] saying that the model is not loaded are answered
    by two automatic retries before the task fails. *)
Example recognised_error_is_retried :
  let e := mkError ConfigurationError "Model alpha is not loaded." in
  let wt := feed ampleBrowser 9 alphaStarted
              [SendRejected e; TimerFires; SendRejected e; TimerFires; SendRejected e] in
  task_phase wt.2 = Settled
  /\ length (requestsOf "alpha" wt.1) = 3
  /\ (mc_retryCount <$> conversations (hook wt.1) !! "alpha") = Some (Some 2)
  /\ (mc_canRetry <$> conversations (hook wt.1) !! "alpha") = Some (Some true).
Proof. vm_compute. done. Qed.

(** ** C1: the manual retry *)

(** Every step of a task keeps the count of its requests in line with its
    retry counter: one request per attempt, the attempt of a retry being
    sent when its delay has elapsed. *)
Lemma step_requests (B : Browser) (now : Z) (w : World) (t : Task) (sig : Signal)
    (c : nat) :
  task_retryCount t <= maxRetries (task_settings t) ->
  length (requests w) + pending t = c + task_retryCount t ->
  let wt := UseAIModels.step B now w t sig in
  task_settings wt.2 = task_settings t
  /\ task_retryCount wt.2 <= maxRetries (task_settings t)
  /\ length (requests wt.1) + pending wt.2 = c + task_retryCount wt.2.
Proof.
  intros Hle Hinv.
  assert (Hbegin : forall w' t', task_settings t' = task_settings t ->
            task_retryCount t' <= maxRetries (task_settings t) ->
            length (requests w') + 1 = c + task_retryCount t' ->
            let wt := UseAIModels.beginAttempt w' t' in
            task_settings wt.2 = task_settings t
            /\ task_retryCount wt.2 <= maxRetries (task_settings t)
            /\ length (requests wt.1) + pending wt.2 = c + task_retryCount wt.2).
  { intros w' t' Hs Hle' Hc. unfold UseAIModels.beginAttempt. rewrite Hs.
    replace (task_retryCount t' <=? maxRetries (task_settings t)) with true
      by (symmetry; by apply Nat.leb_le).
    simpl. rewrite length_app. simpl. unfold pending. simpl. split_and!; [done|lia|lia]. }
  assert (Herr : forall e, pending t = 0 ->
            let wt := UseAIModels.onError w t e in
            task_settings wt.2 = task_settings t
            /\ task_retryCount wt.2 <= maxRetries (task_settings t)
            /\ length (requests wt.1) + pending wt.2 = c + task_retryCount wt.2).
  { intros e Hp. unfold UseAIModels.onError.
    destruct (UseAIModels.shouldRetryError (task_settings t) e); simpl.
    - destruct (task_retryCount t <? maxRetries (task_settings t)) eqn:Hlt; simpl.
      + apply Nat.ltb_lt in Hlt.
        destruct (0 <? _)%Z.
        * unfold pending. simpl. split_and!; [done|lia|lia].
        * apply Hbegin; simpl; [done|lia|lia].
      + unfold pending in *. simpl. split_and!; [done|lia|lia].
    - unfold pending in *. simpl. split_and!; [done|lia|lia]. }
  unfold UseAIModels.step.
  destruct (task_phase t) eqn:Hph; destruct sig; simpl;
    try (split_and!; [done|lia|lia]);
    try (apply Herr; unfold pending; by rewrite Hph).
  - unfold pending in *. rewrite Hph in Hinv. simpl. split_and!; [done|lia|lia].
  - unfold pending in *. rewrite Hph in Hinv. simpl. split_and!; [done|lia|lia].
  - unfold pending in *. rewrite Hph in Hinv.
    destruct (_ && _); simpl; (split_and!; [done|lia|lia]).
  - apply Hbegin; [done|lia|]. unfold pending in Hinv. rewrite Hph in Hinv. lia.
Qed.

(** When the gate is closed for every error (retries disabled, or none
    allowed), a step of a task that is not waiting sends nothing. *)
Lemma step_gate_closed (B : Browser) (now : Z) (w : World) (t : Task) (sig : Signal) :
  enabled (task_settings t) = false \/ maxRetries (task_settings t) = 0 ->
  pending t = 0 ->
  let wt := UseAIModels.step B now w t sig in
  task_settings wt.2 = task_settings t
  /\ pending wt.2 = 0
  /\ requests wt.1 = requests w.
Proof.
  intros Hgate Hp.
  assert (Herr : forall e,
            let wt := UseAIModels.onError w t e in
            task_settings wt.2 = task_settings t /\ pending wt.2 = 0
            /\ requests wt.1 = requests w).
  { intros e. rewrite onError_final; [done|].
    unfold UseAIModels.shouldRetryError.
    destruct Hgate as [-> | ->]; [done|]. apply andb_false_r. }
  unfold UseAIModels.step.
  destruct (task_phase t) eqn:Hph; destruct sig; simpl; try done; try apply Herr.
  - by destruct (_ && _).
  - unfold pending in Hp. by rewrite Hph in Hp.
Qed.

Lemma deliver_single (B : Browser) (eng : Engine) (t : Task) (i : nat) (now : Z)
    (sig : Signal) :
  tasks eng = [t] ->
  (i = 0
   /\ tasks (UseAIModels.deliver B eng i now sig)
      = [(UseAIModels.step B now (world eng) t sig).2]
   /\ requests (world (UseAIModels.deliver B eng i now sig))
      = requests (UseAIModels.step B now (world eng) t sig).1)
  \/ (i <> 0 /\ UseAIModels.deliver B eng i now sig = eng).
Proof.
  intros Ht. unfold UseAIModels.deliver. rewrite Ht.
  destruct i as [|i]; [left|right; by split].
  simpl. destruct (UseAIModels.step B now (world eng) t sig) as [w1 t1].
  simpl. split; [done|]. split; [done|]. by destruct (_ && _).
Qed.

(** A call of [sendPromptToModels] for one model sends, whatever the
    schedule, one request per attempt and never more than [maxRetries]
    retries. *)
Lemma run_single_requests (B : Browser) (schedule : list (nat * Z * Signal)) :
  forall (eng : Engine) (t : Task) (c : nat),
    tasks eng = [t] ->
    task_retryCount t <= maxRetries (task_settings t) ->
    length (requests (world eng)) + pending t = c + task_retryCount t ->
    exists t',
      tasks (UseAIModels.run B eng schedule) = [t']
      /\ task_settings t' = task_settings t
      /\ task_retryCount t' <= maxRetries (task_settings t)
      /\ length (requests (world (UseAIModels.run B eng schedule))) + pending t'
         = c + task_retryCount t'.
Proof.
  induction schedule as [|[[i now] sig] rest IH]; intros eng t c Ht Hle Hinv.
  - exists t. by split_and!.
  - rewrite run_cons.
    destruct (deliver_single B eng t i now sig Ht) as [(_ & Ht1 & Hr1)|[_ ->]].
    + destruct (step_requests B now (world eng) t sig c Hle Hinv) as (Hs & Hle1 & Hinv1).
      destruct (IH _ _ c Ht1) as (t' & Ht' & Hs' & Hle' & Hinv').
      * by rewrite Hs.
      * by rewrite Hr1.
      * exists t'. rewrite Hs in Hs', Hle'. by split_and!.
    + by apply IH.
Qed.

Lemma run_single_gate_closed (B : Browser) (schedule : list (nat * Z * Signal)) :
  forall (eng : Engine) (t : Task),
    tasks eng = [t] ->
    enabled (task_settings t) = false \/ maxRetries (task_settings t) = 0 ->
    pending t = 0 ->
    requests (world (UseAIModels.run B eng schedule)) = requests (world eng).
Proof.
  induction schedule as [|[[i now] sig] rest IH]; intros eng t Ht Hgate Hp; [done|].
  rewrite run_cons.
  destruct (deliver_single B eng t i now sig Ht) as [(_ & Ht1 & Hr1)|[_ ->]].
  - destruct (step_gate_closed B now (world eng) t sig Hgate Hp) as (Hs & Hp1 & Hr).
    rewrite (IH _ _ Ht1); [by rewrite Hr1|by rewrite Hs|done].
  - by eapply IH.
Qed.

(** The guards of [retryFailedModel] pass and [sendPromptToModels] starts
    its task. *)
Ltac enter_retry Hc Hp Hm Hen Hid :=
  unfold UseAIModels.retryFailedModel; rewrite Hc, Hp, Hm, Hen;
  unfold UseAIModels.sendPromptToModels; rewrite Hid, startTasks_spec.

(** C1 (amended). For a model that is enabled and has a recorded failed
    prompt, [retryFailedModel] resets the error fields of the entry, marks it
    loading and calls [sendPromptToModels] once for that model alone. The
    callback it calls is the one of the render in which the columns or the
    roster last changed: the retry runs in the conversation [id] that was
    active in that render and under the settings [closureSettings] that
    were configured in it, whatever the settings of the current state are.
    The task that call starts runs the same retry loop as a submission,
    under those settings: it sends its request once, and again for every
    automatic retry the gate grants, at most [maxRetries] of them; when the
    gate grants none (retries disabled, or [maxRetries] 0) it sends exactly
    once. *)
Theorem C1_manual_retry_runs_the_retry_loop (B : Browser) (w : World) (modelId : string)
    (conversation : ModelConversation) (lastFailedPrompt : PromptData)
    (model : AIModel) (id : string) (closureSettings : option RetrySettings) :
  conversations (hook w) !! modelId = Some conversation ->
  mc_lastFailedPrompt conversation = Some lastFailedPrompt ->
  find (fun m => String.eqb (model_id m) modelId) (models (hook w)) = Some model ->
  model_isEnabled model = true ->
  Js.truthy id = true ->
  let rs := default UseAIModels.defaultRetrySettings closureSettings in
  let eng := UseAIModels.retryFailedModel (Some id) closureSettings w modelId in
  tasks eng = [newTask model lastFailedPrompt id rs]
  /\ requests (world eng)
     = requests w
       ++ [(model_id model,
            UseAIModels.apiMessages (storage w) model id lastFailedPrompt)]
  /\ (exists mc, conversations (hook (world eng)) !! modelId = Some mc
        /\ mc_isLoading mc = Some true /\ mc_error mc = None
        /\ mc_retryCount mc = Some 0 /\ mc_canRetry mc = Some false
        /\ mc_messages mc = mc_messages conversation)
  /\ (forall schedule,
        length (requests (world (UseAIModels.run B eng schedule)))
        <= length (requests w) + 1 + maxRetries rs)
  /\ (enabled rs = false \/ maxRetries rs = 0 ->
      forall schedule,
        length (requests (world (UseAIModels.run B eng schedule)))
        = length (requests w) + 1).
Proof.
  intros Hc Hp Hm Hen Hid rs eng.
  assert (Htasks : tasks eng = [newTask model lastFailedPrompt id rs])
    by (subst eng; by enter_retry Hc Hp Hm Hen Hid).
  assert (Hreq : requests (world eng)
                 = requests w
                   ++ [(model_id model,
                        UseAIModels.apiMessages (storage w) model id lastFailedPrompt)])
    by (subst eng; by enter_retry Hc Hp Hm Hen Hid).
  split_and!; try done.
  - subst eng. enter_retry Hc Hp Hm Hen Hid. simpl.
    eexists. rewrite lookup_insert_eq. split; [done|]. rewrite Hc. done.
  - intros schedule.
    destruct (run_single_requests B schedule eng _ (length (requests w) + 1) Htasks)
      as (t' & _ & _ & Hle & Hinv).
    + simpl. lia.
    + rewrite Hreq, length_app. simpl. unfold pending. simpl. lia.
    + simpl in Hle. fold rs in Hle. lia.
  - intros Hgate schedule.
    rewrite (run_single_gate_closed B schedule eng _ Htasks); [|exact Hgate|done].
    rewrite Hreq, length_app. done.
Qed.

Lemma C1_manual_retry_runs_the_retry_loop_witness :
  length (requests (world (UseAIModels.run ampleBrowser
                             (UseAIModels.retryFailedModel (Some "c1")
                                (Some retryAllSettings) failedWorld "alpha")
                             failingSchedule)))
  <= length (requests failedWorld) + 1 + 2.
Proof.
  refine (proj1 (proj2 (proj2 (proj2
            (C1_manual_retry_runs_the_retry_loop ampleBrowser failedWorld "alpha"
               (UseAIModels.failedUpdate "Internal error" 2 promptAgain
                  (UseAIModels.projection chat1 modelAlpha))
               promptAgain modelAlpha "c1" (Some retryAllSettings) _ _ _ _ _))))
            failingSchedule).
  - apply lookup_singleton_eq.
  - reflexivity.
  - reflexivity.
  - reflexivity.
  - reflexivity.
Defined.

(** C1 as stated fails: under settings that retry every error at most twice,
    one manual retry of alpha against a server that keeps answering with an
    error sends three requests, not one, and ends with a retry count of 2.
    The callback is the one of the state it is called in. *)
Lemma C1_counterexample :
  let eng := UseAIModels.run ampleBrowser
               (UseAIModels.retryFailedModel (activeConversationId (hook failedWorld))
                  (configRetrySettings (hook failedWorld)) failedWorld "alpha")
               failingSchedule in
  requestsOf "alpha" failedWorld = []
  /\ length (requestsOf "alpha" (world eng)) = 3
  /\ length (requestsOf "alpha" (world eng)) <> 1
  /\ (task_phase <$> tasks eng) = [Settled]
  /\ (mc_retryCount <$> conversations (hook (world eng)) !! "alpha") = Some (Some 2).
Proof. vm_compute. split_and!; done. Qed.

(** The settings of the current state are not consulted: in [failedWorld],
    where every error is retried, a callback made when retries were
    switched off sends one request against the same server, and a callback
    made under the default settings does too. *)
Example manual_retry_under_the_settings_of_its_render :
  let switchedOff :=
    {| enabled := false; maxRetries := 2; retryDelay := 2000;
       retryStrategy := fixed; retryOnlyModelErrors := false |} in
  configRetrySettings (hook failedWorld) = Some retryAllSettings
  /\ length (requests (world (UseAIModels.run ampleBrowser
                                (UseAIModels.retryFailedModel (Some "c1")
                                   (Some switchedOff) failedWorld "alpha")
                                failingSchedule))) = 1
  /\ length (requests (world (UseAIModels.run ampleBrowser
                                (UseAIModels.retryFailedModel (Some "c1") None
                                   failedWorld "alpha")
                                failingSchedule))) = 1.
Proof. by vm_compute. Qed.

(** ** The conversation store *)

Lemma upsert_cons (x c : Conversation) (r : list Conversation) :
  ConversationService.upsert (x :: r) c
  = if String.eqb (conv_id x) (conv_id c) then c :: r
    else x :: ConversationService.upsert r c.
Proof.
  unfold ConversationService.upsert. simpl.
  destruct (String.eqb (conv_id x) (conv_id c)); [done|].
  by destruct (ConversationService.findIndex (conv_id c) r).
Qed.

Lemma upsert_nil (c : Conversation) : ConversationService.upsert [] c = [c].
Proof. done. Qed.

Lemma upsert_length (l : list Conversation) (c : Conversation) :
  length l <= length (ConversationService.upsert l c) <= S (length l).
Proof.
  induction l as [|x r IH]; [simpl; lia|].
  rewrite upsert_cons. destruct (String.eqb _ _); simpl; lia.
Qed.

Lemma upsert_elem_of (l : list Conversation) (c x : Conversation) :
  x ∈ ConversationService.upsert l c -> x = c \/ x ∈ l.
Proof.
  induction l as [|y r IH].
  - rewrite upsert_nil. intros ->%list_elem_of_singleton. by left.
  - rewrite upsert_cons. destruct (String.eqb (conv_id y) (conv_id c)).
    + intros [->|Hx]%elem_of_cons; [by left|]. right. by right.
    + intros [->|Hx]%elem_of_cons; [right; by left|].
      destruct (IH Hx) as [->|Hr]; [by left|]. right. by right.
Qed.

Lemma upsert_saved (l : list Conversation) (c : Conversation) :
  c ∈ ConversationService.upsert l c.
Proof.
  induction l as [|y r IH]; [rewrite upsert_nil; by left|].
  rewrite upsert_cons. destruct (String.eqb _ _); [by left|by right].
Qed.

Lemma upsert_keeps (l : list Conversation) (c x : Conversation) :
  x ∈ l -> conv_id x <> conv_id c -> x ∈ ConversationService.upsert l c.
Proof.
  intros Hx Hne. induction l as [|y r IH]; [by apply elem_of_nil in Hx|].
  rewrite upsert_cons. apply elem_of_cons in Hx as [->|Hx].
  - destruct (String.eqb (conv_id y) (conv_id c)) eqn:E; [|by left].
    by apply String.eqb_eq in E.
  - destruct (String.eqb _ _); right; [done|by apply IH].
Qed.

Lemma upsert_ids (l : list Conversation) (c : Conversation) :
  conv_id <$> ConversationService.upsert l c
  = if bool_decide (conv_id c ∈ conv_id <$> l) then conv_id <$> l
    else (conv_id <$> l) ++ [conv_id c].
Proof.
  induction l as [|y r IH]; [done|].
  rewrite upsert_cons. destruct (String.eqb (conv_id y) (conv_id c)) eqn:E.
  - apply String.eqb_eq in E. rewrite !fmap_cons.
    rewrite bool_decide_true by (rewrite <- E; by left). by rewrite E.
  - apply String.eqb_neq in E. rewrite !fmap_cons, IH.
    destruct (bool_decide (conv_id c ∈ conv_id <$> r)) eqn:D.
    + apply bool_decide_eq_true in D. rewrite bool_decide_true; [done|by right].
    + apply bool_decide_eq_false in D. rewrite bool_decide_false; [done|].
      intros [?|?]%elem_of_cons; congruence.
Qed.

Lemma upsert_NoDup (l : list Conversation) (c : Conversation) :
  NoDup (conv_id <$> l) -> NoDup (conv_id <$> ConversationService.upsert l c).
Proof.
  intros Hnd. rewrite upsert_ids. case_bool_decide as D; [done|].
  apply NoDup_app. split; [done|]. split; [|apply NoDup_singleton].
  intros x Hx ->%list_elem_of_singleton. done.
Qed.

Lemma find_upsert_eq (l : list Conversation) (c : Conversation) :
  find (fun conv => String.eqb (conv_id conv) (conv_id c)) (ConversationService.upsert l c)
  = Some c.
Proof.
  induction l as [|y r IH]; [simpl; by rewrite String.eqb_refl|].
  rewrite upsert_cons. destruct (String.eqb (conv_id y) (conv_id c)) eqn:E; simpl.
  - by rewrite String.eqb_refl.
  - by rewrite E.
Qed.

Lemma find_upsert_ne (l : list Conversation) (c : Conversation) (id : string) :
  id <> conv_id c ->
  find (fun conv => String.eqb (conv_id conv) id) (ConversationService.upsert l c)
  = find (fun conv => String.eqb (conv_id conv) id) l.
Proof.
  intros Hne. induction l as [|y r IH].
  - simpl. destruct (String.eqb (conv_id c) id) eqn:E; [|done].
    apply String.eqb_eq in E. congruence.
  - rewrite upsert_cons. destruct (String.eqb (conv_id y) (conv_id c)) eqn:E; simpl.
    + apply String.eqb_eq in E.
      destruct (String.eqb (conv_id c) id) eqn:E1;
        [apply String.eqb_eq in E1; congruence|].
      destruct (String.eqb (conv_id y) id) eqn:E2;
        [apply String.eqb_eq in E2; congruence|done].
    + destruct (String.eqb (conv_id y) id); [done|apply IH].
Qed.

Lemma insertByUpdatedAt_Permutation (c : Conversation) (l : list Conversation) :
  ConversationService.insertByUpdatedAt c l ≡ₚ c :: l.
Proof.
  induction l as [|x r IH]; [done|]. simpl.
  destruct (_ <=? _)%Z; [done|]. rewrite IH. apply Permutation_swap.
Qed.

Lemma sortByUpdatedAt_Permutation (l : list Conversation) :
  ConversationService.sortByUpdatedAt l ≡ₚ l.
Proof.
  induction l as [|x r IH]; [done|]. simpl.
  by rewrite insertByUpdatedAt_Permutation, IH.
Qed.

Lemma sortByUpdatedAt_length (l : list Conversation) :
  length (ConversationService.sortByUpdatedAt l) = length l.
Proof. by rewrite sortByUpdatedAt_Permutation. Qed.

Lemma insertByUpdatedAt_sorted (c : Conversation) (l : list Conversation) :
  StronglySorted notNewer l ->
  StronglySorted notNewer (ConversationService.insertByUpdatedAt c l).
Proof.
  induction 1 as [|x r Hr IH Hx]; simpl.
  - repeat constructor.
  - destruct (conv_updatedAt c <=? conv_updatedAt x)%Z eqn:E.
    + apply Z.leb_le in E. constructor; [by constructor|].
      constructor; [done|]. eapply Forall_impl; [exact Hx|].
      intros y Hy. unfold notNewer in *. lia.
    + apply Z.leb_gt in E. constructor; [done|].
      rewrite insertByUpdatedAt_Permutation. constructor; [|done].
      unfold notNewer. lia.
Qed.

Lemma sortByUpdatedAt_sorted (l : list Conversation) :
  StronglySorted notNewer (ConversationService.sortByUpdatedAt l).
Proof.
  induction l as [|x r IH]; [constructor|]. simpl. by apply insertByUpdatedAt_sorted.
Qed.

(** In a sorted list, what is dropped from the front is not newer than what
    stays. *)
Lemma sorted_take_drop (l : list Conversation) (k : nat) (x y : Conversation) :
  StronglySorted notNewer l -> x ∈ take k l -> y ∈ drop k l -> notNewer x y.
Proof.
  intros Hs Hx Hy. rewrite <- (take_drop k l) in Hs.
  by eapply StronglySorted_app_1_elem_of.
Qed.

(** Stability: a conversation that is not older than those stored before it
    and newer than those stored after it comes last. *)
Lemma insertByUpdatedAt_last (x c : Conversation) (l : list Conversation) :
  last l = Some c -> notNewer x c ->
  last (ConversationService.insertByUpdatedAt x l) = Some c.
Proof.
  intros Hl Hx. induction l as [|y r IH]; [done|]. simpl.
  destruct (conv_updatedAt x <=? conv_updatedAt y)%Z eqn:E.
  - by rewrite last_cons_cons.
  - destruct r as [|z r].
    + simpl in Hl. injection Hl as ->. apply Z.leb_gt in E.
      unfold notNewer in Hx. lia.
    + rewrite last_cons_cons in Hl. specialize (IH Hl).
      destruct (ConversationService.insertByUpdatedAt x (z :: r)) eqn:Hins;
        [done|]. by rewrite last_cons_cons.
Qed.

Lemma insertByUpdatedAt_end (c : Conversation) (l : list Conversation) :
  (forall y, y ∈ l -> (conv_updatedAt y < conv_updatedAt c)%Z) ->
  ConversationService.insertByUpdatedAt c l = l ++ [c].
Proof.
  intros Hl. induction l as [|y r IH]; [done|]. simpl.
  destruct (conv_updatedAt c <=? conv_updatedAt y)%Z eqn:E.
  - apply Z.leb_le in E. specialize (Hl y (list_elem_of_here _ _)). lia.
  - rewrite IH; [done|]. intros z Hz. apply Hl. by right.
Qed.

Lemma sortByUpdatedAt_last (l1 l2 : list Conversation) (c : Conversation) :
  (forall x, x ∈ l1 -> notNewer x c) ->
  (forall y, y ∈ l2 -> (conv_updatedAt y < conv_updatedAt c)%Z) ->
  last (ConversationService.sortByUpdatedAt (l1 ++ c :: l2)) = Some c.
Proof.
  intros H1 H2. induction l1 as [|x r IH]; simpl.
  - rewrite insertByUpdatedAt_end; [by rewrite last_snoc|].
    intros y Hy. apply H2. by rewrite <- sortByUpdatedAt_Permutation.
  - apply insertByUpdatedAt_last.
    + apply IH. intros z Hz. apply H1. by right.
    + apply H1. by left.
Qed.

Lemma withConversations_getAll (ls : LocalStorage) (l : list Conversation) :
  ConversationService.getAllConversations (withConversations ls l) = l.
Proof. done. Qed.

Lemma setActiveConversation_spec (B : Browser) (ls : LocalStorage) (id : string) :
  fits B ls = true ->
  fits B (ConversationService.setActiveConversation B ls id) = true
  /\ ls_conversations (ConversationService.setActiveConversation B ls id)
     = ls_conversations ls.
Proof.
  intros Hfits. unfold ConversationService.setActiveConversation.
  destruct (fits B {| ls_conversations := ls_conversations ls; ls_active := Some id |})
    eqn:E; by rewrite ?E.
Qed.

(** Deleting from a store that fits, in a browser where removing never
    fails, removes the conversations of that id and nothing else. *)
Lemma deleteConversation_spec (B : Browser) (ls : LocalStorage) (id : string) :
  shrinkable B -> fits B ls = true ->
  fits B (ConversationService.deleteConversation B ls id) = true
  /\ ConversationService.getAllConversations
       (ConversationService.deleteConversation B ls id)
     = filter (fun conv => conv_id conv ≠ id)
         (ConversationService.getAllConversations ls).
Proof.
  intros Hshrink Hfits. destruct (Hshrink ls Hfits) as [Hdel _].
  unfold ConversationService.deleteConversation, ConversationService.setConversations.
  fold (withConversations ls
          (filter (fun conv => conv_id conv ≠ id)
             (ConversationService.getAllConversations ls))).
  rewrite (Hdel id).
  set (ls1 := withConversations ls _).
  assert (Hfits1 : fits B ls1 = true) by apply Hdel.
  assert (Hget : ConversationService.getAllConversations ls1
                 = filter (fun conv => conv_id conv ≠ id)
                     (ConversationService.getAllConversations ls)) by done.
  rewrite <- Hget. clearbody ls1.
  destruct (bool_decide _); [|done].
  destruct (ConversationService.getAllConversations ls1) as [|first rest] eqn:Hall.
  - split; [by apply (Hshrink ls1)|]. exact Hall.
  - destruct (setActiveConversation_spec B ls1 (conv_id first) Hfits1) as [Hf Hc].
    split; [done|]. unfold ConversationService.getAllConversations in *.
    by rewrite Hc, Hall.
Qed.

Lemma withoutIdsOf_nil (l : list Conversation) : withoutIdsOf [] l = l.
Proof.
  unfold withoutIdsOf. induction l as [|x r IH]; [done|].
  rewrite filter_cons_True; [by rewrite IH|]. apply not_elem_of_nil.
Qed.

Lemma withoutIdsOf_cons (oldest : Conversation) (removed l : list Conversation) :
  withoutIdsOf removed (filter (fun conv => conv_id conv ≠ conv_id oldest) l)
  = withoutIdsOf (oldest :: removed) l.
Proof.
  unfold withoutIdsOf. rewrite list_filter_filter. apply list_filter_iff.
  intros x. rewrite fmap_cons, not_elem_of_cons. tauto.
Qed.

Lemma withoutIdsOf_app (removed1 removed2 l : list Conversation) :
  withoutIdsOf removed2 (withoutIdsOf removed1 l) = withoutIdsOf (removed1 ++ removed2) l.
Proof.
  unfold withoutIdsOf. rewrite list_filter_filter. apply list_filter_iff.
  intros x. rewrite fmap_app, not_elem_of_app. tauto.
Qed.

(** The first loop of the cleanup drops the oldest conversations beyond the
    fiftieth and deletes them. *)
Lemma evictOverCount_spec (B : Browser) (sorted : list Conversation) :
  shrinkable B ->
  forall ls, fits B ls = true ->
    let res := ConversationService.evictOverCount B sorted ls in
    let k := length sorted - 50 in
    res.1 = drop k sorted
    /\ fits B res.2 = true
    /\ ConversationService.getAllConversations res.2
       = withoutIdsOf (take k sorted) (ConversationService.getAllConversations ls)
    /\ (k = 0 -> res.2 = ls).
Proof.
  intros Hshrink. induction sorted as [|oldest rest IH]; intros ls Hfits.
  - simpl. by rewrite withoutIdsOf_nil.
  - cbn [ConversationService.evictOverCount]. unfold ConversationService.MAX_CONVERSATIONS.
    destruct (Nat.ltb_spec 50 (length (oldest :: rest))) as [Hlt|Hge].
    + cbn [length] in *.
      replace (S (length rest) - 50) with (S (length rest - 50)) by lia.
      destruct (deleteConversation_spec B ls (conv_id oldest) Hshrink Hfits)
        as [Hfits1 Hget1].
      destruct (IH _ Hfits1) as (Hd & Hf & Hg & _).
      cbn [take drop]. split_and!; [done|done| |done].
      by rewrite Hg, Hget1, withoutIdsOf_cons.
    + cbn [length] in *.
      replace (S (length rest) - 50) with 0 by lia.
      cbn [take drop fst snd]. by rewrite withoutIdsOf_nil.
Qed.

(** The second loop drops and deletes further conversations from the old
    end, and never the last one that is left. *)
Lemma evictOverSize_spec (B : Browser) (sorted : list Conversation) :
  shrinkable B ->
  forall ls, fits B ls = true ->
    let res := ConversationService.evictOverSize B sorted ls in
    exists k,
      res.1 = drop k sorted
      /\ (k = 0 \/ k < length sorted)
      /\ fits B res.2 = true
      /\ ConversationService.getAllConversations res.2
         = withoutIdsOf (take k sorted) (ConversationService.getAllConversations ls)
      /\ (k = 0 -> res.2 = ls).
Proof.
  intros Hshrink. induction sorted as [|oldest rest IH]; intros ls Hfits.
  - exists 0. simpl. rewrite withoutIdsOf_nil. split_and!; try done. by left.
  - cbn [ConversationService.evictOverSize].
    destruct (_ && _) eqn:Hcond.
    + apply andb_prop in Hcond as [_ Hlen]. apply Nat.ltb_lt in Hlen. cbn [length] in Hlen.
      destruct (deleteConversation_spec B ls (conv_id oldest) Hshrink Hfits)
        as [Hfits1 Hget1].
      destruct (IH _ Hfits1) as (k & Hd & Hk & Hf & Hg & _).
      exists (S k). cbn [take drop length]. split_and!; [done| |done| |done].
      * right. lia.
      * by rewrite Hg, Hget1, withoutIdsOf_cons.
    + exists 0. cbn [take drop fst snd length]. rewrite withoutIdsOf_nil.
      split_and!; try done. by left.
Qed.

(** The cleanup deletes the [k] conversations updated longest ago, for some
    [k] that leaves at most fifty and, if there was any, at least one. *)
Lemma cleanupOldConversations_spec (B : Browser) (ls : LocalStorage) :
  shrinkable B -> fits B ls = true ->
  let sorted := ConversationService.sortByUpdatedAt
                  (ConversationService.getAllConversations ls) in
  exists k,
    (k = 0 \/ k < length sorted)
    /\ length sorted - k <= 50
    /\ fits B (ConversationService.cleanupOldConversations B ls) = true
    /\ ConversationService.getAllConversations
         (ConversationService.cleanupOldConversations B ls)
       = withoutIdsOf (take k sorted) (ConversationService.getAllConversations ls)
    /\ (k = 0 -> ConversationService.cleanupOldConversations B ls = ls).
Proof.
  intros Hshrink Hfits sorted. unfold ConversationService.cleanupOldConversations.
  fold sorted.
  pose proof (evictOverCount_spec B sorted Hshrink ls Hfits) as H1.
  destruct (ConversationService.evictOverCount B sorted ls) as [s1 ls1].
  cbn [fst snd] in H1. destruct H1 as (Hs1 & Hf1 & Hg1 & Hk1).
  destruct (evictOverSize_spec B s1 Hshrink ls1 Hf1) as (k2 & _ & Hk2 & Hf2 & Hg2 & Hk2').
  exists (length sorted - 50 + k2).
  assert (Hlen1 : length s1 = length sorted - (length sorted - 50))
    by (by rewrite Hs1, length_drop).
  split_and!.
  - lia.
  - lia.
  - done.
  - rewrite Hg2, Hg1, withoutIdsOf_app, Hs1. by rewrite take_take_drop.
  - intros Hk. rewrite Hk2' by lia. apply Hk1. lia.
Qed.

Lemma filter_all {A} (P : A -> Prop) `{forall x, Decision (P x)} (l : list A) :
  (forall x, x ∈ l -> P x) -> filter P l = l.
Proof.
  induction l as [|x r IH]; intros Hall; [done|].
  rewrite filter_cons_True by (apply Hall; by left).
  rewrite IH; [done|]. intros y Hy. apply Hall. by right.
Qed.

Lemma filter_none {A} (P : A -> Prop) `{forall x, Decision (P x)} (l : list A) :
  (forall x, x ∈ l -> ~ P x) -> filter P l = [].
Proof.
  induction l as [|x r IH]; intros Hall; [done|].
  rewrite filter_cons_False by (apply Hall; by left).
  apply IH. intros y Hy. apply Hall. by right.
Qed.

(** With distinct ids, what the cleanup keeps is exactly what is left of the
    sorted list. *)
Lemma withoutIdsOf_take_drop (sorted l : list Conversation) (k : nat) :
  sorted ≡ₚ l -> NoDup (conv_id <$> l) ->
  withoutIdsOf (take k sorted) l ≡ₚ drop k sorted.
Proof.
  intros Hperm Hnd. unfold withoutIdsOf. rewrite <- Hperm.
  assert (Hnd' : NoDup (conv_id <$> sorted)) by (by rewrite Hperm).
  rewrite <- (take_drop k sorted), fmap_app in Hnd'.
  apply NoDup_app in Hnd' as (_ & Hdisj & _).
  set (P := fun conv => conv_id conv ∉ conv_id <$> take k sorted).
  assert (filter P sorted = filter P (take k sorted) ++ filter P (drop k sorted)) as ->
    by (by rewrite <- filter_app, take_drop).
  rewrite (filter_none P (take k sorted)), (filter_all P (drop k sorted)); [done| |].
  - intros x Hx Hin. eapply Hdisj; [exact Hin|]. by apply list_elem_of_fmap_2.
  - intros x Hx HP. apply HP. by apply list_elem_of_fmap_2.
Qed.

Lemma last_elem_of_drop {A} (l : list A) (c : A) (k : nat) :
  last l = Some c -> k < length l -> c ∈ drop k l.
Proof.
  intros [l' ->]%last_Some Hk. rewrite length_app in Hk. simpl in Hk.
  rewrite drop_app_le by lia. apply elem_of_app. right. by left.
Qed.

(** What the cleanup guarantees on a store with distinct ids. *)
Lemma cleanupOldConversations_properties (B : Browser) (ls : LocalStorage) :
  shrinkable B -> fits B ls = true ->
  NoDup (conv_id <$> ConversationService.getAllConversations ls) ->
  let l := ConversationService.getAllConversations ls in
  let ls' := ConversationService.cleanupOldConversations B ls in
  let kept := ConversationService.getAllConversations ls' in
  fits B ls' = true
  /\ NoDup (conv_id <$> kept)
  /\ length kept <= 50
  /\ kept `sublist_of` l
  /\ (forall x y, x ∈ l -> x ∉ kept -> y ∈ kept -> notNewer x y)
  /\ (forall c, last (ConversationService.sortByUpdatedAt l) = Some c -> c ∈ kept)
  /\ (ls' = ls \/ length kept < length l).
Proof.
  intros Hshrink Hfits Hnd l ls' kept.
  destruct (cleanupOldConversations_spec B ls Hshrink Hfits)
    as (k & Hk & Hcap & Hf & Hg & Hk0).
  fold l in Hk, Hcap, Hg. fold ls' in Hf, Hg, Hk0. fold kept in Hg.
  set (sorted := ConversationService.sortByUpdatedAt l) in *.
  assert (Hperm : sorted ≡ₚ l) by apply sortByUpdatedAt_Permutation.
  assert (Hkept : kept ≡ₚ drop k sorted)
    by (rewrite Hg; by apply withoutIdsOf_take_drop).
  assert (Hsub : kept `sublist_of` l) by (rewrite Hg; apply sublist_filter).
  assert (Hlen : length kept = length sorted - k) by (by rewrite Hkept, length_drop).
  split_and!.
  - done.
  - eapply sublist_NoDup; [exact Hnd|]. by apply fmap_sublist.
  - lia.
  - done.
  - intros x y Hx Hnx Hy.
    apply (sorted_take_drop sorted k); [apply sortByUpdatedAt_sorted| |by rewrite <- Hkept].
    rewrite <- Hperm, <- (take_drop k sorted) in Hx.
    apply elem_of_app in Hx as [Hx|Hx]; [done|].
    rewrite <- Hkept in Hx. done.
  - intros c Hlast. rewrite Hkept. apply last_elem_of_drop; [done|].
    destruct Hk as [->|Hk]; [|done].
    destruct sorted; [done|simpl; lia].
  - destruct Hk as [->|Hk]; [left; by apply Hk0|].
    destruct k as [|k]; [left; by apply Hk0|right].
    rewrite Hlen, <- (Permutation_length Hperm). lia.
Qed.

(** ** C10: the cap of the store and the order of eviction *)

Lemma ample_shrinkable (B : Browser) : ample B -> shrinkable B.
Proof. intros HB ls _. split; [intros id|]; apply HB. Qed.

(** A conversation newer than every other one of the list is sorted last. *)
Lemma newest_is_last (l : list Conversation) (c : Conversation) :
  NoDup (conv_id <$> l) -> c ∈ l ->
  (forall x, x ∈ l -> conv_id x <> conv_id c ->
     (conv_updatedAt x < conv_updatedAt c)%Z) ->
  last (ConversationService.sortByUpdatedAt l) = Some c.
Proof.
  intros Hnd Hc Hnew. apply list_elem_of_split in Hc as (l1 & l2 & ->).
  rewrite fmap_app, fmap_cons in Hnd.
  apply NoDup_app in Hnd as (_ & Hdisj & Hnd2). apply NoDup_cons in Hnd2 as [Hc2 _].
  apply sortByUpdatedAt_last.
  - intros x Hx. unfold notNewer. apply Z.lt_le_incl, Hnew.
    + apply elem_of_app. by left.
    + intros E. apply (Hdisj (conv_id x)); [by apply list_elem_of_fmap_2|].
      rewrite E. by left.
  - intros y Hy. apply Hnew.
    + apply elem_of_app. right. by right.
    + intros E. apply Hc2. rewrite <- E. by apply list_elem_of_fmap_2.
Qed.

(** C10 (amended). In a browser where removing from the store never fails,
    saving a conversation into a store that fits, holds at most 50
    conversations and has distinct ids leaves a store that fits, holds at
    most 50 conversations and has distinct ids. When the write of the saved
    conversation is accepted, the store afterwards holds only conversations
    of the written list, every conversation that was removed from that list
    was updated no later than every conversation that stays, and the saved
    conversation stays if it was updated after every other conversation. *)
Theorem C10_save_keeps_cap_and_evicts_oldest (B : Browser) (ls : LocalStorage)
    (c : Conversation) :
  shrinkable B ->
  fits B ls = true ->
  NoDup (conv_id <$> ConversationService.getAllConversations ls) ->
  length (ConversationService.getAllConversations ls) <= 50 ->
  let l := ConversationService.getAllConversations ls in
  let written := ConversationService.upsert l c in
  let ls' := ConversationService.saveConversation B ls c in
  let kept := ConversationService.getAllConversations ls' in
  (fits B ls' = true /\ NoDup (conv_id <$> kept) /\ length kept <= 50)
  /\ (fits B (withConversations ls written) = true ->
      (forall y, y ∈ kept -> y ∈ written)
      /\ (forall x y, x ∈ written -> x ∉ kept -> y ∈ kept -> notNewer x y)
      /\ ((forall x, x ∈ l -> conv_id x <> conv_id c ->
             (conv_updatedAt x < conv_updatedAt c)%Z) ->
          c ∈ kept)).
Proof.
  intros Hshrink Hfits Hnd Hcap l written ls' kept.
  assert (Hndw : NoDup (conv_id <$> written)) by (by apply upsert_NoDup).
  subst kept ls'. unfold ConversationService.saveConversation,
    ConversationService.setConversations.
  fold l. fold written. fold (withConversations ls written).
  destruct (fits B (withConversations ls written)) eqn:Hw.
  - destruct (cleanupOldConversations_properties B (withConversations ls written)
                Hshrink Hw Hndw) as (Hf & Hn & Hc & Hsub & Hold & Hlast & _).
    rewrite withConversations_getAll in Hsub, Hold, Hlast.
    split; [by split_and!|]. intros _. split_and!.
    + intros y Hy. by eapply elem_of_sublist.
    + exact Hold.
    + intros Hnew. apply Hlast, newest_is_last; [done|apply upsert_saved|].
      intros x Hx Hid. apply Hnew; [|done].
      apply upsert_elem_of in Hx as [->|Hx]; done.
  - split; [|done].
    destruct (cleanupOldConversations_properties B ls Hshrink Hfits Hnd)
      as (Hf & Hn & Hc & Hsub & _ & _ & Hless).
    set (ls1 := ConversationService.cleanupOldConversations B ls) in *.
    fold (withConversations ls1
            (ConversationService.upsert (ConversationService.getAllConversations ls1) c)).
    destruct (fits B (withConversations ls1 _)) eqn:Hw1; [|by split_and!].
    rewrite withConversations_getAll. split_and!; [done|by apply upsert_NoDup|].
    destruct Hless as [Heq|Hlt].
    + rewrite Heq in Hw1. fold l written in Hw1. congruence.
    + pose proof (upsert_length (ConversationService.getAllConversations ls1) c).
      unfold l in *. lia.
Qed.

Lemma C10_save_keeps_cap_and_evicts_oldest_witness :
  length (ConversationService.getAllConversations
            (ConversationService.saveConversation ampleBrowser fullStorage justUpdated))
  <= 50
  /\ justUpdated ∈ ConversationService.getAllConversations
                     (ConversationService.saveConversation ampleBrowser fullStorage
                        justUpdated).
Proof.
  assert (Hshrink : shrinkable ampleBrowser) by (by intros ls _).
  assert (Hnd : NoDup (conv_id <$> ConversationService.getAllConversations fullStorage))
    by (apply (bool_decide_unpack _); by vm_compute).
  assert (Hcap : length (ConversationService.getAllConversations fullStorage) <= 50)
    by (vm_compute; lia).
  destruct (C10_save_keeps_cap_and_evicts_oldest ampleBrowser fullStorage justUpdated
              Hshrink eq_refl Hnd Hcap) as [(_ & _ & Hlen) Hkept].
  split; [exact Hlen|].
  apply Hkept; [reflexivity|].
  intros x Hx _. simpl in Hx. apply list_elem_of_fmap in Hx as (i & -> & Hi).
  apply elem_of_seq in Hi. simpl. lia.
Defined.

(** C10 as stated fails: into a store at the cap, whose conversations were
    updated at 100 .. 149, a conversation last updated at 1 is saved; the
    cleanup that follows the write evicts the conversation updated longest
    ago, which is the one just saved, and the fifty others stay. *)
Lemma C10_counterexample :
  let ls' := ConversationService.saveConversation ampleBrowser fullStorage importedOld in
  length (ConversationService.getAllConversations fullStorage) = 50
  /\ ConversationService.getConversation ls' "old" = None
  /\ (importedOld ∉ ConversationService.getAllConversations ls')
  /\ ConversationService.getAllConversations ls'
     = ConversationService.getAllConversations fullStorage.
Proof.
  assert (E : ConversationService.getAllConversations
                (ConversationService.saveConversation ampleBrowser fullStorage importedOld)
              = ConversationService.getAllConversations fullStorage) by (by vm_compute).
  cbv zeta. unfold ConversationService.getConversation. rewrite E.
  split_and!; [done|by vm_compute| |done].
  simpl. intros (i & Heq & _)%list_elem_of_fmap. discriminate Heq.
Qed.

(** ** The store in a browser with ample storage *)

Lemma ample_cleanup (B : Browser) (ls : LocalStorage) :
  ample B ->
  length (ConversationService.getAllConversations ls) <= 50 ->
  ConversationService.cleanupOldConversations B ls = ls.
Proof.
  intros HB Hlen. unfold ConversationService.cleanupOldConversations.
  pose proof (sortByUpdatedAt_length (ConversationService.getAllConversations ls)) as Hs.
  destruct (ConversationService.sortByUpdatedAt _) as [|oldest rest]; [done|].
  cbn [ConversationService.evictOverCount]. unfold ConversationService.MAX_CONVERSATIONS.
  replace (50 <? length (oldest :: rest)) with false
    by (symmetry; apply Nat.ltb_ge; lia).
  cbn [ConversationService.evictOverSize].
  unfold ConversationService.estimateStorageSize.
  replace (ConversationService.MAX_STORAGE_SIZE <? storageSize B ls)%Z with false; [done|].
  symmetry. apply Z.ltb_ge. apply HB.
Qed.

Lemma ample_save (B : Browser) (ls : LocalStorage) (c : Conversation) :
  ample B ->
  length (ConversationService.upsert (ConversationService.getAllConversations ls) c) <= 50 ->
  ConversationService.saveConversation B ls c
  = withConversations ls
      (ConversationService.upsert (ConversationService.getAllConversations ls) c).
Proof.
  intros HB Hlen. unfold ConversationService.saveConversation,
    ConversationService.setConversations.
  fold (withConversations ls
          (ConversationService.upsert (ConversationService.getAllConversations ls) c)).
  rewrite (proj1 (HB _)). by apply ample_cleanup.
Qed.

Lemma ample_setActiveConversation (B : Browser) (ls : LocalStorage) (id : string) :
  ample B ->
  ConversationService.setActiveConversation B ls id
  = {| ls_conversations := ls_conversations ls; ls_active := Some id |}.
Proof.
  intros HB. unfold ConversationService.setActiveConversation. by rewrite (proj1 (HB _)).
Qed.

Lemma upsert_length_replace (l : list Conversation) (c : Conversation) :
  conv_id c ∈ conv_id <$> l ->
  length (ConversationService.upsert l c) = length l.
Proof.
  intros Hin. rewrite <- (length_fmap conv_id), upsert_ids.
  rewrite bool_decide_true by done. by rewrite length_fmap.
Qed.

Lemma getConversation_Some (ls : LocalStorage) (id : string) (c : Conversation) :
  ConversationService.getConversation ls id = Some c ->
  conv_id c = id /\ c ∈ ConversationService.getAllConversations ls.
Proof.
  unfold ConversationService.getConversation. intros Hfind.
  apply find_some in Hfind as [Hin Heq]. apply String.eqb_eq in Heq.
  split; [done|]. by apply list_elem_of_In.
Qed.

Lemma find_filter_other (l : list Conversation) (id : string) :
  find (fun conv => String.eqb (conv_id conv) id)
       (filter (fun conv => conv_id conv ≠ id) l) = None.
Proof.
  induction l as [|x r IH]; [done|].
  destruct (decide (conv_id x = id)) as [E|E].
  - by rewrite filter_cons_False by (intros H; by apply H).
  - rewrite filter_cons_True by done. simpl.
    destruct (String.eqb (conv_id x) id) eqn:E1; [|done].
    by apply String.eqb_eq in E1.
Qed.

(** In ample storage an appended message is stored with its conversation,
    provided the conversation exists and the store is within the cap. *)
Lemma ample_addMessage (B : Browser) (now : Z) (ls : LocalStorage) (id : string)
    (c : Conversation) (message : ChatMessage) :
  ample B ->
  ConversationService.getConversation ls id = Some c ->
  length (ConversationService.getAllConversations ls) <= 50 ->
  let ls' := ConversationService.addMessageToConversation B now ls id message in
  (exists c', ConversationService.getConversation ls' id = Some c'
      /\ conv_messages c' = conv_messages c ++ [message]
      /\ conv_updatedAt c' = now)
  /\ (forall id', id' <> id ->
        ConversationService.getConversation ls' id'
        = ConversationService.getConversation ls id')
  /\ ls_active ls' = ls_active ls
  /\ length (ConversationService.getAllConversations ls')
     = length (ConversationService.getAllConversations ls).
Proof.
  intros HB Hc Hlen. destruct (getConversation_Some ls id c Hc) as [Hid Hin].
  unfold ConversationService.addMessageToConversation. rewrite Hc.
  match goal with |- context [ConversationService.saveConversation B ls ?c'] =>
    set (saved := c') end.
  assert (Hsid : conv_id saved = id) by done.
  assert (Hrepl : length (ConversationService.upsert
                            (ConversationService.getAllConversations ls) saved)
                  = length (ConversationService.getAllConversations ls)).
  { apply upsert_length_replace. rewrite Hsid, <- Hid. by apply list_elem_of_fmap_2. }
  rewrite ample_save by (done || lia). cbv zeta.
  unfold ConversationService.getConversation. rewrite withConversations_getAll.
  split_and!.
  - exists saved. split; [|done].
    pose proof (find_upsert_eq (ConversationService.getAllConversations ls) saved) as Hf.
    by rewrite Hsid in Hf.
  - intros id' Hne. apply find_upsert_ne. by rewrite Hsid.
  - done.
  - done.
Qed.

Lemma ample_createConversation (B : Browser) (now : Z) (rnd : string)
    (ls : LocalStorage) (initialMessage : option string) :
  ample B ->
  length (ConversationService.getAllConversations ls) < 50 ->
  let fresh :=
    freshConversation now rnd
      (match initialMessage with
       | Some m => if Js.truthy m then ConversationService.generateTitle m
                   else "New Conversation"
       | None => "New Conversation"
       end) in
  ConversationService.createConversation B now rnd ls initialMessage
  = (fresh,
     {| ls_conversations :=
          Some (ConversationService.upsert (ConversationService.getAllConversations ls) fresh);
        ls_active := Some (conv_id fresh) |}).
Proof.
  intros HB Hlen fresh. unfold ConversationService.createConversation.
  fold (freshConversation now rnd
          (match initialMessage with
           | Some m => if Js.truthy m then ConversationService.generateTitle m
                       else "New Conversation"
           | None => "New Conversation"
           end)). fold fresh.
  rewrite ample_save; [|done|].
  - by rewrite ample_setActiveConversation.
  - pose proof (upsert_length (ConversationService.getAllConversations ls) fresh). lia.
Qed.

(** ** C3: deleting the active conversation *)

(** C3 (amended). In a browser with ample storage and fewer than 50 other
    conversations stored, deleting the conversation that is active in the
    hook removes it from the store and always creates a fresh empty
    conversation, which becomes the active one both in the hook and in the
    store, whether or not other conversations remain; the remaining
    conversations stay stored, none of them is made active, the list of the
    hook is the stored list and every projection is emptied. *)
Theorem C3_delete_active_activates_fresh_conversation (B : Browser) (now : Z)
    (rnd : string) (w : World) (id : string) :
  ample B ->
  activeConversationId (hook w) = Some id ->
  length (filter (fun conv => conv_id conv ≠ id)
            (ConversationService.getAllConversations (storage w))) < 50 ->
  let fresh := freshConversation now rnd "New Conversation" in
  let w' := UseAIModels.deleteConversation B now rnd w id in
  activeConversationId (hook w') = Some (conv_id fresh)
  /\ ls_active (storage w') = Some (conv_id fresh)
  /\ ConversationService.getConversation (storage w') (conv_id fresh) = Some fresh
  /\ conv_messages fresh = []
  /\ allConversations (hook w') = ConversationService.getAllConversations (storage w')
  /\ (conv_id fresh <> id ->
      ConversationService.getConversation (storage w') id = None)
  /\ (forall c, c ∈ ConversationService.getAllConversations (storage w) ->
        conv_id c <> id -> conv_id c <> conv_id fresh ->
        c ∈ ConversationService.getAllConversations (storage w'))
  /\ (forall k mc, conversations (hook w') !! k = Some mc -> mc_messages mc = []).
Proof.
  intros HB Hact Hlen fresh w'.
  destruct (deleteConversation_spec B (storage w) id (ample_shrinkable B HB)
              (proj1 (HB _))) as [_ Hget].
  subst w'. unfold UseAIModels.deleteConversation.
  rewrite bool_decide_true by done.
  unfold UseAIModels.createNewConversation. cbn [storage UseAIModels.setAllConversations
    UseAIModels.setStorage UseAIModels.setHook].
  rewrite (ample_createConversation B now rnd _ None HB) by (by rewrite Hget).
  fold fresh. cbn. rewrite Hget.
  unfold ConversationService.getConversation. cbn.
  split_and!; try done.
  - exact (find_upsert_eq _ fresh).
  - intros Hne. rewrite (find_upsert_ne _ fresh id) by done. apply find_filter_other.
  - intros c Hc Hid Hfresh. apply upsert_keeps; [|done].
    apply list_elem_of_filter. by split.
  - intros k mc. rewrite lookup_fmap. destruct (conversations (hook w) !! k); [|done].
    by intros [= <-].
Qed.

Lemma ampleBrowser_ample : ample ampleBrowser.
Proof. intros ls. split; [done|]. by vm_compute. Qed.

Lemma C3_delete_active_activates_fresh_conversation_witness :
  let w' := UseAIModels.deleteConversation ampleBrowser 30 "r" twoChats "a" in
  activeConversationId (hook w') = Some "conv_30_r"
  /\ ls_active (storage w') = Some "conv_30_r"
  /\ ConversationService.getConversation (storage w') "conv_30_r"
     = Some (freshConversation 30 "r" "New Conversation").
Proof.
  destruct (C3_delete_active_activates_fresh_conversation ampleBrowser 30 "r" twoChats "a"
              ampleBrowser_ample eq_refl)
    as (H1 & H2 & H3 & _).
  - vm_compute. lia.
  - exact (conj H1 (conj H2 H3)).
Defined.

(** C3 as stated fails: a and b are stored and a is active; after a is
    deleted, b remains and is the most recently updated remaining
    conversation, yet the active conversation is a newly created one. *)
Lemma C3_counterexample :
  let w' := UseAIModels.deleteConversation ampleBrowser 30 "r" twoChats "a" in
  filter (fun conv => conv_id conv ≠ "a")
    (ConversationService.getAllConversations (storage twoChats)) = [chatB]
  /\ chatB ∈ ConversationService.getAllConversations (storage w')
  /\ activeConversationId (hook w') = Some "conv_30_r"
  /\ ls_active (storage w') = Some "conv_30_r"
  /\ activeConversationId (hook w') <> Some (conv_id chatB).
Proof.
  assert (E : ConversationService.getAllConversations
                (storage (UseAIModels.deleteConversation ampleBrowser 30 "r" twoChats "a"))
              = [chatB; freshConversation 30 "r" "New Conversation"]) by (by vm_compute).
  cbv zeta. rewrite E. split_and!.
  - by vm_compute.
  - by left.
  - by vm_compute.
  - by vm_compute.
  - by vm_compute.
Qed.

(** ** C5: one durable append, before any request *)

Lemma sendPromptToModels_active (id : string) (cs : option RetrySettings) (w : World)
    (ms : list AIModel) (prompt : PromptData) :
  Js.truthy id = true ->
  let eng := UseAIModels.sendPromptToModels (Some id) cs w ms prompt in
  storage (world eng) = storage w
  /\ requests (world eng)
     = requests w
       ++ ((fun M => (model_id M, UseAIModels.apiMessages (storage w) M id prompt)) <$> ms)
  /\ tasks eng
     = (fun M => newTask M prompt id (default UseAIModels.defaultRetrySettings cs)) <$> ms.
Proof.
  intros Hid. unfold UseAIModels.sendPromptToModels. rewrite Hid, startTasks_spec.
  by destruct (UseAIModels.allSettled _).
Qed.

(** C5. In a browser with ample storage and a store within its cap, a
    submission with at least one enabled model appends the user message to
    the durable conversation exactly once, whatever the number of enabled
    models, and leaves the other conversations alone. The requests of the
    submission, one per enabled model, are built from the store that already
    holds that message: the outbound list of every enabled model with the
    history flag ends with the prompt just submitted. When no conversation
    is active, one is created and receives the user message as its only
    message; the callback [sendPromptToModels] of that render still sees no
    active conversation, so no request is sent at all. *)
Theorem C5_one_durable_append_before_sending (B : Browser) (now : Z) (rnd : string)
    (w : World) (prompt : PromptData) :
  ample B ->
  filter (fun model => model_isEnabled model = true) (models (hook w)) <> [] ->
  let activeModels := filter (fun model => model_isEnabled model = true) (models (hook w)) in
  let userMessage :=
    {| msg_role := user; msg_content := text prompt; msg_timestamp := now;
       msg_modelId := None |} in
  let eng := UseAIModels.sendPromptToEnabledModels B now rnd w prompt in
  (forall id c,
      activeConversationId (hook w) = Some id ->
      Js.truthy id = true ->
      ConversationService.getConversation (storage w) id = Some c ->
      length (ConversationService.getAllConversations (storage w)) <= 50 ->
      (exists c', ConversationService.getConversation (storage (world eng)) id = Some c'
          /\ conv_messages c' = conv_messages c ++ [userMessage])
      /\ (forall id', id' <> id ->
            ConversationService.getConversation (storage (world eng)) id'
            = ConversationService.getConversation (storage w) id')
      /\ requests (world eng)
         = requests w
           ++ ((fun M => (model_id M,
                          UseAIModels.apiMessages (storage (world eng)) M id prompt))
                 <$> activeModels)
      /\ (forall M, M ∈ activeModels -> model_useHistory M = Some true ->
            last (UseAIModels.apiMessages (storage (world eng)) M id prompt)
            = Some {| api_role := "user"; api_content := text prompt |}))
  /\ (activeConversationId (hook w) = None ->
      length (ConversationService.getAllConversations (storage w)) < 50 ->
      let newId := conv_id (freshConversation now rnd "") in
      (exists c', ConversationService.getConversation (storage (world eng)) newId = Some c'
          /\ conv_messages c' = [userMessage])
      /\ activeConversationId (hook (world eng)) = Some newId
      /\ requests (world eng) = requests w
      /\ tasks eng = []).
Proof.
  intros HB Hmodels activeModels userMessage eng.
  assert (Hlen0 : (length activeModels =? 0) = false).
  { apply Nat.eqb_neq. fold activeModels in Hmodels.
    destruct activeModels; [done|simpl; lia]. }
  split.
  - intros id c Hact Hid Hc Hcap.
    destruct (ample_addMessage B now (storage w) id c userMessage HB Hc Hcap)
      as ((c' & Hc' & Hmsgs & _) & Hother & _ & _).
    subst eng. unfold UseAIModels.sendPromptToEnabledModels.
    fold activeModels. rewrite Hlen0, Hact, Hid. fold userMessage.
    match goal with |- context [UseAIModels.sendPromptToModels ?a ?cs ?w3 ?ms ?p] =>
      destruct (sendPromptToModels_active id cs w3 ms p Hid) as (Hst & Hreq & _)
    end.
    rewrite Hst, Hreq. cbn [storage requests UseAIModels.setConversations
      UseAIModels.setStorage UseAIModels.setHook].
    split_and!.
    + by exists c'.
    + exact Hother.
    + done.
    + intros M HM Hhist. unfold UseAIModels.apiMessages.
      rewrite bool_decide_true by done. rewrite Hid. cbn [andb].
      unfold ConversationService.getConversationHistory. rewrite Hc', Hmsgs.
      by rewrite fmap_snoc, last_snoc.
  - intros Hact Hcap newId.
    subst eng. unfold UseAIModels.sendPromptToEnabledModels.
    fold activeModels. rewrite Hlen0, Hact. fold userMessage.
    rewrite (ample_createConversation B now rnd (storage w) (Some (text prompt)) HB Hcap).
    cbn [UseAIModels.sendPromptToModels world tasks requests storage hook
         activeConversationId UseAIModels.setError UseAIModels.setConversations
         UseAIModels.setStorage UseAIModels.setHook UseAIModels.setAllConversations
         UseAIModels.setActiveConversationId].
    split_and!; try done.
    set (fresh := freshConversation now rnd _).
    set (ls1 := {| ls_conversations := _; ls_active := _ |}).
    assert (Hfresh : ConversationService.getConversation ls1 (conv_id fresh) = Some fresh)
      by exact (find_upsert_eq _ fresh).
    destruct (ample_addMessage B now ls1 (conv_id fresh) fresh userMessage HB Hfresh)
      as ((c' & Hc' & Hmsgs & _) & _).
    + change (ConversationService.getAllConversations ls1)
        with (ConversationService.upsert
                (ConversationService.getAllConversations (storage w)) fresh).
      pose proof (upsert_length (ConversationService.getAllConversations (storage w)) fresh).
      lia.
    + exists c'. split; [exact Hc'|exact Hmsgs].
Qed.

Lemma C5_one_durable_append_before_sending_witness :
  let eng := UseAIModels.sendPromptToEnabledModels ampleBrowser 40 "r" world2 promptAgain in
  last (UseAIModels.apiMessages (storage (world eng)) modelAlpha "c2" promptAgain)
  = Some {| api_role := "user"; api_content := "again" |}.
Proof.
  assert (Hmodels : filter (fun model => model_isEnabled model = true)
                      (models (hook world2)) <> []) by (by vm_compute).
  destruct (C5_one_durable_append_before_sending ampleBrowser 40 "r" world2 promptAgain
              ampleBrowser_ample Hmodels) as [Hactive _].
  destruct (Hactive "c2" chat2 eq_refl eq_refl eq_refl) as (_ & _ & _ & Hlast).
  - vm_compute. lia.
  - apply Hlast; [|reflexivity].
    apply list_elem_of_filter. split; [reflexivity|by left].
Defined.

(** The submission of "again" in [world2]: one request, for alpha, carrying
    the whole conversation and the new prompt; the store holds the prompt
    once. *)
Example submission_in_world2 :
  let eng := UseAIModels.sendPromptToEnabledModels ampleBrowser 40 "r" world2 promptAgain in
  requests (world eng)
  = [ ("alpha", [ {| api_role := "user"; api_content := "hi" |};
                  {| api_role := "assistant"; api_content := "A1" |};
                  {| api_role := "user"; api_content := "again" |} ]) ]
  /\ (msg_content <$> ConversationService.getConversationHistory
                        (storage (world eng)) "c2" "alpha")
     = ["hi"; "A1"; "again"].
Proof. by vm_compute. Qed.

(** * The rest of the code *)

(** ** Strings *)

Lemma lowerChar_idempotent (c : ascii) : Js.lowerChar (Js.lowerChar c) = Js.lowerChar c.
Proof. by destruct c as [[] [] [] [] [] [] [] []]; vm_compute. Qed.

Lemma isWhiteSpace_lowerChar (c : ascii) :
  Js.isWhiteSpace (Js.lowerChar c) = Js.isWhiteSpace c.
Proof. by destruct c as [[] [] [] [] [] [] [] []]; vm_compute. Qed.

Lemma toLowerCase_idempotent (s : string) :
  Js.toLowerCase (Js.toLowerCase s) = Js.toLowerCase s.
Proof.
  induction s as [|c r IH]; [done|]. simpl. by rewrite lowerChar_idempotent, IH.
Qed.

Lemma trimStart_toLowerCase (s : string) :
  Js.trimStart (Js.toLowerCase s) = Js.toLowerCase (Js.trimStart s).
Proof.
  induction s as [|c r IH]; [done|]. simpl. rewrite isWhiteSpace_lowerChar.
  by destruct (Js.isWhiteSpace c).
Qed.

Lemma trimEnd_toLowerCase (s : string) :
  Js.trimEnd (Js.toLowerCase s) = Js.toLowerCase (Js.trimEnd s).
Proof.
  induction s as [|c r IH]; [done|]. simpl. rewrite IH, isWhiteSpace_lowerChar.
  destruct (Js.trimEnd r); simpl; [|done]. by destruct (Js.isWhiteSpace c).
Qed.

Lemma trim_toLowerCase (s : string) :
  Js.trim (Js.toLowerCase s) = Js.toLowerCase (Js.trim s).
Proof. unfold Js.trim. by rewrite trimStart_toLowerCase, trimEnd_toLowerCase. Qed.

Lemma truthy_toLowerCase (s : string) : Js.truthy (Js.toLowerCase s) = Js.truthy s.
Proof. by destruct s. Qed.

Lemma trimEnd_idempotent (s : string) : Js.trimEnd (Js.trimEnd s) = Js.trimEnd s.
Proof.
  induction s as [|c r IH]; [done|]. simpl.
  destruct (Js.trimEnd r) as [|c' r'] eqn:E.
  - destruct (Js.isWhiteSpace c) eqn:W; [done|]. simpl. by rewrite W.
  - simpl. simpl in IH. by rewrite IH.
Qed.

(** What [trimEnd] returns does not start with white space, if its
    argument does not. *)
Lemma trimStart_trimEnd (s : string) :
  Js.trimStart s = s -> Js.trimStart (Js.trimEnd s) = Js.trimEnd s.
Proof.
  destruct s as [|c r]; [done|]. simpl.
  destruct (Js.isWhiteSpace c) eqn:W.
  - intros Heq. exfalso.
    assert (Hlen : String.length (Js.trimStart r) <= String.length r).
    { clear. induction r as [|c r IH]; [done|]. simpl.
      destruct (Js.isWhiteSpace c); simpl; lia. }
    rewrite Heq in Hlen. simpl in Hlen. lia.
  - intros _. destruct (Js.trimEnd r); simpl; by rewrite W.
Qed.

Lemma trimStart_idempotent (s : string) : Js.trimStart (Js.trimStart s) = Js.trimStart s.
Proof.
  induction s as [|c r IH]; [done|]. simpl.
  destruct (Js.isWhiteSpace c) eqn:W; [done|]. simpl. by rewrite W.
Qed.

Lemma trim_idempotent (s : string) : Js.trim (Js.trim s) = Js.trim s.
Proof.
  unfold Js.trim.
  rewrite (trimStart_trimEnd (Js.trimStart s)) by apply trimStart_idempotent.
  apply trimEnd_idempotent.
Qed.

(** ** Search *)

Lemma insertNewestFirst_Permutation (c : Conversation) (l : list Conversation) :
  ConversationSearch.insertNewestFirst c l ≡ₚ c :: l.
Proof.
  induction l as [|x r IH]; [done|]. simpl.
  destruct (_ <=? _)%Z; [done|]. rewrite IH. apply Permutation_swap.
Qed.

Lemma sortNewestFirst_Permutation (l : list Conversation) :
  ConversationSearch.sortNewestFirst l ≡ₚ l.
Proof.
  induction l as [|c r IH]; [done|]. simpl.
  by rewrite insertNewestFirst_Permutation, IH.
Qed.

Lemma insertNewestFirst_sorted (c : Conversation) (l : list Conversation) :
  StronglySorted notOlder l ->
  StronglySorted notOlder (ConversationSearch.insertNewestFirst c l).
Proof.
  induction 1 as [|x r Hs IH Hall]; simpl.
  - repeat constructor.
  - destruct (conv_updatedAt x <=? conv_updatedAt c)%Z eqn:E.
    + apply Z.leb_le in E. constructor; [by constructor|].
      constructor; [done|].
      eapply Forall_impl; [exact Hall|]. unfold notOlder. intros y Hy. simpl in *. lia.
    + apply Z.leb_gt in E. constructor; [done|].
      rewrite insertNewestFirst_Permutation. constructor; [|done].
      unfold notOlder. lia.
Qed.

Lemma sortNewestFirst_sorted (l : list Conversation) :
  StronglySorted notOlder (ConversationSearch.sortNewestFirst l).
Proof.
  induction l as [|c r IH]; simpl; [constructor|]. by apply insertNewestFirst_sorted.
Qed.

(** X1. A search with a query that is not blank returns the stored
    conversations whose title or one of whose messages contains the
    lower-cased query, each as often as it is stored, most recently updated
    first. *)
Theorem search_returns_matches_newest_first (ls : LocalStorage) (query : string) :
  Js.trim query <> "" ->
  let found := ConversationSearch.searchConversations ls query in
  found ≡ₚ filter (fun conv =>
                     ConversationSearch.matchesQuery (Js.toLowerCase query) conv = true)
             (ConversationService.getAllConversations ls)
  /\ StronglySorted notOlder found
  /\ (forall conv, conv ∈ found <->
        conv ∈ ConversationService.getAllConversations ls
        /\ (Js.includes (Js.toLowerCase (conv_title conv)) (Js.toLowerCase query) = true
            \/ exists msg, msg ∈ conv_messages conv
                 /\ Js.includes (Js.toLowerCase (msg_content msg))
                      (Js.toLowerCase query) = true)).
Proof.
  intros Hq found. unfold found, ConversationSearch.searchConversations.
  destruct (Js.trim query) eqn:E; [done|]. simpl.
  split_and!.
  - apply sortNewestFirst_Permutation.
  - apply sortNewestFirst_sorted.
  - intros conv. rewrite sortNewestFirst_Permutation, list_elem_of_filter.
    unfold ConversationSearch.matchesQuery.
    rewrite orb_true_iff, existsb_exists.
    split.
    + intros [[Ht|(msg & Hin & Hm)] Hc]; (split; [done|]); [by left|].
      right. exists msg. split; [by apply list_elem_of_In|done].
    + intros [Hc [Ht|(msg & Hin & Hm)]]; (split; [|done]); [by left|].
      right. exists msg. split; [by apply list_elem_of_In|done].
Qed.

Lemma search_returns_matches_newest_first_witness :
  StronglySorted notOlder
    (ConversationSearch.searchConversations (storage twoChats) "HI").
Proof.
  refine (proj1 (proj2 (search_returns_matches_newest_first (storage twoChats) "HI" _))).
  by vm_compute.
Defined.

(** X2. The case of the letters of a query does not matter: a query and its
    lower-case form find the same conversations, in the same order. *)
Theorem search_ignores_case_of_query (ls : LocalStorage) (query : string) :
  ConversationSearch.searchConversations ls (Js.toLowerCase query)
  = ConversationSearch.searchConversations ls query.
Proof.
  unfold ConversationSearch.searchConversations.
  by rewrite trim_toLowerCase, truthy_toLowerCase, toLowerCase_idempotent.
Qed.

(** ** The transport client *)

Lemma dropTrailingSlash_append (s : string) :
  RepositoryState.dropTrailingSlash (s +:+ "/") = s.
Proof.
  induction s as [|c r IH]; [done|].
  rewrite append_String. destruct r as [|c' r'].
  - done.
  - rewrite append_String in *.
    change (String c (RepositoryState.dropTrailingSlash (String c' (r' +:+ "/")))
            = String c (String c' r')).
    by rewrite IH.
Qed.

Lemma dropTrailingSlash_cases (s : string) :
  RepositoryState.dropTrailingSlash s = s
  \/ s = RepositoryState.dropTrailingSlash s +:+ "/".
Proof.
  induction s as [|c r IH]; [by left|].
  destruct r as [|c' r'].
  - simpl. destruct (Ascii.eqb c "/") eqn:E; [|by left].
    apply Ascii.eqb_eq in E. subst. by right.
  - change (RepositoryState.dropTrailingSlash (String c (String c' r')))
      with (String c (RepositoryState.dropTrailingSlash (String c' r'))).
    destruct IH as [->|IH]; [by left|]. right.
    rewrite append_String. by rewrite <- IH.
Qed.

(** X3. [setBaseUrl] removes exactly one trailing slash: a URL followed by a
    slash is stored as that URL (so a URL that ends in two slashes keeps
    one), and any other URL is stored unchanged; nothing else of the client
    changes. *)
Theorem setBaseUrl_removes_one_trailing_slash (repo : Repository) (url : string) :
  baseUrl (RepositoryState.setBaseUrl repo (url +:+ "/")) = url
  /\ (baseUrl (RepositoryState.setBaseUrl repo url) = url
      \/ url = baseUrl (RepositoryState.setBaseUrl repo url) +:+ "/")
  /\ activeRequests (RepositoryState.setBaseUrl repo url) = activeRequests repo
  /\ aborted (RepositoryState.setBaseUrl repo url) = aborted repo.
Proof.
  split_and!; try done.
  - apply dropTrailingSlash_append.
  - apply dropTrailingSlash_cases.
Qed.

Lemma startsWith_append (p s : string) : Js.startsWith (p +:+ s) p = true.
Proof.
  unfold Js.startsWith. induction p as [|c p IH]; [by destruct s|].
  rewrite append_String. simpl. by destruct (Ascii.ascii_dec c c).
Qed.

(** X4. [verifyConnection] never resolves with [false]: it resolves, with
    [true], exactly when the probe is answered with an ok status. A status
    that is not ok is reported as a [NetworkError] carrying the status and
    its text; a request that fails otherwise is reported as a
    [ConfigurationError] whose message starts with
    "Failed to connect to LM Studio: ". *)
Theorem verifyConnection_contract (probe : RepositoryState.ProbeResult) :
  match RepositoryState.verifyConnection probe with
  | Returns ok => ok = true /\ probe = RepositoryState.ProbeOk
  | Throws e =>
      match probe with
      | RepositoryState.ProbeOk => False
      | RepositoryState.ProbeNotOk status statusText =>
          e = mkError NetworkError ("HTTP " +:+ pretty status +:+ ": " +:+ statusText)
      | RepositoryState.ProbeRejects cause =>
          if instanceof cause NetworkError then e = cause
          else err_class e = ConfigurationError
               /\ Js.startsWith (err_message e) "Failed to connect to LM Studio: " = true
      end
  end.
Proof.
  unfold RepositoryState.verifyConnection, tryCatch.
  destruct probe as [cause| |status statusText]; try done.
  destruct (instanceof cause NetworkError); [done|]. split; [done|].
  apply startsWith_append.
Qed.

(** X5. [fetchModels] resolves only for a response with an array [data]:
    with one model per element, in the order of the array, named by its id,
    online and disabled. Every failure is a [NetworkError] or a
    [ValidationError]; a response without the array is a
    [ValidationError]. *)
Theorem fetchModels_contract (r : RepositoryState.ModelsResponse) :
  match RepositoryState.fetchModels r with
  | Returns fetched =>
      exists ids, r = RepositoryState.ModelsData ids
        /\ model_id <$> fetched = ids
        /\ model_name <$> fetched = ids
        /\ Forall (fun model => model_isEnabled model = false
                                /\ model_isOnline model = true) fetched
  | Throws e =>
      (err_class e = NetworkError \/ err_class e = ValidationError)
      /\ (r = RepositoryState.ModelsInvalid -> err_class e = ValidationError)
      /\ forall ids, r <> RepositoryState.ModelsData ids
  end.
Proof.
  unfold RepositoryState.fetchModels, tryCatch.
  destruct r as [e|status|e| |ids]; simpl.
  - destruct (instanceof e NetworkError) eqn:E1; simpl.
    + apply bool_decide_eq_true in E1. by split_and!; [left|..].
    + destruct (instanceof e ValidationError) eqn:E2.
      * apply bool_decide_eq_true in E2. by split_and!; [right|..].
      * by split_and!; [left|..].
  - by split_and!; [left|..].
  - destruct (instanceof e NetworkError) eqn:E1; simpl.
    + apply bool_decide_eq_true in E1. by split_and!; [left|..].
    + destruct (instanceof e ValidationError) eqn:E2.
      * apply bool_decide_eq_true in E2. by split_and!; [right|..].
      * by split_and!; [left|..].
  - by split_and!; [right|..].
  - exists ids. split_and!; [done| | |].
    + rewrite <- list_fmap_compose. by rewrite list_fmap_id.
    + rewrite <- list_fmap_compose. by rewrite list_fmap_id.
    + by apply Forall_fmap, Forall_true.
Qed.

(** ** The registry of requests in flight *)

Lemma requestId_truthy (modelId rest : string) :
  Js.truthy (modelId +:+ "-" +:+ rest) = true.
Proof. by destruct modelId. Qed.

Lemma consistent_delete (repo : Repository) (id : string) (ab : gset nat) :
  consistent repo ->
  consistent {| baseUrl := baseUrl repo;
                activeRequests := delete id (activeRequests repo);
                aborted := ab; controllers := controllers repo |}.
Proof.
  intros [Hinj Hlt]. split; simpl.
  - intros id1 id2 h [_ H1]%lookup_delete_Some [_ H2]%lookup_delete_Some.
    by eapply Hinj.
  - intros id' h [_ H]%lookup_delete_Some. by eapply Hlt.
Qed.

(** X6. The registry stays consistent: in a client as constructed, and
    after each of its operations on a consistent client, two registered
    requests never share an abort controller, and every registered
    controller was made by the client. *)
Theorem registry_stays_consistent (repo : Repository) (modelId : string) (now : Z)
    (rnd : string) (r : LMStudioRepository.FetchResult) (id : string)
    (responseId : option string) (hasBody : bool)
    (lines : list LMStudioRepository.Line) (readerEnd : option JsError) :
  consistent repo ->
  consistent (RepositoryState.sendMessage repo modelId now rnd r).1
  /\ consistent (RepositoryState.cancelRequest repo id)
  /\ consistent (RepositoryState.cancelAllRequests repo)
  /\ consistent (RepositoryState.cleanupRequest repo id)
  /\ consistent
       (RepositoryState.parseStreamingResponse repo responseId hasBody lines readerEnd).1.
Proof.
  intros Hc. split_and!.
  - destruct Hc as [Hinj Hlt]. split; simpl.
    + intros id1 id2 h [[<- <-]|[Hn1 H1]]%lookup_insert_Some
        [[Heq2 E2]|[Hn2 H2]]%lookup_insert_Some; try done.
      * apply Hlt in H2. lia.
      * apply Hlt in H1. lia.
      * by eapply Hinj.
    + intros id' h [[_ <-]|[_ H]]%lookup_insert_Some; [lia|].
      apply Hlt in H. lia.
  - unfold RepositoryState.cancelRequest.
    destruct (activeRequests repo !! id); [|done]. by apply consistent_delete.
  - split; simpl; intros *; by rewrite lookup_empty.
  - by apply consistent_delete.
  - unfold RepositoryState.parseStreamingResponse. simpl.
    destruct hasBody; [|done]. destruct responseId as [rid|]; [|done].
    destruct (Js.truthy rid); [|done]. by apply consistent_delete.
Qed.

Lemma registry_stays_consistent_witness :
  consistent (RepositoryState.sendMessage newRepository "alpha" 5 "0.1"
                LMStudioRepository.FetchOk).1.
Proof.
  refine (proj1 (registry_stays_consistent newRepository "alpha" 5 "0.1"
                   LMStudioRepository.FetchOk "x" None true [] None _)).
  split; simpl; intros *; by rewrite lookup_empty.
Defined.

(** X7. Cancelling a registered request aborts its controller and removes
    it from the registry; in a consistent client every other registered
    request stays registered and its controller is aborted afterwards only
    if it was before. Cancelling the same request again changes nothing.
    [cancelAllRequests] aborts the controller of every registered request,
    on top of those aborted before, and empties the registry. *)
Theorem cancelRequest_aborts_only_its_request (repo : Repository) (id : string)
    (h : nat) :
  consistent repo ->
  activeRequests repo !! id = Some h ->
  let repo' := RepositoryState.cancelRequest repo id in
  activeRequests repo' !! id = None
  /\ h ∈ aborted repo'
  /\ (forall id' h', id' <> id -> activeRequests repo !! id' = Some h' ->
        activeRequests repo' !! id' = Some h'
        /\ (h' ∈ aborted repo' <-> h' ∈ aborted repo))
  /\ RepositoryState.cancelRequest repo' id = repo'
  /\ activeRequests (RepositoryState.cancelAllRequests repo) = ∅
  /\ (forall id' h', activeRequests repo !! id' = Some h' ->
        h' ∈ aborted (RepositoryState.cancelAllRequests repo))
  /\ aborted repo ⊆ aborted (RepositoryState.cancelAllRequests repo).
Proof.
  intros [Hinj _] Hid repo'. unfold repo', RepositoryState.cancelRequest.
  rewrite Hid. simpl. split_and!; [| | | |done| |apply union_subseteq_r].
  5:{ intros id' h' Hid'. apply elem_of_union_l, elem_of_list_to_set.
      apply list_elem_of_fmap. exists (id', h'). split; [done|].
      by apply elem_of_map_to_list. }
  - by apply lookup_delete_eq.
  - apply elem_of_union_l. by apply elem_of_singleton.
  - intros id' h' Hne Hid'. split; [by rewrite lookup_delete_ne|].
    assert (Hh : h' <> h) by (intros ->; apply Hne; by eapply Hinj).
    rewrite elem_of_union, elem_of_singleton. split; [by intros [?|?]|by right].
  - by rewrite lookup_delete_eq.
Qed.

Lemma cancelRequest_aborts_only_its_request_witness :
  let repo := (RepositoryState.sendMessage
                 (RepositoryState.sendMessage newRepository "alpha" 5 "0.1"
                    LMStudioRepository.FetchOk).1
                 "beta" 5 "0.2" LMStudioRepository.FetchOk).1 in
  activeRequests (RepositoryState.cancelRequest repo "alpha-5-0.1") !! "beta-5-0.2"
  = Some 1
  /\ aborted (RepositoryState.cancelRequest repo "alpha-5-0.1") = {[0]}.
Proof.
  intros repo.
  assert (Hc : consistent repo).
  { split; intros *; unfold repo; simpl.
    - intros [[<- <-]|[? [[<- <-]|[? ?]]%lookup_insert_Some]]%lookup_insert_Some
        [[<- ?]|[? [[<- ?]|[? ?]]%lookup_insert_Some]]%lookup_insert_Some;
        done.
    - intros [[_ <-]|[? [[_ <-]|[? ?]]%lookup_insert_Some]]%lookup_insert_Some;
        done || lia. }
  destruct (cancelRequest_aborts_only_its_request repo "alpha-5-0.1" 0 Hc)
    as (_ & _ & Hother & _); [done|].
  split; [|done].
  apply (Hother "beta-5-0.2" 1); done.
Defined.

Lemma sendMessage_returns_only_ok (modelId : string)
    (r : LMStudioRepository.FetchResult) (u : unit) :
  LMStudioRepository.sendMessage modelId r = Returns u -> r = LMStudioRepository.FetchOk.
Proof.
  unfold LMStudioRepository.sendMessage, tryCatch.
  destruct r as [e0| |status body]; [|done|].
  - by repeat destruct (instanceof _ _).
  - destruct body as [| |m]; simpl; try done.
    by destruct (LMStudioRepository.sendReportsModelUnloaded m).
Qed.

(** X8. A request is registered before it is sent and whatever the answer
    is: a send that fails, always with a [NetworkError], leaves its
    registration behind. A response that
    is returned carries the id under which it was registered; reading its
    stream to the end, or to an error, removes the registration without
    aborting anything, while a response without a body keeps it. *)
Theorem request_registration_lifecycle (repo : Repository) (modelId : string)
    (now : Z) (rnd : string) (r : LMStudioRepository.FetchResult) :
  let requestId := modelId +:+ "-" +:+ pretty now +:+ "-" +:+ rnd in
  let sent := RepositoryState.sendMessage repo modelId now rnd r in
  activeRequests sent.1 = <[requestId := controllers repo]> (activeRequests repo)
  /\ aborted sent.1 = aborted repo
  /\ (forall e, sent.2 = Throws e ->
        err_class e = NetworkError /\ r <> LMStudioRepository.FetchOk)
  /\ (forall id, sent.2 = Returns id ->
        id = requestId
        /\ r = LMStudioRepository.FetchOk
        /\ forall lines readerEnd,
             let read hasBody :=
               (RepositoryState.parseStreamingResponse sent.1 (Some id) hasBody
                  lines readerEnd).1 in
             activeRequests (read true) = delete requestId (activeRequests repo)
             /\ aborted (read true) = aborted repo
             /\ read false = sent.1).
Proof.
  intros requestId sent. split_and!; try done.
  - intros e He. unfold sent, RepositoryState.sendMessage in He. simpl in He.
    destruct (LMStudioRepository.sendMessage modelId r) as [[]|e'] eqn:Hs; [done|].
    injection He as ->. split; [by eapply sendMessage_throws_NetworkError|].
    by intros ->.
  - intros id Hret. unfold sent, RepositoryState.sendMessage in Hret. simpl in Hret.
    destruct (LMStudioRepository.sendMessage modelId r) as [[]|e] eqn:Hs; [|done].
    injection Hret as <-. split_and!; [done| |].
    + by eapply sendMessage_returns_only_ok.
    + intros lines readerEnd read.
      assert (Ht : Js.truthy requestId = true) by apply requestId_truthy.
      unfold read, RepositoryState.parseStreamingResponse. cbn [fst].
      fold requestId. rewrite Ht. simpl. by rewrite delete_insert_eq.
Qed.

(** ** The storage service and the roster of models *)

Lemma find_model_None (ms : list AIModel) (id : string) :
  id ∉ model_id <$> ms ->
  find (fun model => String.eqb (model_id model) id) ms = None.
Proof.
  induction ms as [|x r IH]; [done|]. rewrite fmap_cons, not_elem_of_cons.
  intros [Hne Hr]. simpl. destruct (String.eqb (model_id x) id) eqn:E; [|by apply IH].
  apply String.eqb_eq in E. congruence.
Qed.

Lemma find_model_Some (ms : list AIModel) (model : AIModel) :
  NoDup (model_id <$> ms) -> model ∈ ms ->
  find (fun x => String.eqb (model_id x) (model_id model)) ms = Some model.
Proof.
  induction ms as [|x r IH]; [by intros _ ?%elem_of_nil|].
  rewrite fmap_cons, NoDup_cons. intros [Hx Hnd] [->|Hin]%elem_of_cons; simpl.
  - by rewrite String.eqb_refl.
  - destruct (String.eqb (model_id x) (model_id model)) eqn:E; [|by apply IH].
    apply String.eqb_eq in E. exfalso. apply Hx. rewrite E.
    by apply list_elem_of_fmap_2.
Qed.

Lemma find_model_fmap (g : AIModel -> AIModel) (ms : list AIModel) (id : string) :
  (forall x, model_id (g x) = model_id x) ->
  find (fun model => String.eqb (model_id model) id) (g <$> ms)
  = g <$> find (fun model => String.eqb (model_id model) id) ms.
Proof.
  intros Hg. induction ms as [|x r IH]; [done|]. rewrite fmap_cons. simpl.
  rewrite Hg. by destruct (String.eqb (model_id x) id).
Qed.

Lemma preferencesOf_fold (acc : gmap string Preference) (ms : list AIModel)
    (id : string) :
  NoDup (model_id <$> ms) ->
  foldl (fun acc model =>
           if String.eqb (model_id model) "__proto__" then acc
           else
             <[model_id model :=
                 {| pref_isEnabled := model_isEnabled model;
                    pref_useHistory := default false (model_useHistory model) |}]> acc)
        acc ms !! id
  = if String.eqb id "__proto__" then acc !! id
    else from_option Some (acc !! id) (preferenceIn ms id).
Proof.
  revert acc. induction ms as [|x r IH]; intros acc.
  { by destruct (String.eqb id "__proto__"). }
  rewrite fmap_cons, NoDup_cons. intros [Hx Hnd]. cbn [foldl]. rewrite IH by done.
  unfold preferenceIn. cbn [find].
  destruct (String.eqb id "__proto__") eqn:Hp.
  - destruct (String.eqb (model_id x) "__proto__") eqn:Hxp; [done|].
    apply String.eqb_eq in Hp. apply String.eqb_neq in Hxp.
    rewrite lookup_insert_ne; [done|]. by rewrite Hp.
  - destruct (String.eqb (model_id x) id) eqn:E.
    + apply String.eqb_eq in E. subst id. rewrite Hp, find_model_None by done.
      simpl. by rewrite lookup_insert_eq.
    + apply String.eqb_neq in E.
      destruct (String.eqb (model_id x) "__proto__"); [done|].
      by rewrite lookup_insert_ne.
Qed.

Lemma preferencesOf_lookup (ms : list AIModel) (id : string) :
  NoDup (model_id <$> ms) ->
  StorageService.preferencesOf ms !! id
  = if String.eqb id "__proto__" then None else preferenceIn ms id.
Proof.
  intros Hnd. unfold StorageService.preferencesOf. rewrite preferencesOf_fold by done.
  rewrite lookup_empty. destruct (String.eqb id "__proto__"); [done|].
  by destruct (preferenceIn ms id).
Qed.

(** X9. Preferences round trip: when the write is accepted and the models
    have distinct ids, applying the saved preferences to the models that
    were saved gives them back with their [isEnabled], and with
    [useHistory] set ([false] where it was missing), except a model whose
    id is [__proto__]: nothing is stored under that name, and the model
    comes back disabled and without history. The preferences of every model
    that was not in the saved list are gone, and the stored configuration
    is untouched. *)
Theorem saved_preferences_are_applied (accepts : ConfigStorage -> bool)
    (cs : ConfigStorage) (ms : list AIModel) :
  unlimited accepts ->
  NoDup (model_id <$> ms) ->
  let cs' := StorageService.saveModelPreferences accepts cs ms in
  StorageService.applyPreferencesToModels cs' ms
  = (fun model => if String.eqb (model_id model) "__proto__"
                  then withoutPreference model else withHistorySet model) <$> ms
  /\ (forall id, id ∉ model_id <$> ms ->
        StorageService.getModelPreferences cs' !! id = None)
  /\ StorageService.getModelPreferences cs' !! "__proto__" = None
  /\ cs_config cs' = cs_config cs.
Proof.
  intros Hacc Hnd cs'. unfold cs', StorageService.saveModelPreferences.
  rewrite Hacc. unfold StorageService.applyPreferencesToModels,
    StorageService.getModelPreferences. simpl. split_and!; [| | |done].
  - apply list_fmap_ext. intros i model Hi.
    rewrite preferencesOf_lookup by done.
    destruct (String.eqb (model_id model) "__proto__"); [done|].
    unfold preferenceIn.
    rewrite find_model_Some by (done || by eapply list_elem_of_lookup_2).
    done.
  - intros id Hid. rewrite preferencesOf_lookup by done.
    destruct (String.eqb id "__proto__"); [done|]. unfold preferenceIn.
    by rewrite find_model_None.
  - by rewrite preferencesOf_lookup.
Qed.

Lemma saved_preferences_are_applied_witness :
  StorageService.applyPreferencesToModels
    (StorageService.saveModelPreferences (fun _ => true) emptyConfigStorage
       [modelAlpha; modelBeta])
    [modelAlpha; modelBeta]
  = [modelAlpha; withHistorySet modelBeta].
Proof.
  refine (proj1 (saved_preferences_are_applied (fun _ => true) emptyConfigStorage
                   [modelAlpha; modelBeta] _ _)).
  - by intros cs.
  - by apply (bool_decide_unpack _).
Defined.

(** X10. A toggle survives a refresh of the roster. After [toggleModel]
    with an accepted write, the models fetched from the server come in the
    order of the server; a model that was on the roster keeps its
    [isEnabled] (the toggled model has the new value) and its [useHistory],
    unless its id is [__proto__], under which nothing is stored; such a
    model, and a model that was not on the roster, is disabled and without
    history, whatever was stored for it before the toggle. *)
Theorem toggle_survives_refresh (accepts : ConfigStorage -> bool) (h : HookState)
    (cs : ConfigStorage) (modelId : string) (enabled : bool) (ids : list string) :
  unlimited accepts ->
  NoDup (model_id <$> models h) ->
  let toggled := HookActions.toggleModel accepts h cs modelId enabled in
  let h' := HookActions.fetchModels true toggled.1 toggled.2
              (RepositoryState.ModelsData ids) in
  model_id <$> models h' = ids
  /\ (forall model, model ∈ models h' ->
        match find (fun old => String.eqb (model_id old) (model_id model)) (models h) with
        | Some old =>
            if String.eqb (model_id model) "__proto__"
            then model_isEnabled model = false /\ model_useHistory model = Some false
            else
              model_isEnabled model
              = (if String.eqb (model_id model) modelId then enabled
                 else model_isEnabled old)
              /\ model_useHistory model = Some (default false (model_useHistory old))
        | None => model_isEnabled model = false /\ model_useHistory model = Some false
        end)
  /\ error h' = None.
Proof.
  intros Hacc Hnd toggled h'.
  set (g := fun model : AIModel =>
              if String.eqb (model_id model) modelId
              then {| model_id := model_id model; model_name := model_name model;
                      model_isEnabled := enabled; model_isOnline := model_isOnline model;
                      model_useHistory := model_useHistory model |}
              else model).
  assert (Hg : forall x, model_id (g x) = model_id x).
  { intros x. unfold g. by destruct (String.eqb (model_id x) modelId). }
  assert (Hnd' : NoDup (model_id <$> (g <$> models h))).
  { rewrite <- list_fmap_compose.
    erewrite list_fmap_ext; [exact Hnd|]. intros i x _. simpl. apply Hg. }
  unfold h', toggled, HookActions.fetchModels, HookActions.toggleModel. fold g.
  unfold StorageService.saveModelPreferences. rewrite Hacc.
  unfold StorageService.applyPreferencesToModels, StorageService.getModelPreferences.
  simpl. split_and!; [| |done].
  - rewrite <- !list_fmap_compose. by rewrite list_fmap_id.
  - intros model (fetched & -> & (id & -> & Hid)%list_elem_of_fmap)%list_elem_of_fmap.
    cbn [model_id model_isEnabled model_useHistory RepositoryState.fetchedModel].
    rewrite preferencesOf_lookup by done. unfold preferenceIn.
    rewrite find_model_fmap by done.
    destruct (find _ (models h)) as [old|] eqn:Hf; cbn [fmap option_fmap option_map].
    + apply find_some in Hf as [_ Hid']. apply String.eqb_eq in Hid'. subst id.
      destruct (String.eqb (model_id old) "__proto__"); [done|].
      unfold g. by destruct (String.eqb (model_id old) modelId).
    + by destruct (String.eqb id "__proto__").
Qed.

Lemma toggle_survives_refresh_witness :
  let toggled :=
    HookActions.toggleModel (fun _ => true) (hook twoModels) emptyConfigStorage
      "beta" false in
  model_id
    <$> models (HookActions.fetchModels true toggled.1 toggled.2
                  (RepositoryState.ModelsData ["gamma"; "beta"; "alpha"]))
  = ["gamma"; "beta"; "alpha"].
Proof.
  refine (proj1 (toggle_survives_refresh (fun _ => true) (hook twoModels)
                   emptyConfigStorage "beta" false ["gamma"; "beta"; "alpha"] _ _)).
  - by intros cs.
  - by apply (bool_decide_unpack _).
Defined.

(** X11. Configuration round trip: when the write is accepted, the
    configuration read back is the one saved, with the default retry
    settings where it had none. Whatever is stored, the configuration read
    has retry settings, each field missing in the store taken from the
    defaults; with nothing stored it is the default configuration, which
    is not configured. *)
Theorem saved_config_is_read_back (accepts : ConfigStorage -> bool)
    (cs : ConfigStorage) (config : LMStudioConfig) :
  unlimited accepts ->
  StorageService.getConfig (StorageService.saveConfig accepts cs config)
  = {| cfg_baseUrl := cfg_baseUrl config;
       cfg_isConfigured := cfg_isConfigured config;
       cfg_retrySettings :=
         Some (default StorageService.storedDefaults (cfg_retrySettings config)) |}
  /\ is_Some (cfg_retrySettings (StorageService.getConfig cs))
  /\ (cs_config cs = None -> StorageService.getConfig cs = StorageService.defaultConfig)
  /\ cs_preferences (StorageService.saveConfig accepts cs config) = cs_preferences cs.
Proof.
  intros Hacc. unfold StorageService.saveConfig. rewrite Hacc.
  unfold StorageService.getConfig. simpl. split_and!.
  - destruct (cfg_retrySettings config) as [[]|]; by simpl.
  - by destruct (cs_config cs).
  - by intros ->.
  - done.
Qed.

Lemma saved_config_is_read_back_witness :
  cfg_retrySettings
    (StorageService.getConfig
       (StorageService.saveConfig (fun _ => true) emptyConfigStorage
          {| cfg_baseUrl := "http://host:1"; cfg_isConfigured := true;
             cfg_retrySettings := Some retryAllSettings |}))
  = Some retryAllSettings.
Proof.
  refine (f_equal cfg_retrySettings
            (proj1 (saved_config_is_read_back (fun _ => true) emptyConfigStorage
                      {| cfg_baseUrl := "http://host:1"; cfg_isConfigured := true;
                         cfg_retrySettings := Some retryAllSettings |} _))).
  by intros cs.
Defined.

(** ** Verifying the connection *)

(** X12. A successful verification forgets the retry settings. The
    callback keeps reading the configuration of the first render, so after
    [updateRetrySettings] and a verification that succeeds, the
    configuration in the state has no retry settings, and the one read back
    from the storage, as the next mount does, has the defaults, whatever
    settings were chosen. The
    URL is kept as typed in both, while the client uses it without one
    trailing slash. *)
Theorem verification_forgets_retry_settings (accepts : ConfigStorage -> bool)
    (s : Connection) (retrySettings : RetrySettings) (baseUrl' : string) :
  unlimited accepts ->
  let s1 := ConnectionActions.updateRetrySettings accepts s retrySettings in
  let verified :=
    ConnectionActions.verifyAndSaveConfig accepts s1 baseUrl' RepositoryState.ProbeOk in
  cfg_retrySettings (conn_config s1) = Some retrySettings
  /\ cfg_retrySettings (StorageService.getConfig (conn_storage s1)) = Some retrySettings
  /\ verified.2 = true
  /\ conn_config verified.1
     = {| cfg_baseUrl := baseUrl'; cfg_isConfigured := true; cfg_retrySettings := None |}
  /\ StorageService.getConfig (conn_storage verified.1)
     = {| cfg_baseUrl := baseUrl'; cfg_isConfigured := true;
          cfg_retrySettings := Some StorageService.storedDefaults |}
  /\ conn_config (ConnectionActions.mountConfig verified.1)
     = {| cfg_baseUrl := baseUrl'; cfg_isConfigured := true;
          cfg_retrySettings := Some StorageService.storedDefaults |}
  /\ baseUrl (conn_repo verified.1) = RepositoryState.dropTrailingSlash baseUrl'
  /\ conn_error verified.1 = None.
Proof.
  intros Hacc s1 verified. unfold ConnectionActions.mountConfig.
  unfold verified, s1, ConnectionActions.verifyAndSaveConfig,
    ConnectionActions.updateRetrySettings, StorageService.saveConfig.
  rewrite ?Hacc. simpl. rewrite ?Hacc. unfold StorageService.getConfig. simpl.
  split_and!; try done. by destruct retrySettings.
Qed.

Lemma verification_forgets_retry_settings_witness :
  cfg_retrySettings
    (conn_config
       (ConnectionActions.verifyAndSaveConfig (fun _ => true)
          (ConnectionActions.updateRetrySettings (fun _ => true) connection0
             retryAllSettings)
          "http://localhost:1234/" RepositoryState.ProbeOk).1)
  = None.
Proof.
  refine (f_equal cfg_retrySettings
            (proj1 (proj2 (proj2 (proj2
               (verification_forgets_retry_settings (fun _ => true) connection0
                  retryAllSettings "http://localhost:1234/" _)))))).
  by intros cs.
Defined.

(** X13. A verification that fails returns [false] and leaves the
    configuration and the storage as they were, but the client already
    uses the new URL. The error shown is "HTTP <status>: <text>" for a
    status that is not ok, and "Failed to connect to LM Studio: " followed
    by the message of the cause when the request itself fails with an
    error of another class than [NetworkError]. *)
Theorem failed_verification_keeps_configuration (accepts : ConfigStorage -> bool)
    (s : Connection) (baseUrl' : string) (probe : RepositoryState.ProbeResult) :
  probe <> RepositoryState.ProbeOk ->
  let verified := ConnectionActions.verifyAndSaveConfig accepts s baseUrl' probe in
  verified.2 = false
  /\ conn_config verified.1 = conn_config s
  /\ conn_storage verified.1 = conn_storage s
  /\ baseUrl (conn_repo verified.1) = RepositoryState.dropTrailingSlash baseUrl'
  /\ conn_error verified.1
     = Some match probe with
            | RepositoryState.ProbeNotOk status statusText =>
                "HTTP " +:+ pretty status +:+ ": " +:+ statusText
            | RepositoryState.ProbeRejects cause =>
                if instanceof cause NetworkError then err_message cause
                else "Failed to connect to LM Studio: "
                     +:+ (if instanceofError cause then err_message cause
                          else "Unknown error")
            | RepositoryState.ProbeOk => ""
            end.
Proof.
  intros Hprobe verified. unfold verified, ConnectionActions.verifyAndSaveConfig,
    RepositoryState.verifyConnection, tryCatch.
  destruct probe as [cause| |status statusText]; [|done|].
  - destruct (instanceof cause NetworkError) eqn:E; simpl; [|done].
    split_and!; try done. unfold instanceofError, instanceof in *.
    apply bool_decide_eq_true in E. rewrite E. done.
  - simpl. done.
Qed.

Lemma failed_verification_keeps_configuration_witness :
  conn_error
    (ConnectionActions.verifyAndSaveConfig (fun _ => true) connection0
       "http://localhost:9/"
       (RepositoryState.ProbeRejects (mkError OtherError "fetch failed"))).1
  = Some "Failed to connect to LM Studio: fetch failed".
Proof.
  refine (proj2 (proj2 (proj2 (proj2
            (failed_verification_keeps_configuration (fun _ => true) connection0
               "http://localhost:9/"
               (RepositoryState.ProbeRejects (mkError OtherError "fetch failed")) _))))).
  done.
Defined.

(** ** The columns of the models *)


(** The object [newConversations] of the effect of lines 114-130 holds an
    initial entry for each model that has no column and whose id is not
    inherited, and nothing else. *)
Lemma newConversations_lookup (cs : gmap string ModelConversation)
    (ms : list AIModel) (acc : gmap string ModelConversation) (k : string) :
  foldl (fun acc model =>
           match cs !! model_id model with
           | Some _ => acc
           | None => if inheritedName (model_id model) then acc
                     else <[model_id model := HookActions.initialConversation model]> acc
           end) acc ms !! k
  = if bool_decide (k ∈ model_id <$> ms) && bool_decide (cs !! k = None)
       && negb (inheritedName k)
    then Some {| mc_modelId := Some k; mc_messages := []; mc_isLoading := Some false;
                 mc_error := None; mc_retryCount := None; mc_canRetry := None;
                 mc_lastFailedPrompt := None |}
    else acc !! k.
Proof.
  revert acc. induction ms as [|x r IH]; intros acc; [done|].
  cbn [foldl]. rewrite IH, fmap_cons.
  destruct (bool_decide (k ∈ model_id <$> r)) eqn:Hr.
  - apply bool_decide_eq_true in Hr.
    rewrite (bool_decide_true (k ∈ model_id x :: _)) by (by right).
    cbn [andb]. destruct (bool_decide (cs !! k = None)) eqn:Hk; cbn [andb].
    + destruct (inheritedName k) eqn:Hi; cbn [negb]; [|done].
      destruct (cs !! model_id x) eqn:E; [done|].
      destruct (inheritedName (model_id x)) eqn:Hix; [done|].
      rewrite lookup_insert_ne; [done|]. intros Heq. by rewrite Heq, Hi in Hix.
    + apply bool_decide_eq_false in Hk.
      destruct (cs !! model_id x) eqn:E; [done|].
      destruct (inheritedName (model_id x)); [done|].
      rewrite lookup_insert_ne; [done|]. intros Heq. by rewrite Heq in E.
  - apply bool_decide_eq_false in Hr. cbn [andb].
    destruct (decide (k = model_id x)) as [->|Hne].
    + rewrite (bool_decide_true (model_id x ∈ model_id x :: _)) by (by left).
      cbn [andb]. destruct (cs !! model_id x) eqn:E.
      * by rewrite bool_decide_false.
      * rewrite bool_decide_true by done. cbn [andb].
        destruct (inheritedName (model_id x)); cbn [negb]; [done|].
        by rewrite lookup_insert_eq.
    + rewrite (bool_decide_false (k ∈ model_id x :: _))
        by (intros [?|?]%elem_of_cons; done).
      cbn [andb]. destruct (cs !! model_id x); [done|].
      destruct (inheritedName (model_id x)); [done|]. by rewrite lookup_insert_ne.
Qed.

Lemma initializeConversations_lookup (h : HookState) (k : string) :
  conversations (HookActions.initializeConversations h) !! k
  = if bool_decide (k ∈ model_id <$> models h)
       && bool_decide (conversations h !! k = None)
       && negb (inheritedName k)
    then Some {| mc_modelId := Some k; mc_messages := []; mc_isLoading := Some false;
                 mc_error := None; mc_retryCount := None; mc_canRetry := None;
                 mc_lastFailedPrompt := None |}
    else conversations h !! k.
Proof.
  unfold HookActions.initializeConversations.
  match goal with |- context [size ?m] => set (new := m) end.
  pose proof (newConversations_lookup (conversations h) (models h) ∅ k) as Hnew.
  fold new in Hnew. rewrite lookup_empty in Hnew.
  destruct (0 <? size new) eqn:Hsize.
  - simpl. rewrite lookup_union, Hnew.
    destruct (_ && _) eqn:E.
    + apply andb_true_iff in E as [E _]. apply andb_true_iff in E as [_ E].
      apply bool_decide_eq_true in E. by rewrite E.
    + by rewrite (left_id None _).
  - apply Nat.ltb_ge in Hsize.
    assert (Hempty : new = ∅) by (apply map_size_empty_iff; lia).
    rewrite Hempty, lookup_empty in Hnew. by destruct (_ && _).
Qed.

Lemma initializeConversations_frame (h : HookState) :
  models (HookActions.initializeConversations h) = models h
  /\ allConversations (HookActions.initializeConversations h) = allConversations h
  /\ activeConversationId (HookActions.initializeConversations h)
     = activeConversationId h
  /\ configRetrySettings (HookActions.initializeConversations h)
     = configRetrySettings h
  /\ error (HookActions.initializeConversations h) = error h.
Proof. unfold HookActions.initializeConversations. by destruct (0 <? _). Qed.

(** When no model is left without a column, the effect makes no update. *)
Lemma initializeConversations_nothing (h : HookState) :
  (forall model, model ∈ models h ->
     is_Some (conversations h !! model_id model) \/ inheritedName (model_id model) = true) ->
  HookActions.initializeConversations h = h.
Proof.
  intros Hall. unfold HookActions.initializeConversations.
  match goal with |- context [size ?m] => set (new := m) end.
  assert (Hempty : new = ∅).
  { apply map_eq. intros k. unfold new.
    rewrite newConversations_lookup, !lookup_empty.
    destruct (bool_decide (k ∈ model_id <$> models h)) eqn:E1; [|done]. cbn [andb].
    apply bool_decide_eq_true in E1.
    apply list_elem_of_fmap in E1 as (model & -> & Hin).
    destruct (Hall model Hin) as [[mc Hmc]| ->].
    - rewrite Hmc. by rewrite bool_decide_false.
    - by rewrite andb_false_r. }
  by rewrite Hempty.
Qed.

(** X14. After the effect that initialises the columns, every model of the
    roster has a column, unless its id is one of the names every object
    inherits ([__proto__], [constructor], [toString], ...): for such an id
    the test of the effect finds an inherited value and no column is made.
    The columns that existed are unchanged, and a new one is the column of
    a roster model, empty and not loading. Running the effect again
    changes nothing. *)
Theorem every_model_gets_a_column (h : HookState) :
  let h' := HookActions.initializeConversations h in
  (forall model, model ∈ models h -> inheritedName (model_id model) = false ->
     is_Some (conversations h' !! model_id model))
  /\ (forall k, inheritedName k = true -> conversations h' !! k = conversations h !! k)
  /\ (forall k mc, conversations h !! k = Some mc -> conversations h' !! k = Some mc)
  /\ (forall k mc, conversations h !! k = None -> conversations h' !! k = Some mc ->
        k ∈ model_id <$> models h
        /\ mc = {| mc_modelId := Some k; mc_messages := []; mc_isLoading := Some false;
                   mc_error := None; mc_retryCount := None; mc_canRetry := None;
                   mc_lastFailedPrompt := None |})
  /\ HookActions.initializeConversations h' = h'
  /\ models h' = models h.
Proof.
  intros h'.
  pose proof (initializeConversations_lookup h) as Hlook. fold h' in Hlook.
  destruct (initializeConversations_frame h) as (Hmodels & _). fold h' in Hmodels.
  split_and!.
  - intros model Hin Hinh. rewrite Hlook, Hinh.
    rewrite bool_decide_true by (by apply list_elem_of_fmap_2). cbn [andb negb].
    destruct (conversations h !! model_id model) eqn:E.
    + by rewrite bool_decide_false.
    + by rewrite bool_decide_true.
  - intros k Hinh. rewrite Hlook, Hinh. by rewrite andb_false_r.
  - intros k mc Hk. rewrite Hlook, Hk. rewrite (bool_decide_false (Some mc = None)) by done.
    by rewrite andb_false_r.
  - intros k mc Hk. rewrite Hlook, Hk. rewrite (bool_decide_true (None = None)) by done.
    rewrite andb_true_r. destruct (bool_decide _) eqn:E; [|by destruct (negb _)].
    apply bool_decide_eq_true in E. cbn [andb].
    destruct (negb _); [|done]. by intros [= <-].
  - apply initializeConversations_nothing. intros model Hin. rewrite Hmodels in Hin.
    destruct (inheritedName (model_id model)) eqn:Hinh; [by right|left].
    rewrite Hlook, Hinh.
    rewrite bool_decide_true by (by apply list_elem_of_fmap_2). cbn [andb negb].
    destruct (conversations h !! model_id model) eqn:E.
    + by rewrite bool_decide_false.
    + by rewrite bool_decide_true.
  - done.
Qed.



(** ** Clearing everything, and starting a new conversation *)

Lemma conversationId_truthy (now : Z) (rnd : string) :
  Js.truthy (conv_id (freshConversation now rnd "New Conversation")) = true.
Proof. reflexivity. Qed.


(** The columns the effect of lines 144-169 builds. *)
Lemma loadedColumns_fold_Some (c : Conversation) (ms : list AIModel)
    (acc : gmap string ModelConversation) (k : string) (mc : ModelConversation) :
  foldl (fun updated model =>
           if String.eqb (model_id model) "__proto__" then updated
           else <[model_id model := UseAIModels.projection c model]> updated)
        acc ms !! k = Some mc ->
  acc !! k = Some mc
  \/ exists model, model ∈ ms /\ model_id model = k /\ mc = UseAIModels.projection c model.
Proof.
  revert acc. induction ms as [|x r IH]; intros acc; [by left|].
  cbn [foldl]. intros [Hacc|(model & Hin & Hid & Hmc)]%IH.
  - destruct (String.eqb (model_id x) "__proto__"); [by left|].
    apply lookup_insert_Some in Hacc as [[<- <-]|[_ Hacc]]; [right|by left].
    exists x. split_and!; [by left|done|done].
  - right. exists model. split_and!; [by right|done|done].
Qed.

Lemma loadedColumns_fold_is_Some (c : Conversation) (ms : list AIModel)
    (acc : gmap string ModelConversation) (k : string) :
  is_Some (acc !! k)
  \/ (k <> "__proto__" /\ k ∈ model_id <$> ms) ->
  is_Some (foldl (fun updated model =>
                    if String.eqb (model_id model) "__proto__" then updated
                    else <[model_id model := UseAIModels.projection c model]> updated)
                 acc ms !! k).
Proof.
  revert acc. induction ms as [|x r IH]; intros acc.
  { intros [?|[_ ?%elem_of_nil]]; done. }
  cbn [foldl]. rewrite fmap_cons. intros Hk. apply IH.
  destruct Hk as [Hacc|[Hne [->|Hin]%elem_of_cons]].
  - left. destruct (String.eqb (model_id x) "__proto__"); [done|].
    destruct (decide (model_id x = k)) as [->|Hxk].
    + by rewrite lookup_insert_eq.
    + by rewrite lookup_insert_ne.
  - left. apply String.eqb_neq in Hne. rewrite Hne. by rewrite lookup_insert_eq.
  - by right.
Qed.

Lemma ensureConversation_active (B : Browser) (now : Z) (rnd : string) (w : World)
    (id : string) :
  activeConversationId (hook w) = Some id ->
  Js.truthy id = true ->
  HookActions.ensureConversation B now rnd w = w.
Proof.
  intros Hact Hid. unfold HookActions.ensureConversation. rewrite Hact, Hid.
  by rewrite andb_false_r.
Qed.

Lemma setHook_hook (w : World) : UseAIModels.setHook w (hook w) = w.
Proof. by destruct w. Qed.

(** The state after a callback that made a stored conversation the active
    one, in place of another: with models on the roster the columns are
    the ones the effect of lines 144-169 builds, and the effect of lines
    114-130 adds none; without models both effects do nothing. *)
Lemma settled_after_change (before after : World) (id : string) (c : Conversation) :
  activeConversationId (hook after) = Some id ->
  activeConversationId (hook before) <> Some id ->
  Js.truthy id = true ->
  ConversationService.getConversation (storage after) id = Some c ->
  Effects.settled before after
  = match models (hook after) with
    | [] => after
    | _ => UseAIModels.setConversations after (fun prev =>
             Effects.loadedColumns c (models (hook after)))
    end.
Proof.
  intros Hact Hne Hid Hc. unfold Effects.settled.
  rewrite bool_decide_false by (by rewrite Hact).
  unfold Effects.loadActiveConversation. rewrite Hact, Hid, Hc.
  destruct (models (hook after)) as [|m0 ms] eqn:Hms.
  - cbn [length Nat.ltb Nat.leb andb].
    rewrite initializeConversations_nothing; [apply setHook_hook|].
    rewrite Hms. by intros model ?%elem_of_nil.
  - cbn [length Nat.ltb Nat.leb andb]. rewrite <- Hms.
    rewrite initializeConversations_nothing; [apply setHook_hook|].
    intros model Hin. cbn [hook UseAIModels.setConversations UseAIModels.setHook
      conversations models] in *.
    destruct (String.eqb (model_id model) "__proto__") eqn:E.
    + right. apply String.eqb_eq in E. by rewrite E.
    + left. apply loadedColumns_fold_is_Some. right.
      split; [by apply String.eqb_neq|by apply list_elem_of_fmap_2].
Qed.



Lemma step_fragment (B : Browser) (now : Z) (w : World) (t : Task)
    (buf chunk : string) :
  task_phase t = Streaming buf ->
  UseAIModels.step B now w t (Fragment chunk)
  = (UseAIModels.setConversations w
       (UseAIModels.updateIfPresent (model_id (task_model t))
          (UseAIModels.streamUpdate (model_id (task_model t)) (buf +:+ chunk) now)),
     UseAIModels.setPhase t (Streaming (buf +:+ chunk))).
Proof. intros Hph. unfold UseAIModels.step. by rewrite Hph. Qed.

Lemma step_streamEnds (B : Browser) (now : Z) (w : World) (t : Task) (buf : string) :
  task_phase t = Streaming buf ->
  UseAIModels.step B now w t StreamEnds
  = (if Js.truthy buf && Js.truthy (task_activeId t)
     then UseAIModels.setStorage w
            (ConversationService.addMessageToConversation B now (storage w)
               (task_activeId t)
               {| msg_role := assistant; msg_content := buf; msg_timestamp := now;
                  msg_modelId := Some (model_id (task_model t)) |})
     else w,
     UseAIModels.setPhase t Settled).
Proof. intros Hph. unfold UseAIModels.step. by rewrite Hph. Qed.



(** X18. After "new conversation" there is nothing to retry.
    [createNewConversation] itself keeps the failed prompt of every column,
    but it changes the active conversation, and the effect that follows
    rebuilds the column of every roster model without a failed prompt. In
    the state the hook settles in, the fresh conversation is the active one
    and is stored, and [retryFailedModel] returns at once for every model,
    whichever render its callback is from: it starts no task, sends no
    request and leaves the state as it is. The effect that creates a first
    conversation does nothing. *)
Theorem retry_after_new_conversation (B : Browser) (now : Z) (rnd : string)
    (w : World) (later : Z) (rnd' : string) :
  ample B ->
  length (ConversationService.getAllConversations (storage w)) < 50 ->
  activeConversationId (hook w)
  <> Some (conv_id (freshConversation now rnd "New Conversation")) ->
  let fresh := freshConversation now rnd "New Conversation" in
  let w' := Effects.settled w (UseAIModels.createNewConversation B now rnd w) in
  activeConversationId (hook w') = Some (conv_id fresh)
  /\ ConversationService.getConversation (storage w') (conv_id fresh) = Some fresh
  /\ (models (hook w) <> [] ->
      forall k mc, conversations (hook w') !! k = Some mc ->
        mc_lastFailedPrompt mc = None /\ mc_canRetry mc = Some false
        /\ mc_retryCount mc = Some 0 /\ mc_messages mc = [])
  /\ (forall closureActiveId closureSettings modelId,
        UseAIModels.retryFailedModel closureActiveId closureSettings w' modelId
        = {| world := w'; tasks := [] |})
  /\ HookActions.ensureConversation B later rnd' w' = w'.
Proof.
  intros HB Hlen Hne fresh w'.
  set (stored := ConversationService.upsert
                   (ConversationService.getAllConversations (storage w)) fresh).
  assert (Hw1 : UseAIModels.createNewConversation B now rnd w
                = {| hook := {| models := models (hook w);
                                conversations :=
                                  UseAIModels.emptied <$> conversations (hook w);
                                allConversations := stored;
                                activeConversationId := Some (conv_id fresh);
                                configRetrySettings := configRetrySettings (hook w);
                                error := error (hook w) |};
                     storage := {| ls_conversations := Some stored;
                                   ls_active := Some (conv_id fresh) |};
                     requests := requests w |}).
  { unfold UseAIModels.createNewConversation.
    by rewrite (ample_createConversation B now rnd _ None HB Hlen). }
  unfold w'. rewrite Hw1.
  rewrite (settled_after_change _ _ (conv_id fresh) fresh);
    [|done|done|apply conversationId_truthy|exact (find_upsert_eq _ fresh)].
  cbn [hook models].
  destruct (models (hook w)) as [|m0 ms] eqn:Hms.
  - split_and!; [done|exact (find_upsert_eq _ fresh)|done|
                 |by apply (ensureConversation_active _ _ _ _ (conv_id fresh))].
    intros a cs modelId. unfold UseAIModels.retryFailedModel.
    cbn [hook models conversations find].
    by repeat case_match.
  - cbn [hook storage UseAIModels.setConversations UseAIModels.setHook conversations
         activeConversationId].
    split_and!; [done|exact (find_upsert_eq _ fresh)| |
                 |by apply (ensureConversation_active _ _ _ _ (conv_id fresh))].
    + intros _ k mc
        [?%lookup_empty_Some|(model & _ & _ & ->)]%loadedColumns_fold_Some; done.
    + intros a cs modelId. unfold UseAIModels.retryFailedModel.
      cbn [hook conversations UseAIModels.setConversations UseAIModels.setHook].
      destruct (Effects.loadedColumns fresh (m0 :: ms) !! modelId) as [mc|] eqn:Hmc;
        [|done].
      apply loadedColumns_fold_Some in Hmc
        as [?%lookup_empty_Some|(model & _ & _ & ->)]; done.
Qed.

Lemma retry_after_new_conversation_witness :
  requests (world (UseAIModels.retryFailedModel (Some "conv_30_r")
                     (Some retryAllSettings)
                     (Effects.settled failedWorld
                        (UseAIModels.createNewConversation ampleBrowser 30 "r"
                           failedWorld))
                     "alpha"))
  = [].
Proof.
  destruct (retry_after_new_conversation ampleBrowser 30 "r" failedWorld 31 "s"
              ampleBrowser_ample) as (_ & _ & _ & H & _).
  - vm_compute. lia.
  - done.
  - by rewrite H.
Defined.

(** ** Mounting *)

Lemma sorted_head_newest (l : list Conversation) (c : Conversation)
    (rest : list Conversation) :
  ConversationSearch.sortNewestFirst l = c :: rest ->
  c ∈ l /\ Forall (notOlder c) l.
Proof.
  intros Hs. pose proof (sortNewestFirst_Permutation l) as Hperm.
  pose proof (sortNewestFirst_sorted l) as Hsorted. rewrite Hs in Hperm, Hsorted.
  split.
  - rewrite <- Hperm. by left.
  - rewrite <- Hperm. apply StronglySorted_inv in Hsorted as [_ Hall].
    constructor; [|done]. unfold notOlder. lia.
Qed.

(** X19. On mount, with conversations stored and no active id stored, the
    most recently updated conversation becomes the active one, in the state
    and in the store, and the list of the state holds the stored
    conversations most recent first; the stored list keeps its order. *)
Theorem mount_activates_most_recent (B : Browser) (w : World) :
  ample B ->
  ConversationService.getAllConversations (storage w) <> [] ->
  ls_active (storage w) = None ->
  let stored := ConversationService.getAllConversations (storage w) in
  let w' := HookActions.mountConversations B w in
  exists mostRecent,
    mostRecent ∈ stored
    /\ Forall (notOlder mostRecent) stored
    /\ activeConversationId (hook w') = Some (conv_id mostRecent)
    /\ ls_active (storage w') = Some (conv_id mostRecent)
    /\ head (allConversations (hook w')) = Some mostRecent
    /\ allConversations (hook w') ≡ₚ stored
    /\ StronglySorted notOlder (allConversations (hook w'))
    /\ ConversationService.getAllConversations (storage w') = stored.
Proof.
  intros HB Hne Hact stored w'. unfold w', HookActions.mountConversations.
  unfold ConversationService.getActiveConversationId. rewrite Hact. fold stored.
  assert (Hlen : 0 < length stored)
    by (unfold stored; destruct (ConversationService.getAllConversations _);
        [done|simpl; lia]).
  pose proof (sortNewestFirst_Permutation stored) as Hperm.
  pose proof (sortNewestFirst_sorted stored) as Hsorted.
  destruct (ConversationSearch.sortNewestFirst stored) as [|c rest] eqn:Hs.
  { apply Permutation_length in Hperm. simpl in Hperm. lia. }
  destruct (sorted_head_newest stored c rest Hs) as [Hin Hall].
  replace (0 <? length stored) with true by (symmetry; by apply Nat.ltb_lt).
  simpl. rewrite ample_setActiveConversation by done.
  exists c. by split_and!.
Qed.

Lemma mount_activates_most_recent_witness :
  exists mostRecent,
    activeConversationId
      (hook (HookActions.mountConversations ampleBrowser
               {| hook := hook world1;
                  storage := {| ls_conversations := Some [chatA; chatB];
                                ls_active := None |};
                  requests := [] |}))
    = Some (conv_id mostRecent).
Proof.
  destruct (mount_activates_most_recent ampleBrowser
              {| hook := hook world1;
                 storage := {| ls_conversations := Some [chatA; chatB];
                               ls_active := None |};
                 requests := [] |} ampleBrowser_ample ltac:(done) eq_refl)
    as (c & _ & _ & H & _).
  by exists c.
Defined.

(** ** The tasks under any schedule *)

(** X20. Whatever the schedule, the tasks of a call never touch the column
    of a model none of them is for. *)
Theorem run_leaves_other_columns_alone (B : Browser)
    (schedule : list (nat * Z * Signal)) (eng : Engine) (k : string) :
  (forall t, t ∈ tasks eng -> model_id (task_model t) <> k) ->
  conversations (hook (world (UseAIModels.run B eng schedule))) !! k
  = conversations (hook (world eng)) !! k.
Proof.
  revert eng. induction schedule as [|[[j now] sig] rest IH]; intros eng Hk; [done|].
  rewrite run_cons, IH.
  - apply deliver_other_key. intros t Ht. apply Hk. by eapply list_elem_of_lookup_2.
  - intros t [i Hi]%list_elem_of_lookup_1.
    pose proof (proj1 (deliver_tasks B eng j now sig) i) as Hm. rewrite Hi in Hm.
    destruct (tasks eng !! i) as [t0|] eqn:Ht0; [|done].
    simpl in Hm. injection Hm as Hm. rewrite Hm. apply Hk.
    by eapply list_elem_of_lookup_2.
Qed.

Lemma run_leaves_other_columns_alone_witness :
  conversations
    (hook (world (UseAIModels.run ampleBrowser
                    {| world := twoModels;
                       tasks := [newTask modelBeta promptAgain "c1"
                                   UseAIModels.defaultRetrySettings] |}
                    [(0, 5%Z, SendResolved); (0, 6%Z, Fragment "ok")])))
    !! "alpha"
  = Some (UseAIModels.projection chat1 modelAlpha).
Proof.
  rewrite (run_leaves_other_columns_alone ampleBrowser
             [(0, 5%Z, SendResolved); (0, 6%Z, Fragment "ok")]
             {| world := twoModels;
                tasks := [newTask modelBeta promptAgain "c1"
                            UseAIModels.defaultRetrySettings] |} "alpha").
  - reflexivity.
  - intros t ->%list_elem_of_singleton. done.
Defined.

(** ** What a stream leaves behind *)

Lemma feed_cons (B : Browser) (now : Z) (wt : World * Task) (sig : Signal)
    (sigs : list Signal) :
  feed B now wt (sig :: sigs) = feed B now (UseAIModels.step B now wt.1 wt.2 sig) sigs.
Proof. reflexivity. Qed.

Lemma feed_app (B : Browser) (now : Z) (wt : World * Task) (sigs1 sigs2 : list Signal) :
  feed B now wt (sigs1 ++ sigs2) = feed B now (feed B now wt sigs1) sigs2.
Proof. unfold feed. by rewrite foldl_app. Qed.

(** Fragments accumulate in the task and touch neither the store nor the
    log of requests. *)
Lemma feed_fragments (B : Browser) (now : Z) (frags : list string) :
  forall (w : World) (t : Task) (buf : string),
    task_phase t = Streaming buf ->
    let wt := feed B now (w, t) (Fragment <$> frags) in
    wt.2 = UseAIModels.setPhase t (Streaming (buf +:+ concatFragments frags))
    /\ storage wt.1 = storage w
    /\ requests wt.1 = requests w.
Proof.
  induction frags as [|f frags IH]; intros w t buf Hph.
  - simpl. rewrite append_empty_r. split_and!; try done.
    destruct t. simpl in *. by rewrite Hph.
  - rewrite fmap_cons, feed_cons. cbn [fst snd].
    rewrite (step_fragment B now w t buf f Hph).
    match goal with |- context [feed B now (?w', ?t') _] =>
      destruct (IH w' t' (buf +:+ f) eq_refl) as (Ht & Hs & Hr) end.
    cbv zeta. rewrite Ht, Hs, Hr. simpl. by rewrite append_assoc.
Qed.

(** X21. The answer stored for a stream is the concatenation of its
    fragments, stored once, when the stream ends: a task whose request is
    answered by a stream of fragments that ends normally appends one
    assistant message with the whole text, tagged with its model, to the
    conversation the prompt was sent in, and to no other; a stream without
    fragments stores nothing. No further request is sent. *)
Theorem streamed_answer_is_stored_once (B : Browser) (now : Z) (w : World) (t : Task)
    (c : Conversation) (frags : list string) :
  ample B ->
  task_phase t = AwaitingResponse ->
  Js.truthy (task_activeId t) = true ->
  ConversationService.getConversation (storage w) (task_activeId t) = Some c ->
  length (ConversationService.getAllConversations (storage w)) <= 50 ->
  let answer := concatFragments frags in
  let wt := feed B now (w, t) (SendResolved :: (Fragment <$> frags) ++ [StreamEnds]) in
  task_phase wt.2 = Settled
  /\ requests wt.1 = requests w
  /\ (forall id, id <> task_activeId t ->
        ConversationService.getConversation (storage wt.1) id
        = ConversationService.getConversation (storage w) id)
  /\ if Js.truthy answer
     then exists c',
            ConversationService.getConversation (storage wt.1) (task_activeId t) = Some c'
            /\ conv_messages c'
               = conv_messages c
                 ++ [ {| msg_role := assistant; msg_content := answer;
                         msg_timestamp := now;
                         msg_modelId := Some (model_id (task_model t)) |} ]
     else storage wt.1 = storage w.
Proof.
  intros HB Hph Hid Hc Hlen answer wt.
  set (t0 := UseAIModels.setPhase t (Streaming "")).
  assert (H1 : UseAIModels.step B now w t SendResolved = (w, t0))
    by (unfold UseAIModels.step; by rewrite Hph).
  unfold wt. rewrite feed_cons. cbn [fst snd]. rewrite H1, feed_app.
  destruct (feed_fragments B now frags w t0 "" eq_refl) as (Ht & Hs & Hr).
  cbv zeta in Ht, Hs, Hr.
  destruct (feed B now (w, t0) (Fragment <$> frags)) as [w1 t1].
  cbn [fst snd] in *. subst t1.
  set (t2 := UseAIModels.setPhase t0 (Streaming ("" +:+ concatFragments frags))).
  change (feed B now (w1, t2) [StreamEnds])
    with (UseAIModels.step B now w1 t2 StreamEnds).
  rewrite (step_streamEnds B now w1 t2 ("" +:+ concatFragments frags) eq_refl).
  change ("" +:+ concatFragments frags) with answer.
  change (task_activeId t2) with (task_activeId t).
  change (task_model t2) with (task_model t).
  rewrite Hid, andb_true_r. cbn [fst snd].
  destruct (Js.truthy answer).
  - cbn [storage UseAIModels.setStorage requests]. rewrite Hs.
    match goal with |- context [ConversationService.addMessageToConversation B now _ _ ?m] =>
      destruct (ample_addMessage B now (storage w) (task_activeId t) c m HB Hc Hlen)
        as ((c' & Hc' & Hmsgs & _) & Hother & _) end.
    split_and!; [done|done|done|]. by exists c'.
  - by rewrite Hs.
Qed.

Lemma streamed_answer_is_stored_once_witness :
  let wt := feed ampleBrowser 9 alphaStarted
              [SendResolved; Fragment "Hel"; Fragment "lo"; StreamEnds] in
  msg_content
    <$> ConversationService.getConversationHistory (storage wt.1) "c1" "alpha"
  = ["hi"; "Hello"].
Proof.
  destruct (streamed_answer_is_stored_once ampleBrowser 9 alphaStarted.1 alphaStarted.2
              chat1 ["Hel"; "lo"] ampleBrowser_ample eq_refl eq_refl eq_refl)
    as (_ & _ & _ & c' & Hc' & Hm).
  - vm_compute. lia.
  - intros wt. unfold ConversationService.getConversationHistory.
    change (feed ampleBrowser 9 (alphaStarted.1, alphaStarted.2)
              (SendResolved :: (Fragment <$> ["Hel"; "lo"]) ++ [StreamEnds]))
      with wt in Hc'.
    change (task_activeId alphaStarted.2) with "c1" in Hc'.
    rewrite Hc', Hm. reflexivity.
Defined.

(** ** The conversation store *)

Lemma upsert_idempotent (l : list Conversation) (c : Conversation) :
  ConversationService.upsert (ConversationService.upsert l c) c
  = ConversationService.upsert l c.
Proof.
  induction l as [|x r IH].
  - rewrite upsert_nil, upsert_cons. by rewrite String.eqb_refl.
  - rewrite upsert_cons. destruct (String.eqb (conv_id x) (conv_id c)) eqn:E.
    + rewrite upsert_cons. by rewrite String.eqb_refl.
    + rewrite upsert_cons, E. by rewrite IH.
Qed.

(** X22. Save and read back: in ample storage and within the cap, a saved
    conversation is read back under its id as it was saved, every other id
    reads as before, the active id is untouched, ids stay distinct, the list
    grows by at most one, and saving the same conversation again changes
    nothing. *)
Theorem saved_conversation_is_read_back (B : Browser) (ls : LocalStorage)
    (c : Conversation) :
  ample B ->
  length (ConversationService.upsert (ConversationService.getAllConversations ls) c)
  <= 50 ->
  let ls' := ConversationService.saveConversation B ls c in
  ConversationService.getConversation ls' (conv_id c) = Some c
  /\ (forall id, id <> conv_id c ->
        ConversationService.getConversation ls' id
        = ConversationService.getConversation ls id)
  /\ ls_active ls' = ls_active ls
  /\ (NoDup (conv_id <$> ConversationService.getAllConversations ls) ->
      NoDup (conv_id <$> ConversationService.getAllConversations ls'))
  /\ length (ConversationService.getAllConversations ls')
     <= S (length (ConversationService.getAllConversations ls))
  /\ ConversationService.saveConversation B ls' c = ls'.
Proof.
  intros HB Hlen ls'. unfold ls'. rewrite ample_save by done.
  unfold ConversationService.getConversation. rewrite withConversations_getAll.
  split_and!.
  - apply find_upsert_eq.
  - intros id Hne. by apply find_upsert_ne.
  - done.
  - apply upsert_NoDup.
  - pose proof (upsert_length (ConversationService.getAllConversations ls) c). lia.
  - rewrite ample_save; [|done|].
    + by rewrite withConversations_getAll, upsert_idempotent.
    + by rewrite withConversations_getAll, upsert_idempotent.
Qed.

Lemma saved_conversation_is_read_back_witness :
  ConversationService.getConversation
    (ConversationService.saveConversation ampleBrowser storage1 chatB) "b"
  = Some chatB.
Proof.
  refine (proj1 (saved_conversation_is_read_back ampleBrowser storage1 chatB
                   ampleBrowser_ample _)).
  vm_compute. lia.
Defined.

(** X23. Deleting from the store: in ample storage the conversations of the
    given id are removed and the others keep their order. When the deleted
    id was the active one, the first remaining conversation becomes active,
    or no conversation is active when none remains; otherwise the active id
    is untouched. *)
Theorem delete_moves_the_active_id (B : Browser) (ls : LocalStorage) (id : string) :
  ample B ->
  let ls' := ConversationService.deleteConversation B ls id in
  let remaining :=
    filter (fun conv => conv_id conv ≠ id) (ConversationService.getAllConversations ls) in
  ConversationService.getAllConversations ls' = remaining
  /\ ConversationService.getConversation ls' id = None
  /\ ls_active ls'
     = if bool_decide (ls_active ls = Some id) then conv_id <$> head remaining
       else ls_active ls.
Proof.
  intros HB ls' remaining.
  assert (Hls' : ls' = {| ls_conversations := Some remaining;
                          ls_active := if bool_decide (ls_active ls = Some id)
                                       then conv_id <$> head remaining
                                       else ls_active ls |}).
  { unfold ls', ConversationService.deleteConversation,
      ConversationService.setConversations.
    rewrite (proj1 (HB _)). fold remaining.
    unfold ConversationService.getActiveConversationId. cbn [ls_active].
    destruct (bool_decide (ls_active ls = Some id)) eqn:E; [|done].
    apply bool_decide_eq_true in E. rewrite E.
    unfold ConversationService.getAllConversations at 1. cbn [ls_conversations].
    destruct remaining as [|first rest]; [done|].
    by rewrite ample_setActiveConversation. }
  rewrite Hls'. split_and!; [done| |done].
  apply find_filter_other.
Qed.

Lemma delete_moves_the_active_id_witness :
  ls_active (ConversationService.deleteConversation ampleBrowser (storage twoChats) "a")
  = Some "b".
Proof.
  exact (proj2 (proj2 (delete_moves_the_active_id ampleBrowser (storage twoChats) "a"
                         ampleBrowser_ample))).
Defined.

(** X24. Appending a message: in ample storage and within the cap, the
    stored conversation gains the message at its end and keeps its creation
    time. Its title is generated from the message when that is the first
    user message of the conversation, and is unchanged otherwise. Its list
    of models stays free of duplicates, keeps its order and gains the model
    of the message, at the end, when that has a non-empty model id that is
    new. *)
Theorem appended_message_sets_title_and_models (B : Browser) (now : Z)
    (ls : LocalStorage) (id : string) (c : Conversation) (message : ChatMessage) :
  ample B ->
  ConversationService.getConversation ls id = Some c ->
  length (ConversationService.getAllConversations ls) <= 50 ->
  exists c',
    ConversationService.getConversation
      (ConversationService.addMessageToConversation B now ls id message) id = Some c'
    /\ conv_messages c' = conv_messages c ++ [message]
    /\ conv_createdAt c' = conv_createdAt c
    /\ conv_title c'
       = (if bool_decide (msg_role message = user
                          /\ Forall (fun m => msg_role m <> user) (conv_messages c))
          then ConversationService.generateTitle (msg_content message)
          else conv_title c)
    /\ conv_modelIds c'
       = (match msg_modelId message with
          | Some m => if bool_decide (m <> "" /\ m ∉ conv_modelIds c)
                      then conv_modelIds c ++ [m] else conv_modelIds c
          | None => conv_modelIds c
          end)
    /\ (NoDup (conv_modelIds c) -> NoDup (conv_modelIds c')).
Proof.
  intros HB Hc Hlen. destruct (getConversation_Some ls id c Hc) as [Hid Hin].
  unfold ConversationService.addMessageToConversation. rewrite Hc.
  match goal with |- context [ConversationService.saveConversation B ls ?c'] =>
    set (saved := c') end.
  assert (Hsid : conv_id saved = id) by done.
  assert (Hrepl : length (ConversationService.upsert
                            (ConversationService.getAllConversations ls) saved)
                  = length (ConversationService.getAllConversations ls)).
  { apply upsert_length_replace. rewrite Hsid, <- Hid. by apply list_elem_of_fmap_2. }
  rewrite ample_save by (done || lia).
  unfold ConversationService.getConversation. rewrite withConversations_getAll.
  exists saved.
  assert (Hmodels : conv_modelIds saved
                    = match msg_modelId message with
                      | Some m => if bool_decide (m <> "" /\ m ∉ conv_modelIds c)
                                  then conv_modelIds c ++ [m] else conv_modelIds c
                      | None => conv_modelIds c
                      end).
  { unfold saved. cbn [conv_modelIds]. destruct (msg_modelId message) as [m|]; [|done].
    destruct (decide (m ∈ conv_modelIds c)) as [Hm|Hm].
    - rewrite (bool_decide_true (m ∈ _)) by done. rewrite andb_false_r.
      rewrite bool_decide_false; [done|]. by intros [_ ?].
    - rewrite (bool_decide_false (m ∈ _)) by done. rewrite andb_true_r.
      destruct m as [|a m']; simpl; [done|]. by rewrite bool_decide_true. }
  split_and!.
  - pose proof (find_upsert_eq (ConversationService.getAllConversations ls) saved) as Hf.
    by rewrite Hsid in Hf.
  - done.
  - done.
  - unfold saved. cbn [conv_title].
    rewrite filter_app, length_app.
    destruct (decide (msg_role message = user)) as [Hu|Hu].
    + rewrite (bool_decide_true (msg_role message = user)) by done.
      rewrite filter_cons_True, filter_nil by done. cbn [length andb].
      destruct (decide (Forall (fun m => msg_role m <> user) (conv_messages c)))
        as [Hall|Hall].
      * rewrite (filter_none (fun m => msg_role m = user))
          by (by apply Forall_forall).
        rewrite bool_decide_true by done. done.
      * rewrite bool_decide_false by (by intros [_ ?]).
        apply not_Forall_Exists in Hall; [|apply _].
        apply Exists_exists in Hall as (m & Hm & Hrole).
        assert (Hmu : msg_role m = user) by (by destruct (decide (msg_role m = user))).
        assert (Hmf : m ∈ filter (fun m => msg_role m = user) (conv_messages c))
          by (by apply list_elem_of_filter).
        destruct (filter _ (conv_messages c)) as [|? ?]; [by apply elem_of_nil in Hmf|].
        simpl. by rewrite Nat.add_comm.
    + rewrite (bool_decide_false (msg_role message = user)) by done.
      rewrite bool_decide_false by (by intros [? _]). done.
  - done.
  - rewrite Hmodels. intros Hnd. destruct (msg_modelId message) as [m|]; [|done].
    destruct (bool_decide (m <> "" /\ m ∉ conv_modelIds c)) eqn:E; [|done].
    apply bool_decide_eq_true in E as [_ Hm].
    apply NoDup_app. split_and!; [done| |apply NoDup_singleton].
    intros x Hx ->%list_elem_of_singleton. done.
Qed.

Lemma appended_message_sets_title_and_models_witness :
  exists c',
    ConversationService.getConversation
      (ConversationService.addMessageToConversation ampleBrowser 5 storage1 "c1"
         answerBeta) "c1" = Some c'
    /\ conv_messages c' = [hiMessage; answerBeta].
Proof.
  destruct (appended_message_sets_title_and_models ampleBrowser 5 storage1 "c1" chat1
              answerBeta ampleBrowser_ample eq_refl)
    as (c' & Hc' & Hm & _).
  - vm_compute. lia.
  - exists c'. by split.
Defined.

(** ** Submitting a prompt *)

(** X25. The prompt form sends only when a model is enabled and there is
    something to send, a text that is not blank or an attachment; the text
    it hands over is the typed text trimmed, so it neither starts nor ends
    with white space, and the attachments are handed over as they are. *)
Theorem handleSend_contract (prompt : string) (files : list AttachmentFile)
    (enabledModelsCount : nat) :
  match FloatingPrompt.handleSend prompt files enabledModelsCount with
  | Some sent =>
      0 < enabledModelsCount
      /\ (Js.trim prompt <> "" \/ files <> [])
      /\ text sent = Js.trim prompt
      /\ Js.trim (text sent) = text sent
      /\ attachments sent = files
  | None => enabledModelsCount = 0 \/ (Js.trim prompt = "" /\ files = [])
  end.
Proof.
  unfold FloatingPrompt.handleSend.
  destruct (Js.trim prompt) as [|a s] eqn:Ht; simpl.
  - destruct files as [|f files]; simpl; [by right|].
    destruct enabledModelsCount; simpl; [by left|].
    split_and!; try done; [lia|by right].
  - destruct enabledModelsCount; simpl; [by left|].
    split_and!; try done; [lia|by left|].
    rewrite <- Ht. apply trim_idempotent.
Qed.

(** *** Forgetting the attachments commutes with every operation *)

Lemma columnTextOnly_updateIfPresent (k : string)
    (f f' : ModelConversation -> ModelConversation)
    (m : gmap string ModelConversation) :
  (forall mc, columnTextOnly (f mc) = f' (columnTextOnly mc)) ->
  columnTextOnly <$> UseAIModels.updateIfPresent k f m
  = UseAIModels.updateIfPresent k f' (columnTextOnly <$> m).
Proof.
  intros Hf. unfold UseAIModels.updateIfPresent. rewrite lookup_fmap.
  destruct (m !! k) as [mc|]; simpl; [|done]. by rewrite fmap_insert, Hf.
Qed.

Lemma worldTextOnly_update (w : World) (k : string)
    (f f' : ModelConversation -> ModelConversation) :
  (forall mc, columnTextOnly (f mc) = f' (columnTextOnly mc)) ->
  worldTextOnly (UseAIModels.setConversations w (UseAIModels.updateIfPresent k f))
  = UseAIModels.setConversations (worldTextOnly w) (UseAIModels.updateIfPresent k f').
Proof.
  intros Hf. unfold worldTextOnly, UseAIModels.setConversations, UseAIModels.setHook.
  simpl. by rewrite (columnTextOnly_updateIfPresent k f f').
Qed.

Lemma worldTextOnly_retrying (w : World) (k : string) (retryCount maxRetries : nat) :
  worldTextOnly
    (UseAIModels.setConversations w
       (UseAIModels.updateIfPresent k (UseAIModels.retryingUpdate retryCount maxRetries)))
  = UseAIModels.setConversations (worldTextOnly w)
      (UseAIModels.updateIfPresent k (UseAIModels.retryingUpdate retryCount maxRetries)).
Proof. by apply worldTextOnly_update. Qed.

Lemma worldTextOnly_failed (w : World) (k errorMessage : string) (retryCount : nat)
    (prompt : PromptData) :
  worldTextOnly
    (UseAIModels.setConversations w
       (UseAIModels.updateIfPresent k
          (UseAIModels.failedUpdate errorMessage retryCount prompt)))
  = UseAIModels.setConversations (worldTextOnly w)
      (UseAIModels.updateIfPresent k
         (UseAIModels.failedUpdate errorMessage retryCount (textOnly prompt))).
Proof. by apply worldTextOnly_update. Qed.

Lemma worldTextOnly_stream (w : World) (k assistantMessage : string) (now : Z) :
  worldTextOnly
    (UseAIModels.setConversations w
       (UseAIModels.updateIfPresent k (UseAIModels.streamUpdate k assistantMessage now)))
  = UseAIModels.setConversations (worldTextOnly w)
      (UseAIModels.updateIfPresent k (UseAIModels.streamUpdate k assistantMessage now)).
Proof. by apply worldTextOnly_update. Qed.

Lemma beginAttempt_textOnly (w : World) (t : Task) :
  UseAIModels.beginAttempt (worldTextOnly w) (taskTextOnly t)
  = (worldTextOnly (UseAIModels.beginAttempt w t).1,
     taskTextOnly (UseAIModels.beginAttempt w t).2).
Proof.
  unfold UseAIModels.beginAttempt. cbn [taskTextOnly task_retryCount task_settings].
  by destruct (task_retryCount t <=? maxRetries (task_settings t)).
Qed.

Lemma onError_textOnly (w : World) (t : Task) (e : JsError) :
  UseAIModels.onError (worldTextOnly w) (taskTextOnly t) e
  = (worldTextOnly (UseAIModels.onError w t e).1,
     taskTextOnly (UseAIModels.onError w t e).2).
Proof.
  unfold UseAIModels.onError.
  cbn [taskTextOnly task_retryCount task_settings task_model task_prompt].
  destruct (_ && _).
  - destruct (0 <? _)%Z.
    + cbn [fst snd]. by rewrite worldTextOnly_retrying.
    + rewrite <- beginAttempt_textOnly. by rewrite worldTextOnly_retrying.
  - cbn [fst snd]. by rewrite worldTextOnly_failed.
Qed.

Lemma step_textOnly (B : Browser) (now : Z) (w : World) (t : Task) (sig : Signal) :
  UseAIModels.step B now (worldTextOnly w) (taskTextOnly t) sig
  = (worldTextOnly (UseAIModels.step B now w t sig).1,
     taskTextOnly (UseAIModels.step B now w t sig).2).
Proof.
  unfold UseAIModels.step.
  cbn [taskTextOnly task_phase task_model task_activeId].
  destruct (task_phase t) eqn:Hph; destruct sig; try done;
    try apply onError_textOnly; try apply beginAttempt_textOnly.
  - cbn [fst snd]. by rewrite worldTextOnly_stream.
  - by destruct (_ && _).
Qed.

Lemma allSettled_textOnly (ts : list Task) :
  UseAIModels.allSettled (taskTextOnly <$> ts) = UseAIModels.allSettled ts.
Proof. induction ts as [|t ts IH]; [done|]. simpl. by rewrite <- IH. Qed.

Lemma deliver_textOnly (B : Browser) (eng : Engine) (i : nat) (now : Z) (sig : Signal) :
  UseAIModels.deliver B (engineTextOnly eng) i now sig
  = engineTextOnly (UseAIModels.deliver B eng i now sig).
Proof.
  unfold UseAIModels.deliver. cbn [engineTextOnly tasks world].
  rewrite list_lookup_fmap.
  destruct (tasks eng !! i) as [t|] eqn:Ht; simpl; [|done].
  rewrite step_textOnly.
  destruct (UseAIModels.step B now (world eng) t sig) as [w1 t1]. cbn [fst snd].
  rewrite <- list_fmap_insert, allSettled_textOnly.
  unfold engineTextOnly. cbn [world tasks taskTextOnly task_phase]. f_equal.
  by destruct (_ && _).
Qed.

Lemma run_textOnly (B : Browser) (schedule : list (nat * Z * Signal)) (eng : Engine) :
  UseAIModels.run B (engineTextOnly eng) schedule
  = engineTextOnly (UseAIModels.run B eng schedule).
Proof.
  revert eng. induction schedule as [|[[i now] sig] rest IH]; intros eng; [done|].
  by rewrite !run_cons, deliver_textOnly, IH.
Qed.

Lemma sendPromptToModels_textOnly (a : option string) (cs : option RetrySettings)
    (w : World) (ms : list AIModel) (prompt : PromptData) :
  UseAIModels.sendPromptToModels a cs (worldTextOnly w) ms (textOnly prompt)
  = engineTextOnly (UseAIModels.sendPromptToModels a cs w ms prompt).
Proof.
  unfold UseAIModels.sendPromptToModels.
  destruct a as [id|]; [|done]. destruct (Js.truthy id); [|done].
  rewrite !startTasks_spec. unfold engineTextOnly. cbn [world tasks].
  rewrite <- list_fmap_compose.
  replace (UseAIModels.allSettled
             ((fun M => newTask M (textOnly prompt) id
                          (default UseAIModels.defaultRetrySettings cs)) <$> ms))
    with (UseAIModels.allSettled
            ((fun M => newTask M prompt id
                         (default UseAIModels.defaultRetrySettings cs)) <$> ms))
    by (by destruct ms).
  f_equal. by destruct (UseAIModels.allSettled _).
Qed.

Lemma prompted_textOnly (userMessage : ChatMessage) (ms : list AIModel)
    (m : gmap string ModelConversation) :
  columnTextOnly
    <$> foldl (fun updated model =>
                 UseAIModels.updateIfPresent (model_id model)
                   (UseAIModels.promptedUpdate userMessage) updated) m ms
  = foldl (fun updated model =>
             UseAIModels.updateIfPresent (model_id model)
               (UseAIModels.promptedUpdate userMessage) updated)
          (columnTextOnly <$> m) ms.
Proof.
  revert m. induction ms as [|x r IH]; intros m; [done|]. cbn [foldl].
  rewrite IH. f_equal. by apply columnTextOnly_updateIfPresent.
Qed.

Lemma worldTextOnly_prompted (w : World) (ls : LocalStorage) (userMessage : ChatMessage)
    (ms : list AIModel) :
  worldTextOnly
    (UseAIModels.setConversations (UseAIModels.setStorage w ls) (fun prev =>
       foldl (fun updated model =>
                UseAIModels.updateIfPresent (model_id model)
                  (UseAIModels.promptedUpdate userMessage) updated) prev ms))
  = UseAIModels.setConversations (UseAIModels.setStorage (worldTextOnly w) ls)
      (fun prev =>
         foldl (fun updated model =>
                  UseAIModels.updateIfPresent (model_id model)
                    (UseAIModels.promptedUpdate userMessage) updated) prev ms).
Proof.
  unfold worldTextOnly, UseAIModels.setConversations, UseAIModels.setStorage,
    UseAIModels.setHook. cbn [hook storage requests models conversations
    allConversations activeConversationId configRetrySettings error].
  by rewrite prompted_textOnly.
Qed.

Lemma sendPromptToEnabledModels_textOnly (B : Browser) (now : Z) (rnd : string)
    (w : World) (prompt : PromptData) :
  UseAIModels.sendPromptToEnabledModels B now rnd (worldTextOnly w) (textOnly prompt)
  = engineTextOnly (UseAIModels.sendPromptToEnabledModels B now rnd w prompt).
Proof.
  unfold UseAIModels.sendPromptToEnabledModels.
  cbn [worldTextOnly UseAIModels.setConversations UseAIModels.setHook hook models
       storage activeConversationId configRetrySettings textOnly text].
  match goal with |- context [if ?c then _ else _] => destruct c end; [done|].
  destruct (activeConversationId (hook w)) as [id|] eqn:Hact.
  - destruct (Js.truthy id).
    + rewrite <- sendPromptToModels_textOnly. by rewrite worldTextOnly_prompted.
    + destruct (ConversationService.createConversation B now rnd (storage w)
                  (Some (text prompt))) as [c ls].
      rewrite <- sendPromptToModels_textOnly. by rewrite worldTextOnly_prompted.
  - destruct (ConversationService.createConversation B now rnd (storage w)
                (Some (text prompt))) as [c ls].
    rewrite <- sendPromptToModels_textOnly. by rewrite worldTextOnly_prompted.
Qed.

Lemma retryFailedModel_textOnly (a : option string) (cs : option RetrySettings)
    (w : World) (modelId : string) :
  UseAIModels.retryFailedModel a cs (worldTextOnly w) modelId
  = engineTextOnly (UseAIModels.retryFailedModel a cs w modelId).
Proof.
  unfold UseAIModels.retryFailedModel.
  cbn [worldTextOnly UseAIModels.setConversations UseAIModels.setHook hook models
       conversations].
  rewrite lookup_fmap.
  destruct (conversations (hook w) !! modelId) as [mc|] eqn:Hmc; simpl; [|done].
  destruct (mc_lastFailedPrompt mc) as [p|]; simpl; [|done].
  destruct (find _ (models (hook w))) as [model|]; [|done].
  destruct (model_isEnabled model); [|done].
  rewrite <- sendPromptToModels_textOnly. f_equal.
  unfold worldTextOnly, UseAIModels.setConversations, UseAIModels.setHook.
  cbn [hook storage requests models conversations allConversations
       activeConversationId configRetrySettings error].
  rewrite fmap_insert, lookup_fmap, !Hmc. done.
Qed.

(** X26. Attachments are never sent and never stored. Whatever the answers
    and their order, a submission with attachments sends the same requests
    and leaves the same store as the submission of its text alone, and the
    two states differ in nothing but the attachments of the prompts that
    are kept for a retry: the failed prompt of a column and the prompt of
    a task. A manual retry after either run, again under any answers, sends
    the same requests and leaves the same store too. *)
Theorem attachments_are_neither_sent_nor_stored (B : Browser) (now : Z) (rnd : string)
    (w : World) (prompt : PromptData) (schedule : list (nat * Z * Signal)) :
  let eng :=
    UseAIModels.run B (UseAIModels.sendPromptToEnabledModels B now rnd w prompt)
      schedule in
  let eng' :=
    UseAIModels.run B
      (UseAIModels.sendPromptToEnabledModels B now rnd w (textOnly prompt)) schedule in
  requests (world eng) = requests (world eng')
  /\ storage (world eng) = storage (world eng')
  /\ engineTextOnly eng = engineTextOnly eng'
  /\ (forall closureActiveId closureSettings modelId schedule',
        let again e :=
          UseAIModels.run B
            (UseAIModels.retryFailedModel closureActiveId closureSettings (world e)
               modelId) schedule' in
        requests (world (again eng)) = requests (world (again eng'))
        /\ storage (world (again eng)) = storage (world (again eng'))
        /\ engineTextOnly (again eng) = engineTextOnly (again eng')).
Proof.
  intros eng eng'.
  assert (Heq : engineTextOnly eng = engineTextOnly eng').
  { unfold eng, eng'.
    by rewrite <- !run_textOnly, <- !sendPromptToEnabledModels_textOnly. }
  assert (Hproj : forall e e', engineTextOnly e = engineTextOnly e' ->
            requests (world e) = requests (world e')
            /\ storage (world e) = storage (world e')).
  { intros e e' H.
    change (requests (world (engineTextOnly e)) = requests (world (engineTextOnly e'))
            /\ storage (world (engineTextOnly e)) = storage (world (engineTextOnly e'))).
    by rewrite H. }
  destruct (Hproj _ _ Heq) as [Hr Hs].
  split_and!; [done|done|done|].
  intros a cs modelId schedule' again.
  assert (Heq' : engineTextOnly (again eng) = engineTextOnly (again eng')).
  { unfold again. rewrite <- !run_textOnly, <- !retryFailedModel_textOnly.
    change (worldTextOnly (world eng)) with (world (engineTextOnly eng)).
    change (worldTextOnly (world eng')) with (world (engineTextOnly eng')).
    by rewrite Heq. }
  destruct (Hproj _ _ Heq') as [Hr' Hs']. by split_and!.
Qed.

(** ** How many requests a submission sends *)

Lemma step_counts (B : Browser) (now : Z) (w : World) (t : Task) (sig : Signal) :
  task_retryCount t <= maxRetries (task_settings t) ->
  pending t <= task_retryCount t ->
  let wt := UseAIModels.step B now w t sig in
  task_settings wt.2 = task_settings t
  /\ task_retryCount wt.2 <= maxRetries (task_settings t)
  /\ pending wt.2 <= task_retryCount wt.2
  /\ length (requests wt.1) + pending wt.2 + task_retryCount t
     = length (requests w) + pending t + task_retryCount wt.2.
Proof.
  intros Hle Hpend.
  assert (Hbegin : forall w' t', task_settings t' = task_settings t ->
            task_retryCount t' <= maxRetries (task_settings t) ->
            let wt := UseAIModels.beginAttempt w' t' in
            task_settings wt.2 = task_settings t
            /\ task_retryCount wt.2 = task_retryCount t'
            /\ pending wt.2 = 0
            /\ length (requests wt.1) = length (requests w') + 1).
  { intros w' t' Hs Hle'. unfold UseAIModels.beginAttempt. rewrite Hs.
    replace (task_retryCount t' <=? maxRetries (task_settings t)) with true
      by (symmetry; by apply Nat.leb_le).
    simpl. rewrite length_app. by split_and!. }
  assert (Herr : forall e, pending t = 0 ->
            let wt := UseAIModels.onError w t e in
            task_settings wt.2 = task_settings t
            /\ task_retryCount wt.2 <= maxRetries (task_settings t)
            /\ pending wt.2 <= task_retryCount wt.2
            /\ length (requests wt.1) + pending wt.2 + task_retryCount t
               = length (requests w) + pending t + task_retryCount wt.2).
  { intros e Hp. unfold UseAIModels.onError.
    destruct (UseAIModels.shouldRetryError (task_settings t) e); simpl.
    - destruct (task_retryCount t <? maxRetries (task_settings t)) eqn:Hlt; simpl.
      + apply Nat.ltb_lt in Hlt.
        destruct (0 <? _)%Z.
        * unfold pending in *. simpl. split_and!; [done|lia|lia|lia].
        * match goal with |- context [UseAIModels.beginAttempt ?w' ?t'] =>
            destruct (Hbegin w' t') as (Hs & Hr & Hp' & Hl) end; [done|simpl; lia|].
          rewrite Hs, Hr, Hp', Hl. simpl. split_and!; [done|lia|lia|lia].
      + unfold pending in *. simpl. split_and!; [done|lia|lia|lia].
    - unfold pending in *. simpl. split_and!; [done|lia|lia|lia]. }
  unfold UseAIModels.step.
  destruct (task_phase t) eqn:Hph; destruct sig; simpl;
    try (split_and!; [done|lia|lia|lia]);
    try (apply Herr; unfold pending; by rewrite Hph).
  - unfold pending in *. rewrite Hph in *. simpl. split_and!; [done|lia|lia|lia].
  - unfold pending in *. rewrite Hph in *. simpl. split_and!; [done|lia|lia|lia].
  - unfold pending in *. rewrite Hph in *.
    destruct (_ && _); simpl; (split_and!; [done|lia|lia|lia]).
  - destruct (Hbegin w t) as (Hs & Hr & Hp' & Hl); [done|lia|].
    rewrite Hs, Hr, Hp', Hl. unfold pending in *. rewrite Hph in *.
    split_and!; [done|lia|lia|lia].
Qed.

Lemma sum_list_insert {A} (f : A -> nat) (l : list A) (i : nat) (x y : A) :
  l !! i = Some x ->
  sum_list (f <$> <[i := y]> l) + f x = sum_list (f <$> l) + f y.
Proof.
  revert i. induction l as [|z l IH]; intros [|i] Hi; try done.
  - injection Hi as ->.
    change (sum_list (f <$> <[0 := y]> (x :: l))) with (f y + sum_list (f <$> l)).
    change (sum_list (f <$> x :: l)) with (f x + sum_list (f <$> l)). lia.
  - specialize (IH i Hi).
    change (sum_list (f <$> <[S i := y]> (z :: l)))
      with (f z + sum_list (f <$> <[i := y]> l)).
    change (sum_list (f <$> z :: l)) with (f z + sum_list (f <$> l)). lia.
Qed.

Lemma sum_list_bounded {A} (f : A -> nat) (l : list A) (b : nat) :
  Forall (fun x => f x <= b) l -> sum_list (f <$> l) <= length l * b.
Proof.
  induction 1 as [|x l Hx _ IH]; [done|].
  change (f x + sum_list (f <$> l) <= b + length l * b). lia.
Qed.

(** The invariant of a call under any schedule: every task keeps its
    settings and stays within its retries, and the requests sent so far are
    one per task plus one per retry that is no longer waiting. *)
Lemma run_counts (B : Browser) (rs : RetrySettings)
    (schedule : list (nat * Z * Signal)) :
  forall (eng : Engine) (K : nat),
    Forall (fun t => task_settings t = rs
                     /\ task_retryCount t <= maxRetries rs
                     /\ pending t <= task_retryCount t) (tasks eng) ->
    length (requests (world eng)) + sum_list (pending <$> tasks eng)
    = K + sum_list (task_retryCount <$> tasks eng) ->
    let eng' := UseAIModels.run B eng schedule in
    Forall (fun t => task_settings t = rs
                     /\ task_retryCount t <= maxRetries rs
                     /\ pending t <= task_retryCount t) (tasks eng')
    /\ length (tasks eng') = length (tasks eng)
    /\ length (requests (world eng')) + sum_list (pending <$> tasks eng')
       = K + sum_list (task_retryCount <$> tasks eng').
Proof.
  induction schedule as [|[[i now] sig] rest IH]; intros eng K Hall Hsum; [done|].
  rewrite run_cons. cbv zeta.
  assert (Hd : Forall (fun t => task_settings t = rs
                                /\ task_retryCount t <= maxRetries rs
                                /\ pending t <= task_retryCount t)
                 (tasks (UseAIModels.deliver B eng i now sig))
               /\ length (tasks (UseAIModels.deliver B eng i now sig))
                  = length (tasks eng)
               /\ length (requests (world (UseAIModels.deliver B eng i now sig)))
                  + sum_list (pending <$> tasks (UseAIModels.deliver B eng i now sig))
                  = K + sum_list (task_retryCount
                                    <$> tasks (UseAIModels.deliver B eng i now sig))).
  { unfold UseAIModels.deliver.
    destruct (tasks eng !! i) as [t|] eqn:Ht; [|done].
    pose proof (Forall_lookup_1 _ _ _ _ Hall Ht) as (Hs & Hle & Hp). subst rs.
    destruct (step_counts B now (world eng) t sig Hle Hp) as (Hs' & Hle' & Hp' & Hc).
    destruct (UseAIModels.step B now (world eng) t sig) as [w1 t1]. cbn [fst snd] in *.
    cbn [world tasks].
    pose proof (sum_list_insert pending (tasks eng) i t t1 Ht) as Hsp.
    pose proof (sum_list_insert task_retryCount (tasks eng) i t t1 Ht) as Hsr.
    split_and!.
    - apply Forall_insert; [done|]. rewrite Hs'. by split_and!.
    - by rewrite length_insert.
    - assert (Hreq : forall c : bool,
                requests (if c then UseAIModels.refreshAllConversations w1 else w1)
                = requests w1) by (by intros []).
      rewrite Hreq. lia. }
  destruct Hd as (Hall1 & Hlen1 & Hsum1).
  destruct (IH _ K Hall1 Hsum1) as (Hall2 & Hlen2 & Hsum2).
  split_and!; [done|lia|done].
Qed.

(** X27. A call of [sendPromptToModels] for [n] models sends, whatever the
    answers and whatever their order, at least [n] requests and at most
    [n * (1 + maxRetries)]: one per model when the call starts, and at most
    [maxRetries] retries for each. *)
Theorem submission_sends_bounded_requests (B : Browser) (id : string)
    (cs : option RetrySettings) (w : World) (ms : list AIModel) (prompt : PromptData)
    (schedule : list (nat * Z * Signal)) :
  Js.truthy id = true ->
  let rs := default UseAIModels.defaultRetrySettings cs in
  let started := UseAIModels.sendPromptToModels (Some id) cs w ms prompt in
  let eng := UseAIModels.run B started schedule in
  length (requests (world started)) = length (requests w) + length ms
  /\ length (requests w) + length ms <= length (requests (world eng))
  /\ length (requests (world eng))
     <= length (requests w) + length ms * (1 + maxRetries rs).
Proof.
  intros Hid rs started eng.
  destruct (sendPromptToModels_active id cs w ms prompt Hid) as (_ & Hreq & Htasks).
  fold started in Hreq, Htasks. fold rs in Htasks.
  assert (Hall : Forall (fun t => task_settings t = rs
                                  /\ task_retryCount t <= maxRetries rs
                                  /\ pending t <= task_retryCount t) (tasks started)).
  { rewrite Htasks. apply Forall_fmap, Forall_true. intros M. simpl.
    unfold pending. simpl. split_and!; [done|lia|lia]. }
  assert (Hp0 : sum_list (pending <$> tasks started) = 0).
  { rewrite Htasks, <- list_fmap_compose. clear. by induction ms. }
  assert (Hr0 : sum_list (task_retryCount <$> tasks started) = 0).
  { rewrite Htasks, <- list_fmap_compose. clear. by induction ms. }
  assert (Hlen0 : length (requests (world started)) = length (requests w) + length ms)
    by (by rewrite Hreq, length_app, length_fmap).
  destruct (run_counts B rs schedule started (length (requests w) + length ms) Hall)
    as (Hall' & Hlen' & Hsum'); [lia|].
  fold eng in Hall', Hlen', Hsum'.
  assert (Hn : length (tasks eng) = length ms)
    by (by rewrite Hlen', Htasks, length_fmap).
  pose proof (sum_list_bounded task_retryCount (tasks eng) (maxRetries rs)) as Hbound.
  assert (Hpr : sum_list (pending <$> tasks eng)
                <= sum_list (task_retryCount <$> tasks eng)).
  { clear -Hall'. induction Hall' as [|t ts (_ & _ & Hp) _ IH]; [done|].
    change (pending t + sum_list (pending <$> ts)
            <= task_retryCount t + sum_list (task_retryCount <$> ts)). lia. }
  rewrite Hn in Hbound.
  assert (Hb : sum_list (task_retryCount <$> tasks eng) <= length ms * maxRetries rs).
  { apply Hbound. eapply Forall_impl; [exact Hall'|]. by intros t (_ & ? & _). }
  split_and!; [done|lia|nia].
Qed.

Lemma submission_sends_bounded_requests_witness :
  length (requests (world (UseAIModels.run ampleBrowser
                              (UseAIModels.sendPromptToModels (Some "c1") None twoModels
                                 [modelAlpha; modelBeta] promptAgain)
                              racingSchedule)))
  <= 6.
Proof.
  exact (proj2 (proj2 (submission_sends_bounded_requests ampleBrowser "c1" None twoModels
                         [modelAlpha; modelBeta] promptAgain racingSchedule eq_refl))).
Defined.

(** ** An answer without text *)

Lemma run_empty_answer (B : Browser) (eng : Engine) (t : Task) (l1 l2 : Z) :
  tasks eng = [t] ->
  task_phase t = AwaitingResponse ->
  let eng' := UseAIModels.run B eng [(0, l1, SendResolved); (0, l2, StreamEnds)] in
  UseAIModels.allSettled (tasks eng') = true
  /\ conversations (hook (world eng')) = conversations (hook (world eng)).
Proof.
  intros Ht Hph eng'.
  set (t1 := UseAIModels.setPhase t (Streaming "")).
  assert (H1 : UseAIModels.deliver B eng 0 l1 SendResolved
               = {| world := world eng; tasks := [t1] |}).
  { unfold UseAIModels.deliver. rewrite Ht. cbn [lookup list_lookup].
    unfold UseAIModels.step. rewrite Hph. cbn [list_insert insert].
    change (UseAIModels.allSettled [UseAIModels.setPhase t (Streaming "")]) with false.
    by rewrite andb_false_r. }
  assert (H2 : UseAIModels.deliver B {| world := world eng; tasks := [t1] |} 0 l2 StreamEnds
               = {| world := UseAIModels.refreshAllConversations (world eng);
                    tasks := [UseAIModels.setPhase t1 Settled] |}).
  { unfold UseAIModels.deliver. cbn [tasks lookup list_lookup world].
    rewrite (step_streamEnds B l2 (world eng) t1 "" eq_refl). reflexivity. }
  unfold eng'. rewrite !run_cons, H1, H2. done.
Qed.

(** X28. An answer without text leaves the column loading. When the only
    enabled model answers a submission with a stream that yields no
    fragment and ends, its task is settled, but no state update was made
    for it: the column still shows the prompt with the loading flag set
    that the submission gave it, and no error. *)
Theorem empty_answer_leaves_the_column_loading (B : Browser) (now : Z) (rnd : string)
    (w : World) (prompt : PromptData) (model : AIModel) (id : string)
    (mc : ModelConversation) (ex : Exchange) (later : Z) :
  HookActions.enabledModels (hook w) = [model] ->
  activeConversationId (hook w) = Some id ->
  Js.truthy id = true ->
  conversations (hook w) !! model_id model = Some mc ->
  signalsOf (model_id model) ex = [SendResolved; StreamEnds] ->
  let eng :=
    UseAIModels.run B (UseAIModels.sendPromptToEnabledModels B now rnd w prompt)
      ((fun sig => (0, later, sig)) <$> signalsOf (model_id model) ex) in
  UseAIModels.allSettled (tasks eng) = true
  /\ conversations (hook (world eng)) !! model_id model
     = Some {| mc_modelId := mc_modelId mc;
               mc_messages :=
                 mc_messages mc
                 ++ [ {| msg_role := user; msg_content := text prompt;
                         msg_timestamp := now; msg_modelId := None |} ];
               mc_isLoading := Some true;
               mc_error := None;
               mc_retryCount := Some 0;
               mc_canRetry := Some false;
               mc_lastFailedPrompt := mc_lastFailedPrompt mc |}.
Proof.
  intros Hfilter Hact Hid Hmc Hsig eng. unfold eng. rewrite Hsig.
  unfold HookActions.enabledModels in Hfilter.
  unfold UseAIModels.sendPromptToEnabledModels. rewrite Hfilter, Hact, Hid.
  cbn [length Nat.eqb foldl].
  unfold UseAIModels.sendPromptToModels. rewrite Hid, startTasks_spec.
  match goal with |- context [UseAIModels.allSettled ?ts] =>
    change (UseAIModels.allSettled ts) with false end.
  cbv iota.
  match goal with |- context [UseAIModels.run B ?e _] =>
    destruct (run_empty_answer B e
                (newTask model prompt id
                   (default UseAIModels.defaultRetrySettings
                      (configRetrySettings (hook w)))) later later eq_refl eq_refl)
      as [Hsettled Hcolumns] end.
  split; [exact Hsettled|].
  change ((fun sig : Signal => (0, later, sig)) <$> [SendResolved; StreamEnds])
    with [(0, later, SendResolved); (0, later, StreamEnds)].
  rewrite Hcolumns. cbn [world hook conversations UseAIModels.setConversations
    UseAIModels.setHook UseAIModels.setStorage].
  by rewrite updateIfPresent_eq, Hmc.
Qed.

Lemma empty_answer_leaves_the_column_loading_witness :
  let doneOnly :=
    {| ex_fetch := LMStudioRepository.FetchOk; ex_hasBody := true; ex_lines := [];
       ex_readerEnd := None |} in
  mc_isLoading
    <$> conversations
          (hook (world (UseAIModels.run ampleBrowser
                          (UseAIModels.sendPromptToEnabledModels ampleBrowser 9 "r" world1
                             promptAgain)
                          ((fun sig => (0, 10%Z, sig)) <$> signalsOf "alpha" doneOnly))))
          !! "alpha"
  = Some (Some true).
Proof.
  intros doneOnly.
  pose proof (proj2 (empty_answer_leaves_the_column_loading ampleBrowser 9 "r" world1
                       promptAgain modelAlpha "c1"
                       (UseAIModels.projection chat1 modelAlpha) doneOnly 10
                       eq_refl eq_refl eq_refl eq_refl eq_refl)) as H.
  change (model_id modelAlpha) with "alpha" in H. by rewrite H.
Defined.

(** ** The history switch, and the first run *)

(** X29. The history switch survives a refresh of the roster. After
    [toggleModelHistory] with an accepted write, the roster has the same
    models in the same order, the named model with the new [useHistory]
    and every other field of every model as before; and the models fetched
    from the server afterwards carry the [isEnabled] of the roster and its
    [useHistory] (the new value for the named model, [false] where a model
    had none), except a model whose id is [__proto__], under which nothing
    is stored: it comes back disabled and without history, like a model
    that was not on the roster. *)
Theorem history_switch_survives_refresh (accepts : ConfigStorage -> bool)
    (h : HookState) (cs : ConfigStorage) (modelId : string) (useHistory : bool)
    (ids : list string) :
  unlimited accepts ->
  NoDup (model_id <$> models h) ->
  let toggled := HookActions.toggleModelHistory accepts h cs modelId useHistory in
  let h' := HookActions.fetchModels true toggled.1 toggled.2
              (RepositoryState.ModelsData ids) in
  model_id <$> models toggled.1 = model_id <$> models h
  /\ model_isEnabled <$> models toggled.1 = model_isEnabled <$> models h
  /\ (forall model, model ∈ models toggled.1 -> model_id model = modelId ->
        model_useHistory model = Some useHistory)
  /\ model_id <$> models h' = ids
  /\ (forall model, model ∈ models h' ->
        match find (fun old => String.eqb (model_id old) (model_id model)) (models h) with
        | Some old =>
            if String.eqb (model_id model) "__proto__"
            then model_isEnabled model = false /\ model_useHistory model = Some false
            else
              model_isEnabled model = model_isEnabled old
              /\ model_useHistory model
                 = Some (if String.eqb (model_id model) modelId then useHistory
                         else default false (model_useHistory old))
        | None => model_isEnabled model = false /\ model_useHistory model = Some false
        end).
Proof.
  intros Hacc Hnd toggled h'.
  set (g := fun model : AIModel =>
              if String.eqb (model_id model) modelId
              then {| model_id := model_id model; model_name := model_name model;
                      model_isEnabled := model_isEnabled model;
                      model_isOnline := model_isOnline model;
                      model_useHistory := Some useHistory |}
              else model).
  assert (Hg : forall x, model_id (g x) = model_id x).
  { intros x. unfold g. by destruct (String.eqb (model_id x) modelId). }
  assert (Hge : forall x, model_isEnabled (g x) = model_isEnabled x).
  { intros x. unfold g. by destruct (String.eqb (model_id x) modelId). }
  assert (Hids : model_id <$> (g <$> models h) = model_id <$> models h).
  { rewrite <- list_fmap_compose. apply list_fmap_ext. intros i x _. apply Hg. }
  assert (Hnd' : NoDup (model_id <$> (g <$> models h))) by (by rewrite Hids).
  unfold h', toggled, HookActions.fetchModels, HookActions.toggleModelHistory. fold g.
  unfold StorageService.saveModelPreferences. rewrite Hacc.
  unfold StorageService.applyPreferencesToModels, StorageService.getModelPreferences.
  simpl. split_and!.
  - done.
  - rewrite <- list_fmap_compose. apply list_fmap_ext. intros i x _. apply Hge.
  - intros model (old & -> & Hold)%list_elem_of_fmap Hid. unfold g in *.
    destruct (String.eqb (model_id old) modelId) eqn:E; [done|].
    by apply String.eqb_neq in E.
  - rewrite <- !list_fmap_compose. by rewrite list_fmap_id.
  - intros model (fetched & -> & (id & -> & Hid)%list_elem_of_fmap)%list_elem_of_fmap.
    cbn [model_id model_isEnabled model_useHistory RepositoryState.fetchedModel].
    rewrite preferencesOf_lookup by done. unfold preferenceIn.
    rewrite find_model_fmap by done.
    destruct (find _ (models h)) as [old|] eqn:Hf; cbn [fmap option_fmap option_map].
    + apply find_some in Hf as [_ Hid']. apply String.eqb_eq in Hid'. subst id.
      destruct (String.eqb (model_id old) "__proto__"); [done|].
      unfold g. by destruct (String.eqb (model_id old) modelId).
    + by destruct (String.eqb id "__proto__").
Qed.

Lemma history_switch_survives_refresh_witness :
  let toggled :=
    HookActions.toggleModelHistory (fun _ => true) (hook twoModels) emptyConfigStorage
      "beta" true in
  model_id
    <$> models (HookActions.fetchModels true toggled.1 toggled.2
                  (RepositoryState.ModelsData ["beta"]))
  = ["beta"].
Proof.
  refine (proj1 (proj2 (proj2 (proj2
            (history_switch_survives_refresh (fun _ => true) (hook twoModels)
               emptyConfigStorage "beta" true ["beta"] _ _))))).
  - by intros cs.
  - by apply (bool_decide_unpack _).
Defined.

(** X30. The first run creates one conversation. With nothing stored, the
    mount effect leaves the state without conversations, and the effect
    that follows it creates a conversation titled "New Conversation", which
    is then the only stored one and the active one, in the state and in the
    store; running that effect again creates nothing. *)
Theorem first_run_creates_one_conversation (B : Browser) (now : Z) (rnd : string)
    (w : World) (later : Z) (rnd' : string) :
  ample B ->
  ls_conversations (storage w) = None ->
  ls_active (storage w) = None ->
  let fresh := freshConversation now rnd "New Conversation" in
  let mounted := HookActions.mountConversations B w in
  let w' := HookActions.ensureConversation B now rnd mounted in
  allConversations (hook mounted) = []
  /\ activeConversationId (hook mounted) = None
  /\ storage mounted = storage w
  /\ ConversationService.getAllConversations (storage w') = [fresh]
  /\ ls_active (storage w') = Some (conv_id fresh)
  /\ activeConversationId (hook w') = Some (conv_id fresh)
  /\ allConversations (hook w') = [fresh]
  /\ HookActions.ensureConversation B later rnd' w' = w'.
Proof.
  intros HB Hconv Hact fresh mounted w'.
  assert (Hm : mounted
               = UseAIModels.setActiveConversationId
                   (UseAIModels.setAllConversations w []) None).
  { unfold mounted, HookActions.mountConversations,
      ConversationService.getAllConversations,
      ConversationService.getActiveConversationId.
    by rewrite Hconv, Hact. }
  assert (Hw' : w' = UseAIModels.setAllConversations
                       (UseAIModels.setActiveConversationId
                          (UseAIModels.setStorage mounted
                             {| ls_conversations := Some [fresh];
                                ls_active := Some (conv_id fresh) |})
                          (Some (conv_id fresh)))
                       [fresh]).
  { unfold w', HookActions.ensureConversation. rewrite Hm. cbn [hook
      UseAIModels.setActiveConversationId UseAIModels.setAllConversations
      UseAIModels.setHook allConversations activeConversationId length Nat.eqb
      andb negb storage].
    rewrite (ample_createConversation B now rnd (storage w) None HB)
      by (unfold ConversationService.getAllConversations; rewrite Hconv; simpl; lia).
    unfold ConversationService.getAllConversations. by rewrite Hconv. }
  rewrite Hw'. rewrite Hm. by split_and!.
Qed.

Lemma first_run_creates_one_conversation_witness :
  ConversationService.getAllConversations
    (storage (HookActions.ensureConversation ampleBrowser 7 "r"
                (HookActions.mountConversations ampleBrowser
                   {| hook := hook world1; storage := emptyStorage; requests := [] |})))
  = [freshConversation 7 "r" "New Conversation"].
Proof.
  exact (proj1 (proj2 (proj2 (proj2
           (first_run_creates_one_conversation ampleBrowser 7 "r"
              {| hook := hook world1; storage := emptyStorage; requests := [] |}
              8 "s" ampleBrowser_ample eq_refl eq_refl))))).
Defined.
